(** * Market-making agents of sn-79: a shallow embedding and its properties

    The agents under [agents/] are Python classes whose [respond] method maps
    one state update (books, accounts, configuration) to a list of order
    instructions.  Python floats are modelled by exact rationals ([Q]); the
    few functions that call [math.log], [math.sqrt] or [np.exp] are modelled
    over the reals ([R]).  Dictionaries iterated in insertion order are
    association lists, dictionaries used as keyed stores are [gmap]s.

    Floating-point rounding error, infinities and NaN are outside the model.
    Calls into numpy's [std] and into the library's book snapshots and trade
    records are parameters of the sections that use them; exceptions are
    values of [Result], and a [try]/[except] of the source is a match on
    them. *)

From Stdlib Require Import ZArith QArith Qround Qminmax Qabs Qpower List Bool Lia.
From Stdlib Require Import Reals Psatz.
From stdpp Require Import gmap strings.

Import ListNotations.
Local Open Scope Z_scope.
Local Open Scope Q_scope.

(* ===================================================================== *)
(** * Python numerics on exact rationals *)
(* ===================================================================== *)

Module Py.

(** [x < y], [x <= y], [x == y] on floats. *)
Definition ltb (x y : Q) : bool :=
  match x ?= y with Lt => true | _ => false end.
Definition leb (x y : Q) : bool :=
  match x ?= y with Gt => false | _ => true end.
Definition eqb (x y : Q) : bool :=
  match x ?= y with Eq => true | _ => false end.

(** [10 ** d] for an integer [d] of either sign. *)
Definition pow10 (d : Z) : Q := Qpower 10 d.

(** [int(x)]: truncation toward zero. *)
Definition int (x : Q) : Z := Z.quot (Qnum x) (Zpos (Qden x)).

(** [round(x)]: nearest integer, ties to even. *)
Definition round_half_even (x : Q) : Z :=
  let f := Qfloor x in
  match ((x - inject_Z f) ?= 0.5)%Q with
  | Lt => f
  | Gt => (f + 1)%Z
  | Eq => if Z.even f then f else (f + 1)%Z
  end.

(** [round(x, ndigits)]. *)
Definition round (x : Q) (ndigits : Z) : Q :=
  inject_Z (round_half_even (x * pow10 ndigits)) / pow10 ndigits.

(** [max(a, b)] and [min(a, b)] are [Qmax a b] and [Qmin a b]: both return
    the first argument on ties. *)

(** [l[:d]] with Python's treatment of a negative bound. *)
Definition slice_to {A} (l : list A) (d : Z) : list A :=
  if (0 <=? d)%Z then firstn (Z.to_nat d) l
  else firstn (Z.to_nat (Z.of_nat (length l) + d)) l.

(** [l[-n:]]: the last [n] items; the whole list for [n = 0], and [l[k:]]
    for [n = -k < 0]. *)
Definition slice_last {A} (l : list A) (n : Z) : list A :=
  if (n =? 0)%Z then l
  else if (0 <? n)%Z then skipn (length l - Z.to_nat n) l
  else skipn (Z.to_nat (- n)) l.

(** [sum(xs)] starting from [0]. *)
Definition sum (xs : list Q) : Q := fold_left Qplus xs 0.

(** [collections.deque(maxlen=n).append(x)]. *)
Definition deque_append {A} (maxlen : nat) (d : list A) (x : A) : list A :=
  skipn (length (d ++ [x]) - maxlen) (d ++ [x]).

End Py.

(* ===================================================================== *)
(** * Protocol objects ([taos.im.protocol]) as the agents read them *)
(* ===================================================================== *)

Inductive OrderDirection := BUY | SELL.

Definition direction_eqb (a b : OrderDirection) : bool :=
  match a, b with BUY, BUY | SELL, SELL => true | _, _ => false end.

Inductive STP := CANCEL_OLDEST | CANCEL_NEWEST | CANCEL_BOTH | DECREASE_CANCEL.
Inductive TimeInForce := GTC | GTT | IOC | FOK.

(** One order inside a detailed (L3) level. *)
Record LevelOrder := { lo_id : Z; lo_quantity : Q }.

Record Level := {
  lvl_price : Q;
  lvl_quantity : Q;
  lvl_orders : option (list LevelOrder)
}.

(** Book events; only trades (type ["t"]) are read by the agents. *)
Inductive Event :=
| TradeInfo (side : OrderDirection) (quantity price : Q)
            (maker_agent_id taker_agent_id : Z)
| OtherEvent.

Record Book := {
  bids : list Level;
  asks : list Level;
  events : list Event
}.

(** An open order of the account; [price] is [None] for market orders. *)
Record Order := {
  ord_id : Z;
  ord_side : OrderDirection;
  ord_price : option Q;
  ord_quantity : Q;
  ord_timestamp : Z
}.

Record Balance := { total : Q; free : Q; reserved : Q }.

Record Fees := { maker_fee_rate : Q; taker_fee_rate : Q }.

Record Account := {
  own_base : Q;
  own_quote : Q;
  base_balance : Balance;
  quote_balance : Balance;
  base_loan : Q;
  base_collateral : Q;
  quote_loan : Q;
  fees : option Fees;
  orders : list Order
}.

(** Instructions appended to a [FinanceAgentResponse].  Keyword arguments a
    call site leaves out are [None]. *)
Inductive Instruction :=
| limit_order (book_id : Z) (direction : OrderDirection) (quantity price : Q)
              (clientOrderId : option Z) (stp : option STP)
              (postOnly : option bool) (timeInForce : option TimeInForce)
              (expiryPeriod : option Z)
| market_order (book_id : Z) (direction : OrderDirection) (quantity : Q)
               (stp : option STP)
| cancel_orders (book_id : Z) (order_ids : list Z).

Definition Response := list Instruction.

Definition is_placement (i : Instruction) : bool :=
  match i with cancel_orders _ _ => false | _ => true end.

Definition places (d : OrderDirection) (b : Z) (i : Instruction) : bool :=
  match i with
  | limit_order b' d' _ _ _ _ _ _ _ => Z.eqb b b' && direction_eqb d d'
  | market_order b' d' _ _ => Z.eqb b b' && direction_eqb d d'
  | cancel_orders _ _ => false
  end.

(** [dict.get] on a dictionary kept in insertion order. *)
Fixpoint dict_get {V} (d : list (Z * V)) (k : Z) : option V :=
  match d with
  | [] => None
  | (k', v) :: d' => if Z.eqb k k' then Some v else dict_get d' k
  end.

(* ===================================================================== *)
(** * OrderBookImbalanceMarketMaker *)
(* ===================================================================== *)

Module OrderBookImbalanceMarketMaker.

(** [calculate_order_book_imbalance(book, depth)]. *)
Definition calculate_order_book_imbalance (book : Book) (depth : Z) : Q :=
  let bid_volume := Py.sum (map lvl_quantity (Py.slice_to (bids book) depth)) in
  let ask_volume := Py.sum (map lvl_quantity (Py.slice_to (asks book) depth)) in
  let total_volume := bid_volume + ask_volume in
  if Py.eqb total_volume 0 then 0.0
  else (bid_volume - ask_volume) / total_volume.

(** [calculate_microprice(book)]. *)
Definition calculate_microprice (book : Book) : Q :=
  match bids book, asks book with
  | b :: _, a :: _ =>
      let best_bid := lvl_price b in
      let best_ask := lvl_price a in
      let bid_volume := lvl_quantity b in
      let ask_volume := lvl_quantity a in
      let total_volume := bid_volume + ask_volume in
      if Py.eqb total_volume 0 then (best_bid + best_ask) / 2
      else (best_bid * ask_volume + best_ask * bid_volume) / total_volume
  | _, _ => 0.0
  end.

(** ** The volatility estimate, over the reals *)

Section Volatility.

Local Open Scope R_scope.

(** [np.diff(np.log(prices))]. *)
Fixpoint log_returns (prices : list R) : list R :=
  match prices with
  | p0 :: ((p1 :: _) as rest) => (ln p1 - ln p0) :: log_returns rest
  | _ => []
  end.

(** [np.exp(np.linspace(-1, 0, n))], item [i]. *)
Definition raw_weight (n i : nat) : R :=
  exp (-1 + INR i / INR (n - 1)).

Definition Rsum (xs : list R) : R := fold_left Rplus xs 0.

(** [estimate_volatility(validator, book_id, current_price)]: the price
    histories after the append, and the estimate. *)
Definition estimate_volatility (lookback_periods : nat)
           (book_state : gmap string (gmap Z (list R)))
           (validator : string) (book_id : Z) (current_price : R)
  : gmap string (gmap Z (list R)) * R :=
  let by_book := default ∅ (book_state !! validator) in
  let history :=
    Py.deque_append lookback_periods (default [] (by_book !! book_id))
                    current_price in
  let book_state' := <[validator := <[book_id := history]> by_book]> book_state in
  if (length history <? 3)%nat then (book_state', 0.001)
  else
    let rets := log_returns history in
    let n := length rets in
    let ws := map (raw_weight n) (seq 0 n) in
    let wsum := Rsum ws in
    let weighted :=
      Rsum (map (fun '(w, r) => w / wsum * (r * r)) (combine ws rets)) in
    (book_state', Rmax (sqrt weighted) 0.0001).

End Volatility.

End OrderBookImbalanceMarketMaker.

(* ===================================================================== *)
(** * L3MarketMakerAgent *)
(* ===================================================================== *)

Module L3MarketMakerAgent.

(** The knobs read in [initialize]. *)
Record Config := {
  depth_levels : Z;
  min_half_spread_ticks : Z;
  max_half_spread_ticks : Z;
  inside_tick_if_safe : Z;
  inv_cap_base : Q;
  inv_soft_cap_base : Q;
  max_skew_ticks : Z;
  min_order_size : Q;
  max_order_size : Q;
  size_frac_top : Q;
  max_order_age_mult : Q;
  reprice_ticks : Z;
  vol_ewma_alpha : Q;
  vol_toxic_threshold : Q;
  imb_toxic_threshold : Q;
  trade_imb_toxic_threshold : Q;
  cooldown_mult : Q;
  loss_cooldown_mult : Q;
  dd_stop_frac : Q;
  hard_flatten_frac : Q
}.

(** The defaults of [initialize]. *)
Definition default_config : Config := {|
  depth_levels := 5;
  min_half_spread_ticks := 1;
  max_half_spread_ticks := 6;
  inside_tick_if_safe := 1;
  inv_cap_base := 4.0;
  inv_soft_cap_base := 2.0;
  max_skew_ticks := 6;
  min_order_size := 0.2;
  max_order_size := 2.5;
  size_frac_top := 0.015;
  max_order_age_mult := 2.2;
  reprice_ticks := 1;
  vol_ewma_alpha := 0.12;
  vol_toxic_threshold := 0.0015;
  imb_toxic_threshold := 0.55;
  trade_imb_toxic_threshold := 0.65;
  cooldown_mult := 1.5;
  loss_cooldown_mult := 6.0;
  dd_stop_frac := 0.02;
  hard_flatten_frac := 0.80
|}.

(** The dataclass [_BookState]. *)
Record _BookState := {
  base_target : option Q;
  wealth0 : option Q;
  mid_last : option Q;
  vol_ewma : Q;
  cooldown_until : Z;
  loss_cooldown_until : Z
}.

Definition new_BookState : _BookState := {|
  base_target := None; wealth0 := None; mid_last := None;
  vol_ewma := 0.0; cooldown_until := 0; loss_cooldown_until := 0
|}.

(** The agent's own attributes: [self._books], [self._client_id] and the
    accounts the framework keeps in [self.accounts]. *)
Record Agent := {
  _books : gmap Z _BookState;
  _client_id : Z;
  accounts : list (Z * Account)
}.

(** What [respond] reads of a [MarketSimulationStateUpdate]. *)
Record StateUpdate := {
  priceDecimals : Z;
  volumeDecimals : Z;
  publish_interval : Z;
  timestamp : Z;
  books : list (Z * Book)
}.

Definition _tick (price_decimals : Z) : Q := Py.pow10 (- price_decimals).

Definition _round_to_tick (x tick : Q) (decimals : Z) : Q :=
  Py.round (inject_Z (Py.round_half_even (x / tick)) * tick) decimals.

Definition _clamp (x lo hi : Q) : Q :=
  if Py.ltb x lo then lo else if Py.ltb hi x then hi else x.

(** [_clamp] applied to integers. *)
Definition _clampZ (x lo hi : Z) : Z :=
  if (x <? lo)%Z then lo else if (hi <? x)%Z then hi else x.

Definition _best_levels (book : Book) : option (Q * Q * Q * Q) :=
  match bids book, asks book with
  | b :: _, a :: _ =>
      Some (lvl_price b, lvl_price a, lvl_quantity b, lvl_quantity a)
  | _, _ => None
  end.

Definition _depth_imbalance (book : Book) (depth : Z) : Q :=
  let bq := fold_left (fun acc lvl => acc + lvl_quantity lvl)
                      (Py.slice_to (bids book) depth) 0.0 in
  let aq := fold_left (fun acc lvl => acc + lvl_quantity lvl)
                      (Py.slice_to (asks book) depth) 0.0 in
  let denom := bq + aq in
  if Py.leb denom 0 then 0.0 else (bq - aq) / denom.

Definition _trade_imbalance (book : Book) : Q :=
  match events book with
  | [] => 0.0
  | evs =>
      let '(buy, sell) :=
        fold_left (fun '(buy, sell) ev =>
                     match ev with
                     | TradeInfo BUY q _ _ _ => (buy + q, sell)
                     | TradeInfo SELL q _ _ _ => (buy, sell + q)
                     | OtherEvent => (buy, sell)
                     end) evs (0.0, 0.0) in
      let denom := buy + sell in
      if Py.leb denom 0 then 0.0 else (buy - sell) / denom
  end.

(** Orders without a price are skipped; the price is returned with the
    order. *)
Fixpoint _open_orders_by_side (os : list Order)
  : list (Order * Q) * list (Order * Q) :=
  match os with
  | [] => ([], [])
  | o :: os' =>
      let '(bs, as_) := _open_orders_by_side os' in
      match ord_price o with
      | None => (bs, as_)
      | Some p =>
          match ord_side o with
          | BUY => ((o, p) :: bs, as_)
          | SELL => (bs, (o, p) :: as_)
          end
      end
  end.

(** The inner loop of [_queue_ahead]: quantity queued before [my_order_id]. *)
Fixpoint ahead_of (my_order_id : Z) (os : list LevelOrder) (ahead : Q) : Q :=
  match os with
  | [] => ahead
  | o :: os' =>
      if Z.eqb (lo_id o) my_order_id then ahead
      else ahead_of my_order_id os' (ahead + lo_quantity o)
  end.

Fixpoint queue_ahead_levels (levels : list Level) (price : Q)
         (my_order_id : option Z) : option Q :=
  match levels with
  | [] => None
  | lvl :: rest =>
      if negb (Py.eqb (lvl_price lvl) price)
      then queue_ahead_levels rest price my_order_id
      else match lvl_orders lvl with
           | None | Some [] => None
           | Some os =>
               match my_order_id with
               | None => Some (Py.sum (map lo_quantity os))
               | Some id => Some (ahead_of id os 0.0)
               end
           end
  end.

Definition _queue_ahead (book : Book) (side : OrderDirection) (price : Q)
           (my_order_id : option Z) : option Q :=
  let levels := match side with BUY => bids book | SELL => asks book end in
  queue_ahead_levels (Py.slice_to levels 5) price my_order_id.

(** [max(xs, key=price)] and [min(xs, key=price)]: the first extremal item. *)
Fixpoint max_by_price (best : Order * Q) (xs : list (Order * Q)) : Order * Q :=
  match xs with
  | [] => best
  | x :: xs' => max_by_price (if Py.ltb (snd best) (snd x) then x else best) xs'
  end.

Fixpoint min_by_price (best : Order * Q) (xs : list (Order * Q)) : Order * Q :=
  match xs with
  | [] => best
  | x :: xs' => min_by_price (if Py.ltb (snd x) (snd best) then x else best) xs'
  end.

Definition priced_ids (os : list Order) : list Z :=
  map ord_id (List.filter (fun o => match ord_price o with Some _ => true | None => false end) os).

(** [if account.orders: response.cancel_orders(book_id, [...])]. *)
Definition cancel_all (book_id : Z) (account : Account) : Response :=
  match orders account with
  | [] => []
  | os => [cancel_orders book_id (priced_ids os)]
  end.

Definition mem_id (id : Z) (ids : list Z) : bool := existsb (Z.eqb id) ids.


(** ** First pass of [respond]: lazy book state and aggregate PnL *)

(** One iteration of the first loop; returns the updated store and the
    book's contribution [(pnl, wealth0)] to the totals, if any. *)
Definition first_pass_step (accts : list (Z * Account))
           (store : gmap Z _BookState) (book_id : Z) (book : Book)
  : gmap Z _BookState * option (Q * Q) :=
  let store1 :=
    match store !! book_id with
    | None => <[book_id := new_BookState]> store
    | Some _ => store
    end in
  let bs := default new_BookState (store1 !! book_id) in
  match dict_get accts book_id with
  | None => (store1, None)
  | Some account =>
      match _best_levels book with
      | None => (store1, None)
      | Some (bid, ask, _, _) =>
          let mid := 0.5 * (bid + ask) in
          let bt := match base_target bs with
                    | None => own_base account
                    | Some t => t
                    end in
          let w0 := match wealth0 bs with
                    | None => own_quote account + own_base account * mid
                    | Some w => w
                    end in
          let bs' := {| base_target := Some bt; wealth0 := Some w0;
                        mid_last := mid_last bs; vol_ewma := vol_ewma bs;
                        cooldown_until := cooldown_until bs;
                        loss_cooldown_until := loss_cooldown_until bs |} in
          let wealth := own_quote account + own_base account * mid in
          let pnl := wealth - w0 in
          (<[book_id := bs']> store1, Some (pnl, w0))
      end
  end.

(** The whole first loop: [(self._books, total_pnl, total_w0)]. *)
Definition first_pass (accts : list (Z * Account)) (bks : list (Z * Book))
           (store : gmap Z _BookState) : gmap Z _BookState * Q * Q :=
  fold_left
    (fun '(store, total_pnl, total_w0) '(book_id, book) =>
       match first_pass_step accts store book_id book with
       | (store', Some (pnl, w0)) => (store', total_pnl + pnl, total_w0 + w0)
       | (store', None) => (store', total_pnl, total_w0)
       end)
    bks (store, 0.0, 0.0).

(** The kill-switch test. *)
Definition kill_switch (cfg : Config) (total_pnl total_w0 : Q) : bool :=
  Py.ltb 0 total_w0 && Py.ltb total_pnl (- dd_stop_frac cfg * total_w0).

(** The kill-switch response: one cancellation per account with orders. *)
Definition kill_response (accts : list (Z * Account)) : Response :=
  flat_map (fun '(book_id, account) => cancel_all book_id account) accts.

(** ** Second pass: the per-book body *)

(** Lines 249-286: forced de-risking once [abs(inv) > inv_cap_base]. *)
Definition hard_cap_derisk (cfg : Config) (vol_dec book_id : Z)
           (account : Account) (inv bid ask : Q) : Response :=
  let '(bids_open, asks_open) := _open_orders_by_side (orders account) in
  let cancel_ids :=
    if Py.ltb 0 inv then map (fun x => ord_id (fst x)) bids_open
    else map (fun x => ord_id (fst x)) asks_open in
  let cancels :=
    match cancel_ids with [] => [] | _ => [cancel_orders book_id cancel_ids] end in
  let excess := Qabs inv - inv_soft_cap_base cfg in
  if Py.ltb 0 excess then
    let qty := _clamp (excess * hard_flatten_frac cfg)
                      (min_order_size cfg) (max_order_size cfg) in
    let qty := Py.round qty vol_dec in
    if Py.ltb 0 inv then
      cancels ++ [limit_order book_id SELL qty bid None (Some CANCEL_BOTH)
                              (Some false) (Some IOC) None]
    else
      cancels ++ [limit_order book_id BUY qty ask None (Some CANCEL_BOTH)
                              (Some false) (Some IOC) None]
  else cancels.

(** The quote decision of lines 288-353.  The half spread in ticks is
    rounded on its exact value, a tie at every odd number of ticks; the
    binary64 quotient of the source need not be a tie there and may round
    to the neighbouring tick. *)
Record Quote := {
  bid_px : Q;
  ask_px : Q;
  quote_bid : bool;
  quote_ask : bool;
  qty : Q
}.

Definition compute_quote (cfg : Config) (price_dec vol_dec : Z)
           (book : Book) (account : Account)
           (bid ask bidq0 askq0 imb t_imb inv : Q) (toxic : bool) : Quote :=
  let tick := _tick price_dec in
  let spread := ask - bid in
  let mid := 0.5 * (bid + ask) in
  let micro := mid + 0.25 * imb * spread + 0.15 * t_imb * spread in
  let half_spread_ticks := Py.round_half_even (0.5 * spread / tick) in
  let half_spread_ticks :=
    _clampZ half_spread_ticks (min_half_spread_ticks cfg)
            (max_half_spread_ticks cfg) in
  let inv_norm :=
    _clamp (inv / Qmax (inv_soft_cap_base cfg) 1e-9) (-1.0) 1.0 in
  let skew_ticks :=
    Py.round_half_even (inv_norm * inject_Z (max_skew_ticks cfg)) in
  let bid_px := micro - inject_Z half_spread_ticks * tick
                - inject_Z skew_ticks * tick in
  let ask_px := micro + inject_Z half_spread_ticks * tick
                - inject_Z skew_ticks * tick in
  let bid_px := Qmin bid_px (ask - tick) in
  let ask_px := Qmax ask_px (bid + tick) in
  let '(bid_px, ask_px) :=
    if negb toxic && Py.leb (3 * tick) spread
       && negb (Z.eqb (inside_tick_if_safe cfg) 0)
    then
      let '(bids_open, asks_open) := _open_orders_by_side (orders account) in
      let my_bid := match bids_open with x :: _ => Some (ord_id (fst x)) | [] => None end in
      let my_ask := match asks_open with x :: _ => Some (ord_id (fst x)) | [] => None end in
      let bid_px :=
        if Py.leb bid_px bid then
          match _queue_ahead book BUY bid my_bid with
          | Some qa =>
              if Py.ltb 0.70 (qa / Qmax bidq0 1e-9) then bid + tick else bid_px
          | None => bid_px
          end
        else bid_px in
      let ask_px :=
        if Py.leb ask ask_px then
          match _queue_ahead book SELL ask my_ask with
          | Some qa =>
              if Py.ltb 0.70 (qa / Qmax askq0 1e-9) then ask - tick else ask_px
          | None => ask_px
          end
        else ask_px in
      (bid_px, ask_px)
    else (bid_px, ask_px) in
  let quote_ask := negb (toxic && Py.ltb 0 imb) in
  let quote_bid := negb (toxic && negb (Py.ltb 0 imb) && Py.ltb imb 0) in
  let top_liq := 0.5 * (bidq0 + askq0) in
  let qty := _clamp (size_frac_top cfg * top_liq)
                    (min_order_size cfg) (max_order_size cfg) in
  let inv_abs := Qabs inv in
  let qty :=
    if Py.ltb (0.5 * inv_soft_cap_base cfg) inv_abs then
      let shrink :=
        _clamp (1.0 - (inv_abs / Qmax (inv_soft_cap_base cfg) 1e-9) * 0.7)
               0.2 1.0 in
      qty * shrink
    else qty in
  let qty := Py.round qty vol_dec in
  let bid_px := _round_to_tick bid_px tick price_dec in
  let ask_px := _round_to_tick ask_px tick price_dec in
  let bid_px :=
    if Py.leb ask bid_px then _round_to_tick (ask - tick) tick price_dec
    else bid_px in
  let ask_px :=
    if Py.leb ask_px bid then _round_to_tick (bid + tick) tick price_dec
    else ask_px in
  {| bid_px := bid_px; ask_px := ask_px;
     quote_bid := quote_bid; quote_ask := quote_ask; qty := qty |}.

(** A resting order is cancelled when its side is not quoted, when it is
    older than [max_age], or when it sits [reprice_ticks] ticks or more away
    from the desired price.  The distance in ticks is the exact quotient: at
    a distance of exactly [reprice_ticks] ticks the binary64 quotient of the
    source may fall just below the bound and keep the order. *)
Definition must_cancel (cfg : Config) (tick : Q) (now max_age : Z)
           (quote_side : bool) (o : Order * Q) (px : Q) : bool :=
  negb quote_side
  || (max_age <? now - ord_timestamp (fst o))%Z
  || Py.leb (inject_Z (reprice_ticks cfg) * tick) (Qabs (snd o - px)).

Definition best_bid_order (account : Account) : option (Order * Q) :=
  match fst (_open_orders_by_side (orders account)) with
  | [] => None
  | x :: xs => Some (max_by_price x (x :: xs))
  end.

Definition best_ask_order (account : Account) : option (Order * Q) :=
  match snd (_open_orders_by_side (orders account)) with
  | [] => None
  | x :: xs => Some (min_by_price x (x :: xs))
  end.

Definition max_age (cfg : Config) (publish_interval : Z) : Z :=
  Py.int (max_order_age_mult cfg * inject_Z publish_interval).

(** [cancel_ids] of lines 360-371. *)
Definition lifecycle_cancel_ids (cfg : Config) (tick : Q)
           (now publish_interval : Z) (account : Account) (q : Quote)
  : list Z :=
  let age_limit := max_age cfg publish_interval in
  let cancel_bid :=
    match best_bid_order account with
    | Some o =>
        if must_cancel cfg tick now age_limit (quote_bid q) o (bid_px q)
        then [ord_id (fst o)] else []
    | None => []
    end in
  let cancel_ask :=
    match best_ask_order account with
    | Some o =>
        if must_cancel cfg tick now age_limit (quote_ask q) o (ask_px q)
        then [ord_id (fst o)] else []
    | None => []
    end in
  cancel_bid ++ cancel_ask.

(** Lines 356-407: cancel stale or misaligned orders, then place what is
    missing.  Returns the new [_client_id] and the instructions. *)
Definition manage_orders (cfg : Config) (tick : Q) (now publish_interval : Z)
           (book_id : Z) (account : Account) (q : Quote) (client_id : Z)
  : Z * Response :=
  let cancel_ids := lifecycle_cancel_ids cfg tick now publish_interval account q in
  let cancels :=
    match cancel_ids with [] => [] | _ => [cancel_orders book_id cancel_ids] end in
  let expiry := Py.int (2.2 * inject_Z publish_interval) in
  let place_bid :=
    quote_bid q && Py.leb (min_order_size cfg) (qty q)
    && match best_bid_order account with
       | None => true
       | Some o => mem_id (ord_id (fst o)) cancel_ids
       end in
  let cid1 := if place_bid then (client_id + 1)%Z else client_id in
  let new_bid :=
    if place_bid
    then [limit_order book_id BUY (qty q) (bid_px q) (Some cid1)
                      (Some CANCEL_BOTH) (Some true) (Some GTT) (Some expiry)]
    else [] in
  let place_ask :=
    quote_ask q && Py.leb (min_order_size cfg) (qty q)
    && match best_ask_order account with
       | None => true
       | Some o => mem_id (ord_id (fst o)) cancel_ids
       end in
  let cid2 := if place_ask then (cid1 + 1)%Z else cid1 in
  let new_ask :=
    if place_ask
    then [limit_order book_id SELL (qty q) (ask_px q) (Some cid2)
                      (Some CANCEL_BOTH) (Some true) (Some GTT) (Some expiry)]
    else [] in
  (cid2, cancels ++ new_bid ++ new_ask).

(** Lines 409-416: the per-book loss test at the end of the body. *)
Definition loss_breach (cfg : Config) (account : Account) (bs : _BookState)
           (mid : Q) : bool :=
  match wealth0 bs with
  | None => false
  | Some w0 =>
      let wealth := own_quote account + own_base account * mid in
      Py.ltb (wealth - w0) (- dd_stop_frac cfg * w0)
  end.

(** The signals computed before the inventory test (lines 229-246). *)
Definition step_vol (cfg : Config) (bs : _BookState) (mid : Q) : Q :=
  match mid_last bs with
  | Some m0 =>
      let step_ret := Qabs (mid - m0) / Qmax mid 1e-12 in
      (1.0 - vol_ewma_alpha cfg) * vol_ewma bs + vol_ewma_alpha cfg * step_ret
  | None => vol_ewma bs
  end.

Definition is_toxic (cfg : Config) (vol imb t_imb : Q) : bool :=
  Py.ltb (vol_toxic_threshold cfg) vol
  || (Py.ltb (imb_toxic_threshold cfg) (Qabs imb)
      && Py.ltb (trade_imb_toxic_threshold cfg) (Qabs t_imb)).

Definition inventory (account : Account) (bs : _BookState) : Q :=
  own_base account - match base_target bs with Some t => t | None => 0.0 end.

Definition in_cooldown (now : Z) (bs : _BookState) : bool :=
  (now <? cooldown_until bs)%Z || (now <? loss_cooldown_until bs)%Z.

(** The body of the second loop once [account] and [bs] are at hand. *)
Definition book_body (cfg : Config) (su : StateUpdate) (book_id : Z)
           (book : Book) (account : Account) (bs : _BookState) (client_id : Z)
  : _BookState * Z * Response :=
  let price_dec := priceDecimals su in
  let vol_dec := volumeDecimals su in
  let tick := _tick price_dec in
  let now := timestamp su in
  if in_cooldown now bs then (bs, client_id, cancel_all book_id account)
  else
    match _best_levels book with
    | None => (bs, client_id, [])
    | Some (bid, ask, bidq0, askq0) =>
        let spread := ask - bid in
        if Py.leb spread 0 then (bs, client_id, [])
        else
          let mid := 0.5 * (bid + ask) in
          let vol := step_vol cfg bs mid in
          let depth := Z.max 1 (depth_levels cfg) in
          let imb := _depth_imbalance book depth in
          let t_imb := _trade_imbalance book in
          let toxic := is_toxic cfg vol imb t_imb in
          let cd :=
            if toxic
            then (now + Py.int (cooldown_mult cfg * inject_Z (publish_interval su)))%Z
            else cooldown_until bs in
          let bs1 := {| base_target := base_target bs; wealth0 := wealth0 bs;
                        mid_last := Some mid; vol_ewma := vol;
                        cooldown_until := cd;
                        loss_cooldown_until := loss_cooldown_until bs |} in
          let inv := inventory account bs in
          if Py.ltb (inv_cap_base cfg) (Qabs inv) then
            (bs1, client_id, hard_cap_derisk cfg vol_dec book_id account inv bid ask)
          else
            let q := compute_quote cfg price_dec vol_dec book account
                                   bid ask bidq0 askq0 imb t_imb inv toxic in
            let '(cid, instrs) :=
              manage_orders cfg tick now (publish_interval su) book_id account
                            q client_id in
            if loss_breach cfg account bs1 mid then
              let bs2 := {| base_target := base_target bs1; wealth0 := wealth0 bs1;
                            mid_last := mid_last bs1; vol_ewma := vol_ewma bs1;
                            cooldown_until := cooldown_until bs1;
                            loss_cooldown_until :=
                              (now + Py.int (loss_cooldown_mult cfg
                                             * inject_Z (publish_interval su)))%Z |} in
              (bs2, cid, instrs ++ cancel_all book_id account)
            else (bs1, cid, instrs)
    end.

(** One iteration of the second loop.  A missing account skips the book; a
    missing [_BookState] raises [KeyError], which the [except] clause logs. *)
Definition book_step (cfg : Config) (su : StateUpdate)
           (accts : list (Z * Account)) (store : gmap Z _BookState)
           (client_id : Z) (book_id : Z) (book : Book)
  : gmap Z _BookState * Z * Response :=
  match dict_get accts book_id with
  | None => (store, client_id, [])
  | Some account =>
      match store !! book_id with
      | None => (store, client_id, [])
      | Some bs =>
          let '(bs', cid, instrs) :=
            book_body cfg su book_id book account bs client_id in
          (<[book_id := bs']> store, cid, instrs)
      end
  end.

Definition second_pass (cfg : Config) (su : StateUpdate)
           (accts : list (Z * Account)) (store : gmap Z _BookState)
           (client_id : Z) : gmap Z _BookState * Z * Response :=
  fold_left
    (fun '(store, cid, resp) '(book_id, book) =>
       let '(store', cid', instrs) :=
         book_step cfg su accts store cid book_id book in
       (store', cid', resp ++ instrs))
    (books su) (store, client_id, []).

(** [respond(state)]: the agent after the call and the response. *)
Definition respond (cfg : Config) (self : Agent) (su : StateUpdate)
  : Agent * Response :=
  let '(store1, total_pnl, total_w0) :=
    first_pass (accounts self) (books su) (_books self) in
  if kill_switch cfg total_pnl total_w0 then
    ({| _books := store1; _client_id := _client_id self;
        accounts := accounts self |},
     kill_response (accounts self))
  else
    let '(store2, cid, resp) :=
      second_pass cfg su (accounts self) store1 (_client_id self) in
    ({| _books := store2; _client_id := cid; accounts := accounts self |}, resp).

End L3MarketMakerAgent.

(* ===================================================================== *)
(** * Exceptions *)
(* ===================================================================== *)

Inductive Exception := TypeError | KeyError | AttributeError | ZeroDivisionError.

(** The outcome of code that may raise. *)
Inductive Result (A : Type) :=
| Ok (a : A)
| Raise (e : Exception).
Arguments Ok {A} a.
Arguments Raise {A} e.

Definition bind {A B} (r : Result A) (k : A -> Result B) : Result B :=
  match r with
  | Ok a => k a
  | Raise e => Raise e
  end.

Notation "'try' x <- r 'in' k" := (bind r (fun x => k))
  (at level 10, x pattern, r at level 100, k at level 200).

(** A [for] loop whose body may raise and is not guarded: the first
    exception leaves the loop. *)
Fixpoint for_each {S X} (body : S -> X -> Result S) (xs : list X) (s : S)
  : Result S :=
  match xs with
  | [] => Ok s
  | x :: xs' => try s' <- body s x in for_each body xs' s'
  end.

(** [state.accounts]: [None] or a dictionary by agent uid of dictionaries by
    book id. *)
Definition Accounts := option (list (Z * list (Z * Account))).

(** [np.diff(prices) / prices[:-1]]. *)
Fixpoint simple_returns (prices : list Q) : list Q :=
  match prices with
  | p0 :: ((p1 :: _) as rest) => (p1 - p0) / p0 :: simple_returns rest
  | _ => []
  end.

(** [np.clip(x, lo, hi)]: [minimum(maximum(x, lo), hi)]. *)
Definition np_clip (x lo hi : Q) : Q := Qmin (Qmax x lo) hi.

(** The outcome of code that may also raise [IndexError] or [ValueError]. *)
Inductive Raised := builtin (e : Exception) | IndexError | ValueError.

Inductive Try (A : Type) :=
| Returns (a : A)
| Raises (e : Raised).
Arguments Returns {A} a.
Arguments Raises {A} e.

(** A dictionary key as Python compares it: an [int] and a [str] are never
    equal. *)
Inductive PyKey := int_key (k : Z) | str_key (s : string).

Definition PyKey_eqb (a b : PyKey) : bool :=
  match a, b with
  | int_key x, int_key y => Z.eqb x y
  | str_key x, str_key y => String.eqb x y
  | _, _ => false
  end.

(** [d.get(k)] on a dictionary with keys of either kind. *)
Fixpoint key_get {V} (d : list (PyKey * V)) (k : PyKey) : option V :=
  match d with
  | [] => None
  | (k', v) :: d' => if PyKey_eqb k k' then Some v else key_get d' k
  end.

(** [d[validator][book_id]] on a [defaultdict] of [defaultdict]s whose
    missing items read as [dflt], and the store after
    [d[validator][book_id] = x]. *)
Definition lookup2 {V} (dflt : V) (d : gmap string (gmap Z V))
           (validator : string) (book_id : Z) : V :=
  default dflt (default ∅ (d !! validator) !! book_id).

Definition store2 {V} (d : gmap string (gmap Z V))
           (validator : string) (book_id : Z) (x : V)
  : gmap string (gmap Z V) :=
  <[validator := <[book_id := x]> (default ∅ (d !! validator))]> d.

(* ===================================================================== *)
(** * AdaptiveMarketMakerAgent *)
(* ===================================================================== *)

Module AdaptiveMarketMakerAgent.

Record Config := {
  min_order_size : Q;
  max_order_size : Q;
  max_inventory : Q;
  target_inventory : Q
}.

Definition default_config : Config := {|
  min_order_size := 0.1;
  max_order_size := 2.0;
  max_inventory := 5.0;
  target_inventory := 0.0
|}.

(** [place_inventory_rebalancing_order]: the instructions it appends.  Its
    docstring reads "Only triggered when inventory exceeds max_inventory
    threshold." *)
Definition place_inventory_rebalancing_order (cfg : Config)
           (book_id : Z) (inventory midquote : Q)
           (priceDecimals volumeDecimals : Z) : Response :=
  if Py.ltb (Qabs inventory) (max_inventory cfg) then []
  else
    let '(direction, quantity, price) :=
      if Py.ltb (max_inventory cfg) inventory then
        (SELL,
         Py.round (inventory - target_inventory cfg) volumeDecimals,
         Py.round (midquote * 0.999) priceDecimals)
      else
        (BUY,
         Py.round (- inventory + target_inventory cfg) volumeDecimals,
         Py.round (midquote * 1.001) priceDecimals) in
    let quantity := Qmin quantity (max_order_size cfg) in
    let quantity := Qmax quantity (min_order_size cfg) in
    [limit_order book_id direction quantity price None (Some CANCEL_OLDEST)
                 None (Some IOC) None].

(** ** The quoting side of the agent *)

(** The other parameters of [initialize]; [limits] holds the four above. *)
Record Params := {
  uid : Z;
  limits : Config;
  base_spread_bps : Q;
  base_order_size : Q;
  base_expiry : Z;
  min_expiry : Z;
  max_expiry : Z;
  inventory_skew_factor : Q;
  imbalance_depth : Z;
  imbalance_threshold : Q;
  imbalance_sizing_factor : Q;
  volatility_lookback : Z;
  risk_aversion : Q;
  max_spread_multiplier : Q
}.

Definition default_params (uid : Z) : Params := {|
  uid := uid;
  limits := default_config;
  base_spread_bps := 10.0;
  base_order_size := 0.5;
  base_expiry := 30000000000;
  min_expiry := 10000000000;
  max_expiry := 60000000000;
  inventory_skew_factor := 0.5;
  imbalance_depth := 5;
  imbalance_threshold := 0.3;
  imbalance_sizing_factor := 0.3;
  volatility_lookback := 10;
  risk_aversion := 0.5;
  max_spread_multiplier := 3.0
|}.

(** The stores [respond] reads and writes, by validator and then by book. *)
Record Agent := {
  inventory : gmap string (gmap Z Q);
  midquote_history : gmap string (gmap Z (list Q));
  pnl_history : gmap string (gmap Z (list Q));
  last_midquote : gmap string (gmap Z Q)
}.

Definition initial : Agent :=
  {| inventory := ∅; midquote_history := ∅; pnl_history := ∅;
     last_midquote := ∅ |}.

Record StateUpdate := {
  validator : string;
  priceDecimals : Z;
  volumeDecimals : Z;
  books : list (Z * Book);
  accounts : Accounts
}.

(** [calculate_imbalance(book, depth)]; [depth or self.imbalance_depth]
    replaces a missing or zero depth. *)
Definition calculate_imbalance (p : Params) (book : Book) (depth : option Z)
  : Q :=
  let depth :=
    match depth with
    | Some d => if (d =? 0)%Z then imbalance_depth p else d
    | None => imbalance_depth p
    end in
  let bid_volume := Py.sum (map lvl_quantity (Py.slice_to (bids book) depth)) in
  let ask_volume := Py.sum (map lvl_quantity (Py.slice_to (asks book) depth)) in
  let total_volume := bid_volume + ask_volume in
  if Py.eqb total_volume 0 then 0.0
  else
    let imbalance := (bid_volume - ask_volume) / total_volume in
    np_clip imbalance (-1.0) 1.0.

(** [calculate_inventory(account, validator, book_id)]: the store and the
    inventory. *)
Definition calculate_inventory (self : Agent) (account : Account)
           (validator : string) (book_id : Z) : Agent * Q :=
  let current_base := total (base_balance account) in
  ({| inventory := store2 (inventory self) validator book_id current_base;
      midquote_history := midquote_history self;
      pnl_history := pnl_history self;
      last_midquote := last_midquote self |},
   current_base).

(** [update_state_tracking(state, book_id, midquote, inventory)]. *)
Definition update_state_tracking (p : Params) (self : Agent)
           (validator : string) (book_id : Z) (midquote inventory_ : Q)
  : Agent :=
  let keep := (volatility_lookback p * 2)%Z in
  let trim (l : list Q) : list Q :=
    if (keep <? Z.of_nat (length l))%Z then Py.slice_last l keep else l in
  let history :=
    trim (lookup2 [] (midquote_history self) validator book_id ++ [midquote]) in
  let last := lookup2 0.0 (last_midquote self) validator book_id in
  let pnl_history' :=
    if Py.ltb 0 last then
      let price_change := midquote - last in
      let pnl_change := inventory_ * price_change in
      store2 (pnl_history self) validator book_id
             (trim (lookup2 [] (pnl_history self) validator book_id
                    ++ [pnl_change]))
    else pnl_history self in
  {| inventory := inventory self;
     midquote_history := store2 (midquote_history self) validator book_id history;
     pnl_history := pnl_history';
     last_midquote := store2 (last_midquote self) validator book_id midquote |}.

(** [calculate_optimal_quotes]: [(bid_price, ask_price, bid_size,
    ask_size)].  The division by [self.max_inventory] in the size factor is
    the one that can raise. *)
Definition calculate_optimal_quotes (p : Params)
           (midquote volatility inventory_ imbalance : Q)
           (priceDecimals volumeDecimals : Z) : Result (Q * Q * Q * Q) :=
  let cfg := limits p in
  let base_spread := midquote * (base_spread_bps p / 10000.0) in
  let volatility_multiplier := 1.0 + (volatility / 0.01) * risk_aversion p in
  let volatility_multiplier :=
    Qmin volatility_multiplier (max_spread_multiplier p) in
  let spread := base_spread * volatility_multiplier in
  let inventory_skew :=
    inventory_skew_factor p * (inventory_ / Qmax (max_inventory cfg) 0.1) in
  let inventory_skew := np_clip inventory_skew (-0.5) 0.5 in
  let imbalance_adjustment :=
    if Py.ltb (imbalance_threshold p) (Qabs imbalance)
    then imbalance * spread * 0.3 else 0.0 in
  let bid_spread := spread * (1.0 + inventory_skew) - imbalance_adjustment in
  let ask_spread := spread * (1.0 - inventory_skew) + imbalance_adjustment in
  let min_tick := Py.pow10 (- priceDecimals) in
  let bid_spread := Qmax bid_spread min_tick in
  let ask_spread := Qmax ask_spread min_tick in
  let bid_price := Py.round (midquote - bid_spread) priceDecimals in
  let ask_price := Py.round (midquote + ask_spread) priceDecimals in
  let base_size := base_order_size p in
  if Py.eqb (max_inventory cfg) 0 then Raise ZeroDivisionError
  else
    let inventory_size_factor :=
      1.0 - Qmin (Qabs inventory_ / max_inventory cfg) 0.7 in
    let bid_size := base_size * inventory_size_factor in
    let ask_size := base_size * inventory_size_factor in
    let '(bid_size, ask_size) :=
      if Py.ltb (imbalance_threshold p) (Qabs imbalance) then
        if Py.ltb 0 imbalance
        then (bid_size * (1.0 + imbalance_sizing_factor p), ask_size)
        else (bid_size, ask_size * (1.0 + imbalance_sizing_factor p))
      else (bid_size, ask_size) in
    let bid_size := np_clip bid_size (min_order_size cfg) (max_order_size cfg) in
    let ask_size := np_clip ask_size (min_order_size cfg) (max_order_size cfg) in
    let bid_size := Py.round bid_size volumeDecimals in
    let ask_size := Py.round ask_size volumeDecimals in
    Ok (bid_price, ask_price, bid_size, ask_size).

(** [calculate_adaptive_expiry(volatility)]. *)
Definition calculate_adaptive_expiry (p : Params) (volatility : Q) : Z :=
  let vol_normalized := np_clip (volatility / 0.01) 0.1 5.0 in
  let expiry_factor := 1.0 / vol_normalized in
  let expiry := Py.int (inject_Z (base_expiry p) * expiry_factor) in
  Z.min (Z.max expiry (min_expiry p)) (max_expiry p).

(** [check_volume_limit]: the source never limits. *)
Definition check_volume_limit : bool := true.

(** [place_market_making_orders]: the two instructions it appends. *)
Definition place_market_making_orders (book_id : Z)
           (bid_price ask_price bid_size ask_size : Q) (expiry : Z) : Response :=
  [limit_order book_id BUY bid_size bid_price None (Some CANCEL_OLDEST)
               (Some true) (Some GTT) (Some expiry);
   limit_order book_id SELL ask_size ask_price None (Some CANCEL_OLDEST)
               (Some true) (Some GTT) (Some expiry)].

Section WithNumpy.

(** [np.std(np.diff(np.log(prices)))] for two prices or more. *)
Variable np_std_log_returns : list Q -> Q.

(** [calculate_volatility(validator, book_id)]. *)
Definition calculate_volatility (p : Params) (self : Agent)
           (validator : string) (book_id : Z) : Q :=
  let history := lookup2 [] (midquote_history self) validator book_id in
  if (length history <? 2)%nat then 0.01
  else
    let prices := Py.slice_last history (volatility_lookback p) in
    if (length prices <? 2)%nat then 0.01
    else Qmax (np_std_log_returns prices) 0.001.

(** The guarded body of the loop of [respond] for one book: the stores after
    it, and the instructions it appended or the exception that ended it.
    Nothing is appended before the last call that can raise. *)
Definition book_body (p : Params) (su : StateUpdate)
           (accounts_ : list (Z * Account)) (self : Agent)
           (book_id : Z) (book : Book) : Agent * Result Response :=
  match bids book, asks book with
  | b :: _, a :: _ =>
      let best_bid := lvl_price b in
      let best_ask := lvl_price a in
      let midquote := (best_bid + best_ask) / 2.0 in
      match dict_get accounts_ book_id with
      | None => (self, Ok [])
      | Some account =>
          let '(self1, inventory_) :=
            calculate_inventory self account (validator su) book_id in
          let volatility := calculate_volatility p self1 (validator su) book_id in
          let imbalance := calculate_imbalance p book (Some (imbalance_depth p)) in
          let self2 :=
            update_state_tracking p self1 (validator su) book_id midquote
                                  inventory_ in
          if negb check_volume_limit then (self2, Ok [])
          else
            match calculate_optimal_quotes p midquote volatility inventory_
                                           imbalance (priceDecimals su)
                                           (volumeDecimals su) with
            | Raise e => (self2, Raise e)
            | Ok (bid_price, ask_price, bid_size, ask_size) =>
                let expiry := calculate_adaptive_expiry p volatility in
                (self2,
                 Ok (place_market_making_orders book_id bid_price ask_price
                                                bid_size ask_size expiry
                     ++ place_inventory_rebalancing_order
                          (limits p) book_id inventory_ midquote
                          (priceDecimals su) (volumeDecimals su)))
            end
      end
  | _, _ => (self, Ok [])
  end.

(** One iteration of the loop: an exception is logged and the loop goes on
    with the next book. *)
Definition respond_step (p : Params) (su : StateUpdate)
           (accounts_ : list (Z * Account)) (acc : Agent * Response)
           (kb : Z * Book) : Agent * Response :=
  let '(self, response) := acc in
  match book_body p su accounts_ self (fst kb) (snd kb) with
  | (self', Ok instrs) => (self', response ++ instrs)
  | (self', Raise _) => (self', response)
  end.

(** [respond(state)]. *)
Definition respond (p : Params) (self : Agent) (su : StateUpdate)
  : Agent * Response :=
  match accounts su with
  | None | Some [] => (self, [])
  | Some accts =>
      match dict_get accts (uid p) with
      | None => (self, [])
      | Some accounts_ =>
          fold_left (respond_step p su accounts_) (books su) (self, [])
      end
  end.

End WithNumpy.

End AdaptiveMarketMakerAgent.

(* ===================================================================== *)
(** * SmartOrderBookAgent *)
(* ===================================================================== *)

Module SmartOrderBookAgent.

Record Config := {
  uid : Z;
  quantity : Q;
  gamma : Q;
  kappa : Q;
  window_size : nat;
  base_spread_bps : Q;
  max_pos : Q;
  expiry_period : Z
}.

Definition default_config (uid : Z) : Config := {|
  uid := uid;
  quantity := 1.0;
  gamma := 0.1;
  kappa := 0.05;
  window_size := 20;
  base_spread_bps := 10;
  max_pos := 100.0;
  expiry_period := 10000000000
|}.

(** The attributes [respond] keeps on [self]: one deque of mid prices and one
    volatility for the whole agent, and the inventory by book.
    [initialize] does not set [self.inventory]: the attribute is absent
    ([None]) until the body of a two-sided book creates it. *)
Record Agent := {
  mid_price_history : list Q;
  volatility : Q;
  inventory : option (gmap Z Q)
}.

Definition initial : Agent :=
  {| mid_price_history := []; volatility := 0.0; inventory := None |}.

Record StateUpdate := {
  books : list (Z * Book);
  accounts : Accounts
}.

(** [get_weighted_imbalance(book, depth)]. *)
Definition get_weighted_imbalance (book : Book) (depth : nat) : Q :=
  let total_bid_vol :=
    fold_left (fun acc lvl => acc + lvl_quantity lvl)
              (firstn (Nat.min depth (length (bids book))) (bids book)) 0.0 in
  let total_ask_vol :=
    fold_left (fun acc lvl => acc + lvl_quantity lvl)
              (firstn (Nat.min depth (length (asks book))) (asks book)) 0.0 in
  if Py.eqb (total_bid_vol + total_ask_vol) 0 then 0.0
  else (total_bid_vol - total_ask_vol) / (total_bid_vol + total_ask_vol).

Section WithNumpy.

(** [np.std] of a non-empty array. *)
Variable np_std : list Q -> Q.

(** The body of the first loop of [respond] for one book. *)
Definition book_body (cfg : Config) (su : StateUpdate)
           (st : Agent * Response) (kb : Z * Book)
  : Result (Agent * Response) :=
  let '(self, response) := st in
  let '(book_id, book) := kb in
  match bids book, asks book with
  | b :: _, a :: _ =>
      let best_bid := lvl_price b in
      let best_ask := lvl_price a in
      let mid_price := (best_bid + best_ask) / 2.0 in
      let history :=
        Py.deque_append (window_size cfg) (mid_price_history self) mid_price in
      let vol :=
        if (5 <? length history)%nat then
          let returns := simple_returns history in
          match returns with [] => 0.0 | _ => np_std returns end
        else volatility self in
      (* [if self.uid in state.accounts]: a [None] is not iterable *)
      try _ <- match accounts su with
               | None => Raise TypeError
               | Some _ => Ok tt
               end in
      (* [if not hasattr(self, 'inventory'): self.inventory = {}] *)
      let inventory_ := default ∅ (inventory self) in
      let current_inv := default 0.0 (inventory_ !! book_id) in
      let reservation_price :=
        mid_price - (current_inv * gamma cfg * vol * mid_price) in
      let imbalance := get_weighted_imbalance book 5 in
      let target_price := reservation_price + (imbalance * kappa cfg * mid_price) in
      let half_spread :=
        (mid_price * (base_spread_bps cfg / 10000.0)) + (vol * mid_price * 2) in
      let bid_price := target_price - half_spread in
      let ask_price := target_price + half_spread in
      let bid_price := Qmin bid_price (best_ask - (mid_price * 0.0001)) in
      let ask_price := Qmax ask_price (best_bid + (mid_price * 0.0001)) in
      let bid_price := Py.round bid_price 2 in
      let ask_price := Py.round ask_price 2 in
      let buy :=
        if Py.ltb current_inv (max_pos cfg)
        then [limit_order book_id BUY (quantity cfg) bid_price None None None
                          (Some GTT) (Some (expiry_period cfg))]
        else [] in
      let sell :=
        if Py.ltb (- max_pos cfg) current_inv
        then [limit_order book_id SELL (quantity cfg) ask_price None None None
                          (Some GTT) (Some (expiry_period cfg))]
        else [] in
      Ok ({| mid_price_history := history; volatility := vol;
             inventory := Some inventory_ |},
          response ++ buy ++ sell)
  | _, _ => Ok (self, response)
  end.

(** The change of inventory a trade event means for the agent. *)
Definition trade_change (cfg : Config) (ev : Event) : Q :=
  match ev with
  | TradeInfo side q _ maker taker =>
      if Z.eqb maker (uid cfg) then
        match side with SELL => q | BUY => - q end
      else if Z.eqb taker (uid cfg) then
        match side with BUY => q | SELL => - q end
      else 0
  | OtherEvent => 0
  end.

(** The second loop of [respond]: inventory bookkeeping from the events.
    A fill of the agent while [self.inventory] does not exist makes
    [self.inventory.get] raise. *)
Definition update_inventory (cfg : Config) (bks : list (Z * Book))
           (inv : option (gmap Z Q)) : Result (option (gmap Z Q)) :=
  for_each
    (fun inv '(book_id, book) =>
       for_each
         (fun inv ev =>
            let change := trade_change cfg ev in
            if Py.eqb change 0 then Ok inv
            else
              match inv with
              | None => Raise AttributeError
              | Some m =>
                  Ok (Some (<[book_id := default 0.0 (m !! book_id) + change]> m))
              end)
         (events book) inv)
    bks inv.

(** [respond(state)]: no handler surrounds the per-book work. *)
Definition respond (cfg : Config) (self : Agent) (su : StateUpdate)
  : Result (Agent * Response) :=
  try (self1, response) <- for_each (book_body cfg su) (books su) (self, []) in
  try inventory_ <- update_inventory cfg (books su) (inventory self1) in
  Ok ({| mid_price_history := mid_price_history self1;
         volatility := volatility self1;
         inventory := inventory_ |},
      response).

End WithNumpy.

End SmartOrderBookAgent.

(* ===================================================================== *)
(** * EliteMarketMaker *)
(* ===================================================================== *)

Module EliteMarketMaker.

Record Config := {
  uid : Z;
  risk_aversion : Q;
  obi_weight : Q;
  base_spread_bps : Q;
  vol_multiplier : Q;
  max_inventory : Q;
  order_quantity : Q;
  expiry_period : Z;
  history_len : nat
}.

Definition default_config (uid : Z) : Config := {|
  uid := uid;
  risk_aversion := 0.1;
  obi_weight := 0.05;
  base_spread_bps := 10.0;
  vol_multiplier := 2.0;
  max_inventory := 10.0;
  order_quantity := 1.0;
  expiry_period := 2000000000;
  history_len := 20
|}.

Record StateUpdate := {
  priceDecimals : Z;
  books : list (Z * Book);
  accounts : Accounts
}.

Definition get_mid_price (book : Book) : option Q :=
  match bids book, asks book with
  | b :: _, a :: _ => Some ((lvl_price b + lvl_price a) / 2.0)
  | _, _ => None
  end.

(** [calculate_obi(book, depth=5)]. *)
Definition calculate_obi (book : Book) (depth : Z) : Q :=
  let bid_vol := Py.sum (map lvl_quantity (Py.slice_to (bids book) depth)) in
  let ask_vol := Py.sum (map lvl_quantity (Py.slice_to (asks book) depth)) in
  let total_vol := bid_vol + ask_vol in
  if Py.eqb total_vol 0 then 0.0 else (bid_vol - ask_vol) / total_vol.

(** [state.accounts.get(self.uid, {}).get(book_id)] on a dictionary. *)
Definition account_of (cfg : Config) (accts : list (Z * list (Z * Account)))
           (book_id : Z) : option Account :=
  dict_get (default [] (dict_get accts (uid cfg))) book_id.

Definition get_inventory (cfg : Config) (su : StateUpdate) (book_id : Z) : Q :=
  match accounts su with
  | None | Some [] => 0.0
  | Some accts =>
      match account_of cfg accts book_id with
      | Some book_account => total (base_balance book_account)
      | None => 0.0
      end
  end.

(** The cancellations issued before the books are visited (lines 131-136):
    every open order of every book, whatever its price. *)
Definition cancel_everything (cfg : Config) (su : StateUpdate) : Response :=
  match accounts su with
  | None => []
  | Some accts =>
      match dict_get accts (uid cfg) with
      | None => []
      | Some by_book =>
          flat_map (fun '(book_id, account) =>
                      match map ord_id (orders account) with
                      | [] => []
                      | order_ids => [cancel_orders book_id order_ids]
                      end) by_book
      end
  end.

(** Lines 91-94 of [calculate_volatility]: the deque of the book, created on
    first use, receives the price.  [self.price_history] is keyed by the book
    id alone. *)
Definition record_price (cfg : Config) (price_history : gmap Z (list Q))
           (book_id : Z) (current_price : Q) : gmap Z (list Q) :=
  <[book_id := Py.deque_append (history_len cfg)
                               (default [] (price_history !! book_id))
                               current_price]> price_history.

Section WithNumpy.

Variable np_std : list Q -> Q.

(** [calculate_volatility(book_id, current_price)]: the updated
    [self.price_history] and the volatility. *)
Definition calculate_volatility (cfg : Config)
           (price_history : gmap Z (list Q)) (book_id : Z) (current_price : Q)
  : gmap Z (list Q) * Q :=
  let price_history' := record_price cfg price_history book_id current_price in
  let prices := default [] (price_history' !! book_id) in
  if (length prices <? 5)%nat then (price_history', 0.0)
  else (price_history', np_std (simple_returns prices)).

(** The limit orders placed at the end of the body (lines 223-248). *)
Definition place_orders (cfg : Config) (book_id : Z) (account : option Account)
           (my_bid my_ask : Q) : Response :=
  let free_base := match account with Some a => free (base_balance a) | None => 0 end in
  let free_quote := match account with Some a => free (quote_balance a) | None => 0 end in
  let buy :=
    if Py.ltb 0 my_bid && Py.ltb (my_bid * order_quantity cfg) free_quote
    then [limit_order book_id BUY (order_quantity cfg) my_bid None None
                      (Some false) (Some GTT) (Some (expiry_period cfg))]
    else [] in
  let sell :=
    if Py.ltb 0 my_ask && Py.leb (order_quantity cfg) free_base
    then [limit_order book_id SELL (order_quantity cfg) my_ask None None
                      (Some false) (Some GTT) (Some (expiry_period cfg))]
    else [] in
  buy ++ sell.

(** The body of the loop over the books; it is not guarded. *)
Definition book_body (cfg : Config) (su : StateUpdate)
           (st : gmap Z (list Q) * Response) (kb : Z * Book)
  : Result (gmap Z (list Q) * Response) :=
  let '(price_history, response) := st in
  let '(book_id, book) := kb in
  match bids book, asks book with
  | b :: _, a :: _ =>
      let mid_price := (lvl_price b + lvl_price a) / 2.0 in
      let obi := calculate_obi book 5 in
      let '(price_history', volatility) :=
        calculate_volatility cfg price_history book_id mid_price in
      let inventory := get_inventory cfg su book_id in
      if Py.eqb (order_quantity cfg) 0 then Raise ZeroDivisionError
      else
        let q := inventory / order_quantity cfg in
        let inv_skew_bps := -1 * q * risk_aversion cfg in
        let obi_skew_bps := obi * obi_weight cfg in
        let total_skew_bps := inv_skew_bps + obi_skew_bps in
        let fair_price := mid_price * (1 + total_skew_bps / 10000.0) in
        let current_spread_bps :=
          base_spread_bps cfg + (volatility * 10000 * vol_multiplier cfg) in
        let half_spread_bps := current_spread_bps / 2.0 in
        let my_bid := fair_price * (1 - half_spread_bps / 10000.0) in
        let my_ask := fair_price * (1 + half_spread_bps / 10000.0) in
        let decimals := priceDecimals su in
        let my_bid := Py.round my_bid decimals in
        let my_ask := Py.round my_ask decimals in
        let best_bid := lvl_price b in
        let best_ask := lvl_price a in
        let is_taker_buy := Py.leb best_ask my_bid in
        let is_taker_sell := Py.leb my_ask best_bid in
        let strong_signal := Py.ltb 0.8 (Qabs obi) in
        let my_bid :=
          if is_taker_buy && negb strong_signal
          then Qmin (best_ask - Py.pow10 (- decimals))
                    (best_ask - Py.pow10 (- decimals))
          else my_bid in
        let my_ask :=
          if is_taker_sell && negb strong_signal
          then Qmax my_ask (best_bid + Py.pow10 (- decimals))
          else my_ask in
        let my_bid := if Py.ltb (max_inventory cfg) inventory then 0.0 else my_bid in
        match accounts su with
        | None => Raise AttributeError
        | Some accts =>
            let account := account_of cfg accts book_id in
            Ok (price_history',
                response ++ place_orders cfg book_id account my_bid my_ask)
        end
  | _, _ => Ok st
  end.

(** [respond(state)]. *)
Definition respond (cfg : Config) (price_history : gmap Z (list Q))
           (su : StateUpdate) : Result (gmap Z (list Q) * Response) :=
  for_each (book_body cfg su) (books su)
           (price_history, cancel_everything cfg su).

End WithNumpy.

End EliteMarketMaker.

(* ===================================================================== *)
(** * EliteImbalanceMarketMaker *)
(* ===================================================================== *)

Module EliteImbalanceMarketMaker.

Definition _clip (x lo hi : Q) : Q :=
  if Py.ltb x lo then lo else if Py.ltb hi x then hi else x.

Record Config := {
  min_qty : Q;
  max_qty : Q;
  target_notional : Q;
  quote_levels : Z;
  imb_skew_strength : Q;
  flow_skew_strength : Q;
  min_halfspread_ticks : Z;
  cancel_tolerance_ticks : Z;
  expiry_ns : option Z;
  max_maker_fee_rate : Q;
  inv_target_frac : Q;
  inv_limit_frac : Q;
  inv_skew_strength : Q;
  emergency_unwind_frac : Q;
  toxic_move_threshold : Q;
  toxic_flow_threshold : Q;
  retreat_ticks : Z;
  (* [self.simulation_config] *)
  priceDecimals : Z;
  volumeDecimals : Z
}.

Definition default_config (priceDecimals volumeDecimals : Z) : Config := {|
  min_qty := 0.05;
  max_qty := 1.00;
  target_notional := 250.0;
  quote_levels := 10;
  imb_skew_strength := 0.60;
  flow_skew_strength := 0.35;
  min_halfspread_ticks := 2;
  cancel_tolerance_ticks := 2;
  expiry_ns := None;
  max_maker_fee_rate := 0.0015;
  inv_target_frac := 0.0;
  inv_limit_frac := 0.20;
  inv_skew_strength := 1.00;
  emergency_unwind_frac := 0.35;
  toxic_move_threshold := 0.006;
  toxic_flow_threshold := 0.55;
  retreat_ticks := 3;
  priceDecimals := priceDecimals;
  volumeDecimals := volumeDecimals
|}.

(** [self._last_mid] and the accounts of the framework, [self.accounts]. *)
Record Agent := {
  _last_mid : gmap string (gmap Z Q);
  accounts : list (Z * Account)
}.

Record StateUpdate := {
  validator : string;
  timestamp : Z;
  publish_interval : Z;
  books : list (Z * Book)
}.

Definition _tick (cfg : Config) : Q := Py.pow10 (- priceDecimals cfg).
Definition _round_price (cfg : Config) (p : Q) : Q := Py.round p (priceDecimals cfg).
Definition _round_qty (cfg : Config) (q : Q) : Q := Py.round q (volumeDecimals cfg).

Definition _compute_mid_spread (book : Book) : Q * Q * Q * Q :=
  match bids book, asks book with
  | b :: _, a :: _ =>
      let best_bid := lvl_price b in
      let best_ask := lvl_price a in
      (best_bid, best_ask, 0.5 * (best_bid + best_ask),
       Qmax (best_ask - best_bid) 0.0)
  | _, _ => (0.0, 0.0, 0.0, 0.0)
  end.

Definition _target_order_qty (cfg : Config) (mid : Q) : Q :=
  if Py.leb mid 0 then _round_qty cfg (min_qty cfg)
  else _round_qty cfg (_clip (target_notional cfg / mid) (min_qty cfg) (max_qty cfg)).

Definition _inventory_frac (account : Account) (mid : Q) : Q :=
  let base := total (base_balance account) in
  let quote := total (quote_balance account) in
  let total_val := quote + base * mid in
  if Py.leb total_val 0.0 || Py.leb mid 0.0 then 0.0
  else (base * mid) / total_val.

(** [math.copysign(1.0, x)] on a number without a signed zero. *)
Definition copysign1 (x : Q) : Q := if Py.ltb x 0 then -1.0 else 1.0.

(** [sorted(set(ids))]. *)
Fixpoint insert_sorted (x : Z) (l : list Z) : list Z :=
  match l with
  | [] => [x]
  | y :: l' =>
      if (x <? y)%Z then x :: l
      else if (x =? y)%Z then l
      else y :: insert_sorted x l'
  end.

Definition sorted_set (ids : list Z) : list Z :=
  fold_right insert_sorted [] ids.

Definition has_side (d : OrderDirection) (o : Order) : bool :=
  direction_eqb (ord_side o) d.

(** The per-order cancellation test of lines 291-301. *)
Definition drifted (tol desired_bid desired_ask : Q) (o : Order) : bool :=
  match ord_price o with
  | None => false
  | Some p =>
      if has_side BUY o && Py.ltb 0 desired_bid
      then Py.ltb tol (Qabs (p - desired_bid))
      else if has_side SELL o && Py.ltb 0 desired_ask
      then Py.ltb tol (Qabs (p - desired_ask))
      else true
  end.

(** Lines 345-373: the quotes placed once sizes and prices are settled. *)
Definition place_quotes (book_id : Z) (account : Account)
           (fees_too_high : bool) (desired_bid desired_ask bid_qty ask_qty : Q)
           (expiry : Z) : Response :=
  if fees_too_high then []
  else
    (if Py.ltb 0 desired_bid && Py.ltb 0 bid_qty
        && Py.leb (bid_qty * desired_bid) (free (quote_balance account))
     then [limit_order book_id BUY bid_qty desired_bid None (Some CANCEL_BOTH)
                       None (Some GTT) (Some expiry)]
     else [])
    ++
    (if Py.ltb 0 desired_ask && Py.ltb 0 ask_qty
        && Py.leb ask_qty (free (base_balance account))
     then [limit_order book_id SELL ask_qty desired_ask None (Some CANCEL_BOTH)
                       None (Some GTT) (Some expiry)]
     else []).

(** Lines 316-343: the emergency unwind by market order. *)
Definition emergency_unwind (cfg : Config) (book_id : Z) (account : Account)
           (inv_dev best_ask : Q) : Response :=
  if Py.ltb (inv_limit_frac cfg) (Qabs inv_dev)
     && Py.ltb 0 (emergency_unwind_frac cfg)
  then
    let base_total := total (base_balance account) in
    let unwind_qty := _round_qty cfg (Qabs base_total * emergency_unwind_frac cfg) in
    if Py.ltb 0 unwind_qty then
      if Py.ltb 0 inv_dev && Py.leb unwind_qty (free (base_balance account))
      then [market_order book_id SELL unwind_qty (Some CANCEL_BOTH)]
      else if Py.ltb inv_dev 0 then
        let max_affordable :=
          free (quote_balance account) / Qmax best_ask (_tick cfg) in
        let buy_qty := _round_qty cfg (Qmin unwind_qty max_affordable) in
        if Py.ltb 0 buy_qty
        then [market_order book_id BUY buy_qty (Some CANCEL_BOTH)]
        else []
      else []
    else []
  else [].

Section WithLibrary.

(** [book.snapshot(timestamp).imbalance(depth)] of the protocol library; it
    may raise. *)
Variable snapshot_imbalance : Book -> Z -> option Z -> Result Q.

(** The sides and quantities of [book.trades.values()]. *)
Variable book_trades : Book -> list (OrderDirection * Q).

Definition _l2_imbalance (cfg : Config) (book : Book) (timestamp : Z)
  : Result Q :=
  let depth := if (0 <? quote_levels cfg)%Z then Some (quote_levels cfg) else None in
  match snapshot_imbalance book timestamp depth with
  | Raise ZeroDivisionError => Ok 0.0
  | r => r
  end.

Definition _interval_flow_signal (cfg : Config) (self : Agent) (book : Book)
           (mid : Q) (validator : string) (book_id : Z) : Result (Q * bool) :=
  match events book with
  | [] => Ok (0.0, false)
  | _ =>
      let last_mid :=
        default 0.0 (default ∅ (_last_mid self !! validator) !! book_id) in
      let interval_ret :=
        if Py.leb last_mid 0.0 then 0.0 else mid / last_mid - 1.0 in
      match book_trades book with
      | [] =>
          if Py.eqb (toxic_move_threshold cfg) 0 then Raise ZeroDivisionError
          else Ok (_clip (interval_ret / toxic_move_threshold cfg) (-1.0) 1.0,
                   Py.ltb (toxic_move_threshold cfg) (Qabs interval_ret))
      | trades =>
          let '(buy_qty, sell_qty) :=
            fold_left (fun '(b, s) t =>
                         match fst t with
                         | BUY => (b + snd t, s)
                         | SELL => (b, s + snd t)
                         end) trades (0.0, 0.0) in
          let tot_qty := buy_qty + sell_qty in
          let eps := 1e-12 in
          if Py.eqb (tot_qty + eps) 0 then Raise ZeroDivisionError
          else
            let flow := (buy_qty - sell_qty) / (tot_qty + eps) in
            let toxic_by_move := Py.ltb (toxic_move_threshold cfg) (Qabs interval_ret) in
            let toxic_by_flow := Py.ltb (toxic_flow_threshold cfg) (Qabs flow) in
            let toxic :=
              toxic_by_move && toxic_by_flow
              && Py.eqb (copysign1 interval_ret) (copysign1 flow) in
            let flow_signal :=
              _clip (0.5 * flow
                     + 0.5 * _clip (interval_ret / Qmax (toxic_move_threshold cfg) 1e-9)
                                   (-1.0) 1.0)
                    (-1.0) 1.0 in
            Ok (flow_signal, toxic)
      end
  end.

(** The guarded body of the loop of [respond] for one book: the instructions
    it appends and the mid it stores, or the exception it raises. *)
Definition book_body (cfg : Config) (self : Agent) (su : StateUpdate)
           (book_id : Z) (book : Book) : Result (Response * option Q) :=
  match bids book, asks book with
  | _ :: _, _ :: _ =>
      match dict_get (accounts self) book_id with
      | None => Raise KeyError
      | Some account =>
          let tick := _tick cfg in
          let '(best_bid, best_ask, mid, spread) := _compute_mid_spread book in
          if Py.leb mid 0.0 then Ok ([], None)
          else
            let maker_fee :=
              match fees account with Some f => maker_fee_rate f | None => 0.0 end in
            let fees_too_high := Py.ltb (max_maker_fee_rate cfg) maker_fee in
            try imb <- _l2_imbalance cfg book (timestamp su) in
            try (flow_signal, toxic) <-
              _interval_flow_signal cfg self book mid (validator su) book_id in
            let inv_frac := _inventory_frac account mid in
            let inv_dev := inv_frac - inv_target_frac cfg in
            let shift_units :=
              imb_skew_strength cfg * imb
              + flow_skew_strength cfg * flow_signal
              - inv_skew_strength cfg
                * _clip (inv_dev / Qmax (inv_limit_frac cfg) 1e-9) (-1.0) 1.0 in
            let shift_units := _clip shift_units (-1.5) 1.5 in
            let min_hs := inject_Z (min_halfspread_ticks cfg) * tick in
            let halfspread := Qmax min_hs (0.5 * spread) in
            let reservation := mid + shift_units * halfspread in
            let desired_bid := reservation - halfspread in
            let desired_ask := reservation + halfspread in
            let desired_bid := Qmin desired_bid (best_ask - tick) in
            let desired_ask := Qmax desired_ask (best_bid + tick) in
            let desired_ask :=
              if toxic && Py.ltb 0 flow_signal
              then desired_ask + inject_Z (retreat_ticks cfg) * tick
              else desired_ask in
            let desired_bid :=
              if toxic && negb (Py.ltb 0 flow_signal) && Py.ltb flow_signal 0
              then desired_bid - inject_Z (retreat_ticks cfg) * tick
              else desired_bid in
            let desired_bid := _round_price cfg desired_bid in
            let desired_ask := _round_price cfg desired_ask in
            let one_sided : option (Q * Q) :=
              if Py.leb desired_ask desired_bid then
                if Py.ltb 0 inv_dev
                then Some (0.0, _round_price cfg (Qmax best_ask (best_bid + tick)))
                else if Py.ltb inv_dev 0
                then Some (_round_price cfg (Qmin best_bid (best_ask - tick)), 0.0)
                else None
              else Some (desired_bid, desired_ask) in
            match one_sided with
            | None => Ok ([], None)
            | Some (desired_bid, desired_ask) =>
                let base_qty := _target_order_qty cfg mid in
                let inv_pressure :=
                  _clip (Qabs inv_dev / Qmax (inv_limit_frac cfg) 1e-9) 0.0 2.0 in
                let size_scale :=
                  _clip (1.0 - 0.5 * Qmax (inv_pressure - 0.7) 0.0) 0.25 1.0 in
                let bid_qty :=
                  _round_qty cfg (base_qty * (if Py.ltb inv_dev 0 then size_scale else 1.0)) in
                let ask_qty :=
                  _round_qty cfg (base_qty * (if Py.ltb 0 inv_dev then size_scale else 1.0)) in
                let open_orders := orders account in
                let bid_orders := List.filter (has_side BUY) open_orders in
                let ask_orders := List.filter (has_side SELL) open_orders in
                let tol := inject_Z (cancel_tolerance_ticks cfg) * tick in
                let over_limit := Py.ltb (inv_limit_frac cfg) (Qabs inv_dev) in
                let cancel_ids :=
                  if fees_too_high then map ord_id open_orders
                  else
                    map ord_id (List.filter (drifted tol desired_bid desired_ask) open_orders)
                    ++ (if over_limit then
                          if Py.ltb 0 inv_dev then map ord_id bid_orders
                          else map ord_id ask_orders
                        else []) in
                let desired_bid :=
                  if negb fees_too_high && over_limit && Py.ltb 0 inv_dev
                  then 0.0 else desired_bid in
                let desired_ask :=
                  if negb fees_too_high && over_limit && negb (Py.ltb 0 inv_dev)
                  then 0.0 else desired_ask in
                let cancels :=
                  match cancel_ids with
                  | [] => []
                  | _ => [cancel_orders book_id (sorted_set cancel_ids)]
                  end in
                let unwind := emergency_unwind cfg book_id account inv_dev best_ask in
                let expiry :=
                  match expiry_ns cfg with
                  | Some e => e
                  | None => Py.int (0.9 * inject_Z (publish_interval su))
                  end in
                Ok (cancels ++ unwind
                    ++ place_quotes book_id account fees_too_high
                                    desired_bid desired_ask bid_qty ask_qty expiry,
                    Some mid)
            end
      end
  | _, _ => Ok ([], None)
  end.

(** One iteration of the loop of [respond]: the body runs inside [try]; an
    exception is logged and the loop goes on with the next book. *)
Definition respond_step (cfg : Config) (su : StateUpdate)
           (acc : Agent * Response) (kb : Z * Book) : Agent * Response :=
  let '(self, response) := acc in
  let '(book_id, book) := kb in
  match book_body cfg self su book_id book with
  | Ok (instrs, Some mid) =>
      ({| _last_mid :=
            <[validator su := <[book_id := mid]>
                                (default ∅ (_last_mid self !! validator su))]>
              (_last_mid self);
          accounts := accounts self |},
       response ++ instrs)
  | Ok (instrs, None) => (self, response ++ instrs)
  | Raise _ => (self, response)
  end.

(** [respond(state)]. *)
Definition respond (cfg : Config) (self : Agent) (su : StateUpdate)
  : Agent * Response :=
  let self0 :=
    match _last_mid self !! validator su with
    | Some _ => self
    | None => {| _last_mid := <[validator su := ∅]> (_last_mid self);
                 accounts := accounts self |}
    end in
  fold_left (respond_step cfg su) (books su) (self0, []).

End WithLibrary.

End EliteImbalanceMarketMaker.

(* ===================================================================== *)
(** * DominantImbalanceMM *)
(* ===================================================================== *)

Module DominantImbalanceMM.

Record Config := {
  imbalance_depth : Z;
  inv_one_sided_threshold : Q;
  informed_flow_threshold : Q
}.

Definition default_config : Config := {|
  imbalance_depth := 10;
  inv_one_sided_threshold := 0.65;
  informed_flow_threshold := 1e-6
|}.

Definition _book_imbalance (cfg : Config) (book : Book) : Q :=
  let depth := imbalance_depth cfg in
  let bid_qty := fold_left (fun acc lvl => acc + lvl_quantity lvl)
                           (Py.slice_to (bids book) depth) 0.0 in
  let ask_qty := fold_left (fun acc lvl => acc + lvl_quantity lvl)
                           (Py.slice_to (asks book) depth) 0.0 in
  let denom := bid_qty + ask_qty in
  if Py.leb denom 0 then 0.0 else (bid_qty - ask_qty) / denom.

Definition _microprice (best_bid best_ask bid_qty ask_qty : Q) : Q :=
  let denom := bid_qty + ask_qty in
  if Py.leb denom 0 then (best_bid + best_ask) / 2
  else (best_ask * bid_qty + best_bid * ask_qty) / denom.

(** Lines 247-264 of [respond]: maker-only prices from the reservation price
    [r] and the half-spread [half]; [None] is the [continue]. *)
Definition maker_quotes (tick : Q) (priceDecimals : Z)
           (best_bid best_ask r half : Q) : option (Q * Q) :=
  let max_maker_bid := best_ask - tick in
  let min_maker_ask := best_bid + tick in
  let desired_bid := r - half in
  let desired_ask := r + half in
  let bid_px := Qmin desired_bid max_maker_bid in
  let ask_px := Qmax desired_ask min_maker_ask in
  let bid_px := Py.round bid_px priceDecimals in
  let ask_px := Py.round ask_px priceDecimals in
  if Py.leb ask_px bid_px then
    let bid_px := Py.round (Qmin best_bid (ask_px - tick)) priceDecimals in
    let ask_px := Py.round (Qmax best_ask (bid_px + tick)) priceDecimals in
    if Py.leb ask_px bid_px then None else Some (bid_px, ask_px)
  else Some (bid_px, ask_px).

Definition gtt_order (book_id : Z) (d : OrderDirection) (qty px : Q)
           (expiry_ns : Z) : Instruction :=
  limit_order book_id d qty px None (Some CANCEL_BOTH) None (Some GTT)
              (Some expiry_ns).

(** Lines 266-335 of [respond]: one-sided or two-sided placement. *)
Definition place (cfg : Config) (book_id : Z) (qty bid_px ask_px : Q)
           (inv_ratio informed flow : Q) (expiry_ns : Z) : Response :=
  let one_sided :=
    Py.leb (inv_one_sided_threshold cfg) (Qabs inv_ratio)
    || Py.ltb (informed_flow_threshold cfg) informed in
  let prefer_sell := Py.ltb 0.0 inv_ratio in
  let prefer_buy := Py.ltb inv_ratio 0.0 in
  if one_sided then
    if prefer_sell then [gtt_order book_id SELL qty ask_px expiry_ns]
    else if prefer_buy then [gtt_order book_id BUY qty bid_px expiry_ns]
    else if Py.leb 0 flow then [gtt_order book_id BUY qty bid_px expiry_ns]
    else [gtt_order book_id SELL qty ask_px expiry_ns]
  else
    [gtt_order book_id BUY qty bid_px expiry_ns;
     gtt_order book_id SELL qty ask_px expiry_ns].

(** Lines 247-335 as one step: the quotes of a book for a tick. *)
Definition quote_book (cfg : Config) (priceDecimals : Z) (book_id : Z)
           (best_bid best_ask r half qty inv_ratio informed flow : Q)
           (expiry_ns : Z) : Response :=
  let tick := Py.pow10 (- priceDecimals) in
  match maker_quotes tick priceDecimals best_bid best_ask r half with
  | None => []
  | Some (bid_px, ask_px) =>
      place cfg book_id qty bid_px ask_px inv_ratio informed flow expiry_ns
  end.

(** ** The body of the loop of [respond] *)

Definition _clamp (x lo hi : Q) : Q :=
  if Py.ltb x lo then lo else if Py.ltb hi x then hi else x.

Definition _trade_flow (book : Book) : Q :=
  match events book with
  | [] => 0.0
  | evs =>
      let '(signed, total) :=
        fold_left (fun '(signed, total) ev =>
                     match ev with
                     | TradeInfo side q _ _ _ =>
                         (signed + match side with BUY => q | SELL => - q end,
                          total + q)
                     | OtherEvent => (signed, total)
                     end) evs (0.0, 0.0) in
      if Py.leb total 0 then 0.0 else signed / total
  end.

(** The other parameters of [initialize]; [signals] holds the three above. *)
Record Params := {
  signals : Config;
  min_halfspread_ticks : Z;
  vol_spread_coef : Q;
  imbalance_coef : Q;
  flow_coef : Q;
  inventory_coef : Q;
  pos_limit_frac : Q;
  max_maker_fee_rate : Q;
  min_qty : Q;
  max_qty : Q;
  qty_frac_of_max_pos : Q;
  toxic_qty_scale : Q;
  expiry_frac_of_publish_interval : Q;
  expiry_min_ns : Z;
  toxic_spread_add_ticks : Z;
  no_fill_timeout_ns : Z;
  nudge_qty_frac : Q
}.

Definition default_params : Params := {|
  signals := default_config;
  min_halfspread_ticks := 1;
  vol_spread_coef := 2.0;
  imbalance_coef := 0.35;
  flow_coef := 0.25;
  inventory_coef := 0.75;
  pos_limit_frac := 0.12;
  max_maker_fee_rate := 0.004;
  min_qty := 0.05;
  max_qty := 2.0;
  qty_frac_of_max_pos := 0.06;
  toxic_qty_scale := 0.7;
  expiry_frac_of_publish_interval := 0.85;
  expiry_min_ns := 50000000;
  toxic_spread_add_ticks := 2;
  no_fill_timeout_ns := 120000000000;
  nudge_qty_frac := 0.35
|}.

(** What [respond] reads of the state update; [max_open_orders] may be
    absent. *)
Record StateUpdate := {
  validator : string;
  timestamp : Z;
  priceDecimals : Z;
  volumeDecimals : Z;
  publish_interval : Z;
  miner_wealth : Q;
  max_open_orders : option Z;
  books : list (Z * Book)
}.

(** [onTrade(event)]: [self._last_fill_ts] after the event. *)
Definition onTrade (current_validator : option string)
           (_last_fill_ts : gmap string (gmap Z Z))
           (bookId : option Z) (event_timestamp : Z)
  : gmap string (gmap Z Z) :=
  match bookId, current_validator with
  | Some book_id, Some validator =>
      if String.eqb validator "" then _last_fill_ts
      else store2 _last_fill_ts validator book_id event_timestamp
  | _, _ => _last_fill_ts
  end.

(** [expiry_ns] of lines 162-165. *)
Definition expiry_of (p : Params) (su : StateUpdate) : Z :=
  Z.max (Py.int (expiry_frac_of_publish_interval p
                 * inject_Z (publish_interval su)))
        (expiry_min_ns p).

(** The guarded body of the loop of [respond] for one book.  Two of its
    values come from calls modelled over the reals below and are
    parameters here: [sigma], which [_update_vol] returns for the book, and
    [log_return], which is [math.log(mid / prev_mid)] where that is
    defined; [prev_mid] and [last_fill] are what the stores hold for the
    book. *)
Definition book_body (p : Params) (su : StateUpdate)
           (accounts : list (Z * Account))
           (prev_mid : option Q) (last_fill : Z) (sigma log_return : Q)
           (book_id : Z) (book : Book) : Try Response :=
  let tick := Py.pow10 (- priceDecimals su) in
  let expiry_ns := expiry_of p su in
  match bids book, asks book with
  | b :: _, a :: _ =>
      match dict_get accounts book_id with
      | None => Raises (builtin KeyError)
      | Some account =>
          let fee_gate :=
            match fees account with
            | Some f => Py.ltb (max_maker_fee_rate p) (maker_fee_rate f)
            | None => false
            end in
          if fee_gate then Returns []
          else
            let best_bid := lvl_price b in
            let best_ask := lvl_price a in
            if Py.leb best_ask best_bid then Returns []
            else
              let spread := best_ask - best_bid in
              let mid := (best_bid + best_ask) / 2.0 in
              let max_base_pos :=
                (pos_limit_frac p * miner_wealth su) / Qmax mid tick in
              let max_base_pos := Qmax max_base_pos (min_qty p) in
              let net_base :=
                total (base_balance account) - base_loan account
                + base_collateral account in
              if Py.eqb max_base_pos 0 then Raises (builtin ZeroDivisionError)
              else
                let inv_ratio := _clamp (net_base / max_base_pos) (-2.0) 2.0 in
                let imb := _book_imbalance (signals p) book in
                let flow := _trade_flow book in
                let informed_ :=
                  match prev_mid with
                  | Some m =>
                      if negb (Py.eqb m 0) && Py.ltb 0 m then
                        if Py.leb (mid / m) 0 then Raises ValueError
                        else Returns (flow * log_return)
                      else Returns 0.0
                  | None => Returns 0.0
                  end in
                match informed_ with
                | Raises e => Raises e
                | Returns informed =>
                    let bq := lvl_quantity b in
                    let aq := lvl_quantity a in
                    let micro := _microprice best_bid best_ask bq aq in
                    let r :=
                      micro
                      + (imbalance_coef p * imb + flow_coef p * flow
                         - inventory_coef p * inv_ratio) * spread in
                    let toxic :=
                      Py.ltb (informed_flow_threshold (signals p)) informed in
                    let min_half :=
                      Qmax (inject_Z (min_halfspread_ticks p) * tick)
                           (0.5 * spread) in
                    let half := min_half + vol_spread_coef p * sigma * mid in
                    let half :=
                      if toxic
                      then half + inject_Z (toxic_spread_add_ticks p) * tick
                      else half in
                    let needs_nudge :=
                      if (0 <? last_fill)%Z
                      then (no_fill_timeout_ns p <? timestamp su - last_fill)%Z
                      else (no_fill_timeout_ns p <? timestamp su)%Z in
                    let half :=
                      if needs_nudge && negb toxic
                         && Py.ltb (Qabs inv_ratio)
                                   (inv_one_sided_threshold (signals p))
                      then min_half else half in
                    let qty := qty_frac_of_max_pos p * max_base_pos in
                    let qty := _clamp qty (min_qty p) (max_qty p) in
                    let qty :=
                      if toxic then qty * (1.0 - toxic_qty_scale p) else qty in
                    let qty :=
                      if needs_nudge
                      then Qmax (min_qty p) (qty * nudge_qty_frac p) else qty in
                    let qty := Py.round qty (volumeDecimals su) in
                    if Py.leb qty 0 then Returns []
                    else
                      let near_limit :=
                        match max_open_orders su with
                        | Some m =>
                            negb (m =? 0)%Z
                            && (m - 1 <=? Z.of_nat (length (orders account)))%Z
                        | None => false
                        end in
                      if near_limit
                      then Returns [cancel_orders book_id
                                                  (map ord_id (orders account))]
                      else
                        Returns (quote_book (signals p) (priceDecimals su)
                                            book_id best_bid best_ask r half qty
                                            inv_ratio informed flow expiry_ns)
                end
      end
  | _, _ => Returns []
  end.

(** ** The volatility tracker, over the reals *)

Local Open Scope R_scope.

(** [self._last_mid] and [self._ewma_var]: by validator, then by book. *)
Record VolState := {
  _last_mid : gmap string (gmap Z R);
  _ewma_var : gmap string (gmap Z R)
}.

(** The stores after [initialize] or [onStart]. *)
Definition onStart : VolState := {| _last_mid := ∅; _ewma_var := ∅ |}.

(** [if last_mid and last_mid > 0 and mid > 0]. *)
Definition valid_return (last_mid : option R) (mid : R) : bool :=
  match last_mid with
  | Some m0 =>
      if Rlt_dec 0 m0 then (if Rlt_dec 0 mid then true else false) else false
  | None => false
  end.

(** [_update_vol(validator, book_id, mid)] with smoothing factor [a]. *)
Definition _update_vol (a : R) (st : VolState) (validator : string)
           (book_id : Z) (mid : R) : VolState * R :=
  let lm := default ∅ (_last_mid st !! validator) in
  let ev := default ∅ (_ewma_var st !! validator) in
  let last_mid := lm !! book_id in
  let prev := default 0 (ev !! book_id) in
  let var :=
    match last_mid with
    | Some m0 =>
        if valid_return last_mid mid then
          let r := ln (mid / m0) in (1 - a) * prev + a * (r * r)
        else prev
    | None => prev
    end in
  ({| _last_mid := <[validator := <[book_id := mid]> lm]> (_last_mid st);
      _ewma_var := <[validator := <[book_id := var]> ev]> (_ewma_var st) |},
   sqrt (Rmax var 0)).

(** The persistent state kept for one [(validator, book)] key. *)
Definition state_of (st : VolState) (validator : string) (book_id : Z)
  : option R * option R :=
  (default ∅ (_last_mid st !! validator) !! book_id,
   default ∅ (_ewma_var st !! validator) !! book_id).

End DominantImbalanceMM.

(* ===================================================================== *)
(** * SmartMarketMaker *)
(* ===================================================================== *)

Module SmartMarketMaker.

Record Config := {
  uid : Z;
  risk_aversion : Q;
  obi_factor : Q;
  base_spread_bps : Q;
  vol_window : Z;
  levels : Z;
  level_spacing_bps : Q;
  order_size_pct : Q;
  expiry_period : Z
}.

Definition default_config (uid : Z) : Config := {|
  uid := uid;
  risk_aversion := 0.5;
  obi_factor := 0.3;
  base_spread_bps := 20.0;
  vol_window := 20;
  levels := 5;
  level_spacing_bps := 5.0;
  order_size_pct := 0.01;
  expiry_period := 10000000000
|}.

Record StateUpdate := {
  priceDecimals : Z;
  volumeDecimals : Z;
  books : list (Z * Book);
  accounts : Accounts
}.

(** The mid prices of the last [vol_window] snapshots kept by the history
    manager for a book, oldest first. *)
Definition history_mids (cfg : Config) (snapshots : list Book) : list Q :=
  flat_map (fun s => match bids s, asks s with
                     | b :: _, a :: _ => [(lvl_price b + lvl_price a) / 2.0]
                     | _, _ => []
                     end)
           (Py.slice_last snapshots (vol_window cfg)).

(** One rung of the ladder (the body of [for i in range(self.levels)]). *)
Definition ladder_level (cfg : Config) (su : StateUpdate) (book_id : Z)
           (final_center spread qty_per_order : Q) (i : Z) : Response :=
  let level_spread := spread * (1 + (inject_Z i * level_spacing_bps cfg / 10.0)) in
  let half_spread := level_spread / 2.0 in
  let bid_p := final_center - half_spread in
  let ask_p := final_center + half_spread in
  let bid_p := Py.round bid_p (priceDecimals su) in
  let ask_p := Py.round ask_p (priceDecimals su) in
  let qty := Py.round qty_per_order (volumeDecimals su) in
  if Py.leb qty 0 then []
  else if Py.leb ask_p bid_p then []
  else [limit_order book_id BUY qty bid_p None None (Some true) (Some GTT)
                    (Some (expiry_period cfg));
        limit_order book_id SELL qty ask_p None None (Some true) (Some GTT)
                    (Some (expiry_period cfg))].

(** Lines 93-187 of the body, given the volatility [vol] of step 2: the
    instructions appended before the body ended and the exception that ended
    it, if any. *)
Definition book_quotes (cfg : Config) (su : StateUpdate) (book_id : Z)
           (book : Book) (mid_price vol : Q) : Response * option Exception :=
  let bid_vol := Py.sum (map lvl_quantity (Py.slice_to (bids book) 5)) in
  let ask_vol := Py.sum (map lvl_quantity (Py.slice_to (asks book) 5)) in
  let total_vol := bid_vol + ask_vol in
  let obi := if Py.ltb 0 total_vol then (bid_vol - ask_vol) / total_vol else 0 in
  match accounts su with
  | None => ([], Some TypeError)
  | Some accts =>
      match dict_get accts (uid cfg) with
      | None => ([], Some KeyError)
      | Some by_book =>
          match dict_get by_book book_id with
          | None => ([], Some KeyError)
          | Some account =>
              let base_inv := total (base_balance account) in
              let equity := total (quote_balance account) + (base_inv * mid_price) in
              let equity := if Py.leb equity 0 then 1000.0 else equity in
              let spread :=
                mid_price * (base_spread_bps cfg / 10000.0) * (1 + (vol * 100.0)) in
              let fair_price := mid_price + (obi * obi_factor cfg * spread) in
              let skew := - risk_aversion cfg * base_inv * (spread / 10.0) in
              let final_center := fair_price + skew in
              let cancels :=
                match orders account with
                | [] => []
                | os => [cancel_orders book_id (map ord_id os)]
                end in
              if Py.eqb mid_price 0 then (cancels, Some ZeroDivisionError)
              else
                let qty_per_order := (equity * order_size_pct cfg) / mid_price in
                let qty_per_order :=
                  Qmax qty_per_order (1.0 / Py.pow10 (volumeDecimals su)) in
                (cancels
                 ++ flat_map (ladder_level cfg su book_id final_center spread
                                           qty_per_order)
                             (map Z.of_nat (seq 0 (Z.to_nat (levels cfg)))),
                 None)
          end
      end
  end.

Section WithNumpy.

Variable np_std : list Q -> Q.

(** Step 2 of the body: the volatility from the recent mid prices, the
    current one included. *)
Definition recent_volatility (recent_prices : list Q) : Q :=
  if (2 <? length recent_prices)%nat
  then Qmax (np_std (simple_returns recent_prices)) 1e-5
  else 0.001.

(** The guarded body of the loop of [respond] for one book; [snapshots] is
    the history kept for the book. *)
Definition book_body (cfg : Config) (su : StateUpdate) (snapshots : list Book)
           (book_id : Z) (book : Book) : Response * option Exception :=
  match bids book, asks book with
  | best_bid :: _, best_ask :: _ =>
      let mid_price := (lvl_price best_bid + lvl_price best_ask) / 2.0 in
      let recent_prices := history_mids cfg snapshots ++ [mid_price] in
      let vol := recent_volatility recent_prices in
      book_quotes cfg su book_id book mid_price vol
  | _, _ => ([], None)
  end.

(** The loop of [respond]; [history book_id] is what the history manager
    holds for the book of this validator.  [respond] first waits until the
    history manager is no longer updating; the model starts after that wait,
    with the history the manager then holds. *)
Definition respond (cfg : Config) (history : Z -> list Book) (su : StateUpdate)
  : Response :=
  flat_map (fun '(book_id, book) =>
              fst (book_body cfg su (history book_id) book_id book))
           (books su).

End WithNumpy.

End SmartMarketMaker.

(* ===================================================================== *)
(** * OrderBookMarketMaker *)
(* ===================================================================== *)

Module OrderBookMarketMaker.

Record Config := {
  base_order_size : Q;
  max_order_size : Q;
  min_spread_fraction : Q;
  max_spread_fraction : Q;
  max_inventory_fraction : Q;
  inventory_skew_strength : Q;
  imbalance_lookback : nat;
  imbalance_depth : Z;
  imbalance_threshold : Q;
  trade_imbalance_threshold : Q;
  toxic_flow_penalty : Q;
  order_expiry : Z
}.

Definition default_config : Config := {|
  base_order_size := 0.5;
  max_order_size := 2.0;
  min_spread_fraction := 0.25;
  max_spread_fraction := 0.75;
  max_inventory_fraction := 0.3;
  inventory_skew_strength := 2.0;
  imbalance_lookback := 5;
  imbalance_depth := 5;
  imbalance_threshold := 0.1;
  trade_imbalance_threshold := 0.3;
  toxic_flow_penalty := 2.0;
  order_expiry := 60000000000
|}.

(** [calculate_trade_flow_imbalance(book)]. *)
Definition calculate_trade_flow_imbalance (book : Book) : Q :=
  match events book with
  | [] => 0.0
  | evs =>
      let '(buy_volume, sell_volume) :=
        fold_left (fun '(buy_volume, sell_volume) event =>
                     match event with
                     | TradeInfo BUY q _ _ _ => (buy_volume + q, sell_volume)
                     | TradeInfo SELL q _ _ _ => (buy_volume, sell_volume + q)
                     | OtherEvent => (buy_volume, sell_volume)
                     end) evs (0.0, 0.0) in
      let total_volume := buy_volume + sell_volume in
      if Py.ltb total_volume 1e-8 then 0.0
      else (buy_volume - sell_volume) / total_volume
  end.

(** [calculate_inventory_position(account, midquote)]. *)
Definition calculate_inventory_position (account : Account) (midquote : Q) : Q :=
  let base_value := own_base account * midquote in
  let quote_value := own_quote account in
  let total_value := base_value + quote_value in
  if Py.ltb total_value 1e-8 then 0.0
  else (base_value - quote_value) / total_value.

(** [detect_adverse_selection]; the validator and the book are not read. *)
Definition detect_adverse_selection (cfg : Config)
           (book_imbalance trade_imbalance : Q) : bool :=
  let imbalance_divergence := Qabs (trade_imbalance - book_imbalance) in
  Py.ltb (trade_imbalance_threshold cfg) (Qabs trade_imbalance)
  && Py.ltb 0.3 imbalance_divergence.

(** [calculate_optimal_quotes]: [(bid_price, ask_price, bid_size,
    ask_size)]; an empty side makes [book.bids[0]] raise.  The account is
    passed and not read. *)
Definition calculate_optimal_quotes (cfg : Config) (book : Book)
           (account : Account)
           (book_imbalance inventory_position : Q) (adverse_selection : bool)
           (priceDecimals volumeDecimals : Z) : Try (Q * Q * Q * Q) :=
  match bids book, asks book with
  | b :: _, a :: _ =>
      let best_bid := lvl_price b in
      let best_ask := lvl_price a in
      let spread := best_ask - best_bid in
      let midquote := (best_bid + best_ask) / 2 in
      let base_spread_offset := spread * min_spread_fraction cfg in
      let base_spread_offset :=
        if adverse_selection
        then base_spread_offset * toxic_flow_penalty cfg
        else base_spread_offset in
      let inventory_skew :=
        inventory_position * inventory_skew_strength cfg * spread * 0.5 in
      let imbalance_adjustment :=
        if Py.ltb (imbalance_threshold cfg) (Qabs book_imbalance)
        then book_imbalance * spread * 0.3 else 0.0 in
      let bid_offset := base_spread_offset - inventory_skew + imbalance_adjustment in
      let bid_price := midquote - bid_offset in
      let ask_offset := base_spread_offset + inventory_skew - imbalance_adjustment in
      let ask_price := midquote + ask_offset in
      let bid_price := Qmin bid_price (best_bid + spread * 0.4) in
      let bid_price := Qmax bid_price (best_bid - spread * 0.1) in
      let ask_price := Qmax ask_price (best_ask - spread * 0.4) in
      let ask_price := Qmin ask_price (best_ask + spread * 0.1) in
      let bid_price := Py.round bid_price priceDecimals in
      let ask_price := Py.round ask_price priceDecimals in
      let depth_factor := Qmin (lvl_quantity b / 10.0) 1.5 in
      let inventory_factor := Qmax 0.3 (1.0 - Qabs inventory_position) in
      let signal_factor := 1.0 + Qabs book_imbalance * 0.5 in
      let bid_size :=
        base_order_size cfg * depth_factor * inventory_factor * signal_factor in
      let ask_size :=
        base_order_size cfg * depth_factor * inventory_factor * signal_factor in
      let '(bid_size, ask_size) :=
        if Py.ltb (max_inventory_fraction cfg) inventory_position
        then (bid_size * 0.5, ask_size * 1.5)
        else if Py.ltb inventory_position (- max_inventory_fraction cfg)
        then (bid_size * 1.5, ask_size * 0.5)
        else (bid_size, ask_size) in
      let bid_size := Qmin bid_size (max_order_size cfg) in
      let ask_size := Qmin ask_size (max_order_size cfg) in
      let bid_size := Py.round bid_size volumeDecimals in
      let ask_size := Py.round ask_size volumeDecimals in
      Returns (bid_price, ask_price, bid_size, ask_size)
  | _, _ => Raises IndexError
  end.

(** The loop of [should_cancel_orders]; an order without a price makes
    [order.price - midquote] raise. *)
Fixpoint cancel_scan (cfg : Config) (midquote spread : Q) (os : list Order)
         (to_cancel : list Z) : Try (list Z) :=
  match os with
  | [] => Returns to_cancel
  | order :: rest =>
      match ord_price order with
      | None => Raises (builtin TypeError)
      | Some price =>
          let distance := Qabs (price - midquote) in
          if Py.ltb (2 * spread) distance
          then cancel_scan cfg midquote spread rest (to_cancel ++ [ord_id order])
          else if Py.ltb (ord_quantity order) (base_order_size cfg * 0.1)
          then cancel_scan cfg midquote spread rest (to_cancel ++ [ord_id order])
          else cancel_scan cfg midquote spread rest to_cancel
      end
  end.

(** [should_cancel_orders(account, book, config)]. *)
Definition should_cancel_orders (cfg : Config) (account : Account) (book : Book)
  : Try (list Z) :=
  match orders account with
  | [] => Returns []
  | os =>
      match bids book, asks book with
      | b :: _, a :: _ =>
          let midquote := (lvl_price b + lvl_price a) / 2 in
          let spread := lvl_price a - lvl_price b in
          cancel_scan cfg midquote spread os []
      | _, _ => Raises IndexError
      end
  end.

(** The three histories of [respond], by validator and then by book. *)
Record Agent := {
  imbalance_history : gmap string (gmap Z (list Q));
  trade_flow_history : gmap string (gmap Z (list Q));
  midquote_history : gmap string (gmap Z (list Q))
}.

Definition initial : Agent :=
  {| imbalance_history := ∅; trade_flow_history := ∅; midquote_history := ∅ |}.

(** What [respond] reads of the state update.  The accounts are a
    dictionary whose keys [respond] compares with the validator's hotkey. *)
Record StateUpdate := {
  validator : string;
  priceDecimals : Z;
  volumeDecimals : Z;
  max_open_orders : Z;
  books : list (Z * Book);
  accounts : option (list (PyKey * list (Z * Account)))
}.

Section Respond.

(** The float [calculate_book_imbalance(book)] returns; the function is
    modelled over the reals below. *)
Variable book_imbalance_of : Book -> Q.

(** The body of the loop of [respond] for one book: the histories after it,
    the instructions it appended, and the exception that ended it, if any. *)
Definition book_body (cfg : Config) (su : StateUpdate) (self : Agent)
           (book_id : Z) (book : Book) : Agent * Response * option Raised :=
  match bids book, asks book with
  | b :: _, a :: _ =>
      match accounts su with
      | None => (self, [], Some (builtin TypeError))
      | Some accts =>
          match key_get accts (str_key (validator su)) with
          | None => (self, [], None)
          | Some by_book =>
              match dict_get by_book book_id with
              | None => (self, [], None)
              | Some account =>
                  let v := validator su in
                  let book_imbalance := book_imbalance_of book in
                  let trade_imbalance := calculate_trade_flow_imbalance book in
                  let midquote := (lvl_price b + lvl_price a) / 2 in
                  let self' :=
                    {| imbalance_history :=
                         store2 (imbalance_history self) v book_id
                                (Py.deque_append (imbalance_lookback cfg)
                                   (lookup2 [] (imbalance_history self) v book_id)
                                   book_imbalance);
                       trade_flow_history :=
                         store2 (trade_flow_history self) v book_id
                                (Py.deque_append 10
                                   (lookup2 [] (trade_flow_history self) v book_id)
                                   trade_imbalance);
                       midquote_history :=
                         store2 (midquote_history self) v book_id
                                (Py.deque_append 100
                                   (lookup2 [] (midquote_history self) v book_id)
                                   midquote) |} in
                  let inventory_position :=
                    calculate_inventory_position account midquote in
                  let adverse_selection :=
                    detect_adverse_selection cfg book_imbalance trade_imbalance in
                  match should_cancel_orders cfg account book with
                  | Raises e => (self', [], Some e)
                  | Returns orders_to_cancel =>
                      let cancels :=
                        match orders_to_cancel with
                        | [] => []
                        | ids => [cancel_orders book_id ids]
                        end in
                      match calculate_optimal_quotes
                              cfg book account book_imbalance inventory_position
                              adverse_selection (priceDecimals su)
                              (volumeDecimals su) with
                      | Raises e => (self', cancels, Some e)
                      | Returns (bid_price, ask_price, bid_size, ask_size) =>
                          if (max_open_orders su - 2
                              <=? Z.of_nat (length (orders account)))%Z
                          then (self', cancels, None)
                          else
                            let free_quote := free (quote_balance account) in
                            let free_base := free (base_balance account) in
                            let short_quote :=
                              Py.ltb free_quote (bid_size * bid_price * 0.5) in
                            if short_quote && Py.eqb bid_price 0
                            then (self', cancels,
                                  Some (builtin ZeroDivisionError))
                            else
                              let bid_size :=
                                if short_quote
                                then Py.round
                                       (Qmax (free_quote / bid_price * 0.8) 0)
                                       (volumeDecimals su)
                                else bid_size in
                              let ask_size :=
                                if Py.ltb free_base (ask_size * 0.5)
                                then Py.round (Qmax (free_base * 0.8) 0)
                                              (volumeDecimals su)
                                else ask_size in
                              let bid :=
                                if Py.ltb 0 bid_size
                                then [limit_order book_id BUY bid_size bid_price
                                        None (Some CANCEL_BOTH) (Some true)
                                        (Some GTT) (Some (order_expiry cfg))]
                                else [] in
                              let ask :=
                                if Py.ltb 0 ask_size
                                then [limit_order book_id SELL ask_size ask_price
                                        None (Some CANCEL_BOTH) (Some true)
                                        (Some GTT) (Some (order_expiry cfg))]
                                else [] in
                              (self', cancels ++ bid ++ ask, None)
                      end
                  end
              end
          end
      end
  | _, _ => (self, [], None)
  end.

(** [respond(state)]: an exception of a book is logged and the loop goes on;
    what the book appended before it stays in the response. *)
Definition respond (cfg : Config) (self : Agent) (su : StateUpdate)
  : Agent * Response :=
  fold_left
    (fun '(self, response) '(book_id, book) =>
       let '(self', instrs, _) := book_body cfg su self book_id book in
       (self', response ++ instrs))
    (books su) (self, []).

End Respond.

(** The imbalance of this agent weights the levels with [np.exp] and is
    modelled over the reals. *)

Local Open Scope R_scope.

(** [for i, level in enumerate(levels): volume += level.quantity * weight]
    with [weight = np.exp(-decay_lambda * i)]. *)
Fixpoint weighted_volume (decay_lambda : R) (levels : list Level) (i : nat)
         (volume : R) : R :=
  match levels with
  | [] => volume
  | lvl :: rest =>
      weighted_volume decay_lambda rest (S i)
        (volume + Q2R (lvl_quantity lvl) * exp (- decay_lambda * INR i))
  end.

(** [calculate_book_imbalance(book, depth)]. *)
Definition calculate_book_imbalance (book : Book) (depth : Z) : R :=
  let decay_lambda := 0.5 in
  let bid_volume := weighted_volume decay_lambda (Py.slice_to (bids book) depth) 0 0.0 in
  let ask_volume := weighted_volume decay_lambda (Py.slice_to (asks book) depth) 0 0.0 in
  let total_volume := bid_volume + ask_volume in
  if Rlt_dec total_volume 1e-8 then 0.0
  else (bid_volume - ask_volume) / total_volume.

End OrderBookMarketMaker.

(* ===================================================================== *)
(** * OrderBookImbalanceMarketMaker: inventory, quotes and [respond] *)
(* ===================================================================== *)

Module OrderBookImbalanceMarketMakerRespond.

Import OrderBookImbalanceMarketMaker.

Record Config := {
  uid : Z;
  base_order_size : Q;
  max_inventory_pct : Q;
  target_spread_bps : Q;
  min_edge_bps : Q;
  expiry_period : Z;
  imbalance_depths : list Z;
  inventory_skew_factor : Q
}.

Definition default_config (uid : Z) : Config := {|
  uid := uid;
  base_order_size := 0.5;
  max_inventory_pct := 0.3;
  target_spread_bps := 10.0;
  min_edge_bps := 2.0;
  expiry_period := 60000000000;
  imbalance_depths := [1; 3; 5; 10]%Z;
  inventory_skew_factor := 0.5
|}.

Record StateUpdate := {
  validator : string;
  miner_wealth : Q;
  priceDecimals : Z;
  volumeDecimals : Z;
  books : list (Z * Book);
  accounts : Accounts
}.

(** [calculate_inventory_position]: [(inventory_pct, inventory_skew)]. *)
Definition calculate_inventory_position (cfg : Config) (account : Account)
           (microprice initial_capital : Q) : Result (Q * Q) :=
  let net_base := total (base_balance account) - base_loan account in
  let position_value := net_base * microprice in
  let inventory_pct :=
    if Py.ltb 0 initial_capital then position_value / initial_capital else 0.0 in
  if Py.eqb (max_inventory_pct cfg) 0 then Raise ZeroDivisionError
  else
    Ok (inventory_pct,
        np_clip (inventory_pct / max_inventory_pct cfg * inventory_skew_factor cfg)
                (-1.0) 1.0).

(** [calculate_optimal_quotes]: [(bid_price, ask_price, bid_size_mult,
    ask_size_mult)]. *)
Definition calculate_optimal_quotes
           (microprice spread imbalance_signal inventory_skew : Q)
           (price_decimals : Z) : Q * Q * Q * Q :=
  let half_spread := spread / 2 in
  let base_bid := microprice - half_spread in
  let base_ask := microprice + half_spread in
  let imbalance_adjustment := imbalance_signal * half_spread * 0.3 in
  let inventory_adjustment := - inventory_skew * half_spread * 0.5 in
  let total_adjustment := imbalance_adjustment + inventory_adjustment in
  let bid_price := base_bid + total_adjustment in
  let ask_price := base_ask + total_adjustment in
  let bid_price := Py.round bid_price price_decimals in
  let ask_price := Py.round ask_price price_decimals in
  let bid_size_mult := 1.0 + 0.5 * imbalance_signal - 0.5 * inventory_skew in
  let ask_size_mult := 1.0 - 0.5 * imbalance_signal + 0.5 * inventory_skew in
  let bid_size_mult := np_clip bid_size_mult 0.5 2.0 in
  let ask_size_mult := np_clip ask_size_mult 0.5 2.0 in
  (bid_price, ask_price, bid_size_mult, ask_size_mult).

(** [should_place_order(quote_price, microprice, is_bid, min_edge_bps)].
    The edge is the exact quotient: for a quote exactly [min_edge_bps] away
    the binary64 edge of the source may fall just below the bound and the
    source reject the quote. *)
Definition should_place_order (quote_price microprice : Q) (is_bid : bool)
           (min_edge_bps : Q) : bool :=
  if Py.eqb microprice 0 then false
  else
    let edge_bps := Qabs (quote_price - microprice) / microprice * 10000 in
    if is_bid
    then Py.ltb quote_price microprice && Py.leb min_edge_bps edge_bps
    else Py.ltb microprice quote_price && Py.leb min_edge_bps edge_bps.

(** Lines 390-392: the weights of the depths and [np.dot], which raises
    when the two lengths differ. *)
Definition weighted_signal (imbalances : list Q) : Try Q :=
  let weights := firstn (length imbalances) [1.0; 1.2; 1.5; 2.0] in
  let total := Py.sum weights in
  let weights := map (fun w => w / total) weights in
  if (length imbalances =? length weights)%nat
  then Returns (Py.sum (map (fun '(x, w) => x * w) (combine imbalances weights)))
  else Raises ValueError.

Section Respond.

(** The float [estimate_volatility(validator, book_id, price)] returns; the
    function is modelled over the reals above. *)
Variable volatility_of : string -> Z -> Q -> Q.

(** The guarded body of the loop of [respond] for one book; nothing is
    appended before the last call that can raise. *)
Definition book_body (cfg : Config) (su : StateUpdate)
           (book_id : Z) (book : Book) : Try Response :=
  match bids book, asks book with
  | _ :: _, _ :: _ =>
      match imbalance_depths cfg with
      | [] => Raises ValueError
      | d0 :: ds =>
          if (Z.of_nat (length (bids book)) <? fold_left Z.max ds d0)%Z
          then Returns []
          else
            match accounts su with
            | None | Some [] => Returns []
            | Some accts =>
                match dict_get accts (uid cfg) with
                | None => Returns []
                | Some by_book =>
                    match dict_get by_book book_id with
                    | None => Returns []
                    | Some account =>
                        let imbalances :=
                          map (calculate_order_book_imbalance book)
                              (imbalance_depths cfg) in
                        match weighted_signal imbalances with
                        | Raises e => Raises e
                        | Returns imbalance_signal =>
                            let microprice := calculate_microprice book in
                            if Py.eqb microprice 0 then Returns []
                            else
                              let volatility :=
                                volatility_of (validator su) book_id microprice in
                              match calculate_inventory_position
                                      cfg account microprice (miner_wealth su) with
                              | Raise e => Raises (builtin e)
                              | Ok (inventory_pct, inventory_skew) =>
                                  if Py.leb (max_inventory_pct cfg)
                                            (Qabs inventory_pct)
                                  then Returns []
                                  else
                                    let base_spread_bps :=
                                      target_spread_bps cfg
                                      * (1 + volatility / 0.001) in
                                    let spread :=
                                      microprice * base_spread_bps / 10000 in
                                    let '(bid_price, ask_price, bid_size_mult,
                                          ask_size_mult) :=
                                      calculate_optimal_quotes
                                        microprice spread imbalance_signal
                                        inventory_skew (priceDecimals su) in
                                    let bid_size :=
                                      Py.round (base_order_size cfg * bid_size_mult)
                                               (volumeDecimals su) in
                                    let ask_size :=
                                      Py.round (base_order_size cfg * ask_size_mult)
                                               (volumeDecimals su) in
                                    let bid :=
                                      if Py.ltb inventory_pct
                                                (max_inventory_pct cfg * 0.8)
                                         && should_place_order
                                              bid_price microprice true
                                              (min_edge_bps cfg)
                                      then [limit_order book_id BUY bid_size
                                              bid_price None (Some CANCEL_BOTH)
                                              None (Some GTT)
                                              (Some (expiry_period cfg))]
                                      else [] in
                                    let ask :=
                                      if Py.ltb (- max_inventory_pct cfg * 0.8)
                                                inventory_pct
                                         && should_place_order
                                              ask_price microprice false
                                              (min_edge_bps cfg)
                                      then [limit_order book_id SELL ask_size
                                              ask_price None (Some CANCEL_BOTH)
                                              None (Some GTT)
                                              (Some (expiry_period cfg))]
                                      else [] in
                                    Returns (bid ++ ask)
                              end
                        end
                    end
                end
            end
      end
  | _, _ => Returns []
  end.

(** [respond(state)]: a book whose body raises is logged and skipped. *)
Definition respond (cfg : Config) (su : StateUpdate) : Response :=
  flat_map (fun '(book_id, book) =>
              match book_body cfg su book_id book with
              | Returns instrs => instrs
              | Raises _ => []
              end)
           (books su).

End Respond.

End OrderBookImbalanceMarketMakerRespond.

(* ===================================================================== *)
(** * Vocabulary of the properties *)
(* ===================================================================== *)

(** The volume of the top [depth] levels of one side, as the specification
    words it: the sum of the [quantity] fields. *)
Definition top_volume (levels : list Level) (depth : Z) : Q :=
  Py.sum (map lvl_quantity (Py.slice_to levels depth)).

(** Quantities of a snapshot are never negative. *)
Definition nonneg_quantities (book : Book) : Prop :=
  Forall (fun l => 0 <= lvl_quantity l) (bids book)
  /\ Forall (fun l => 0 <= lvl_quantity l) (asks book).

(** The weighted volume as a plain sum: level [i] counts
    [quantity * exp(-i/2)]. *)
Fixpoint weighted_sum (decay : R) (levels : list Level) (i : nat) : R :=
  match levels with
  | [] => 0%R
  | lvl :: rest =>
      (Q2R (lvl_quantity lvl) * exp (- decay * INR i)
       + weighted_sum decay rest (S i))%R
  end.

(** The price of a limit order of direction [d], if the instruction is one. *)
Definition limit_price (d : OrderDirection) (i : Instruction) : option Q :=
  match i with
  | limit_order _ d' _ p _ _ _ _ _ => if direction_eqb d d' then Some p else None
  | _ => None
  end.

(** Every bid of a response is priced below every ask of it. *)
Definition bids_below_asks (resp : Response) : Prop :=
  forall i j pb pa,
    In i resp -> In j resp ->
    limit_price BUY i = Some pb -> limit_price SELL j = Some pa -> pb < pa.

(** An ask priced at or below the best bid. *)
Definition ask_through_bid (best_bid : Q) (i : Instruction) : bool :=
  match limit_price SELL i with
  | Some p => Py.leb p best_bid
  | None => false
  end.

(* ===================================================================== *)
(** * Sample inputs *)
(* ===================================================================== *)

Definition level (p q : Q) : Level :=
  {| lvl_price := p; lvl_quantity := q; lvl_orders := None |}.

(** The book of the specification's scenario: one level a side. *)
Definition sample_book : Book :=
  {| bids := [level 99.0 2.0]; asks := [level 101.0 2.0]; events := [] |}.

(** A snapshot whose two bid levels weigh as much as its single ask level. *)
Definition two_level_book : Book :=
  {| bids := [level 99.0 1.0; level 98.0 1.0];
     asks := [level 101.0 2.0];
     events := [] |}.

Definition balance (x : Q) : Balance :=
  {| total := x; free := x; reserved := 0 |}.

(** An account holding [b] base and [q] quote, all free, with open orders
    [os]. *)
Definition account (b q : Q) (os : list Order) : Account :=
  {| own_base := b; own_quote := q;
     base_balance := balance b; quote_balance := balance q;
     base_loan := 0; base_collateral := 0; quote_loan := 0;
     fees := None; orders := os |}.

Definition resting (id : Z) (side : OrderDirection) (p : Q) (t : Z) : Order :=
  {| ord_id := id; ord_side := side; ord_price := Some p;
     ord_quantity := 1; ord_timestamp := t |}.

(** A long account on the sample book, for SmartMarketMaker. *)
Definition smart_long_state : SmartMarketMaker.StateUpdate :=
  {| SmartMarketMaker.priceDecimals := 2;
     SmartMarketMaker.volumeDecimals := 2;
     SmartMarketMaker.books := [(1%Z, sample_book)];
     SmartMarketMaker.accounts := Some [(0%Z, [(1%Z, account 200 1000 [])])] |}.

(** The part of an L3 book state that quoting reads and writes. *)
Definition quoting_state (bs : L3MarketMakerAgent._BookState)
  : option Q * Q * Z * Z :=
  (L3MarketMakerAgent.mid_last bs, L3MarketMakerAgent.vol_ewma bs,
   L3MarketMakerAgent.cooldown_until bs,
   L3MarketMakerAgent.loss_cooldown_until bs).

(** The response cancels order [id] of book [book_id]. *)
Definition cancels (book_id id : Z) (resp : Response) : Prop :=
  exists ids, In (cancel_orders book_id ids) resp /\ In id ids.

(** An L3 agent one tick after it valued book 1 at 1500, holding 5 base and
    1000 quote with one open bid, and a tick on which the mid fell to 90. *)
Definition l3_agent_in_drawdown : L3MarketMakerAgent.Agent :=
  {| L3MarketMakerAgent._books :=
       {[ 1%Z := {| L3MarketMakerAgent.base_target := Some 5.0;
                    L3MarketMakerAgent.wealth0 := Some 1500.0;
                    L3MarketMakerAgent.mid_last := Some 100.0;
                    L3MarketMakerAgent.vol_ewma := 0.0;
                    L3MarketMakerAgent.cooldown_until := 0;
                    L3MarketMakerAgent.loss_cooldown_until := 0 |} ]};
     L3MarketMakerAgent._client_id := 10000;
     L3MarketMakerAgent.accounts :=
       [(1%Z, account 5.0 1000.0 [resting 7 BUY 98.5 4000])] |}.

Definition l3_tick (bk : Book) (now : Z) : L3MarketMakerAgent.StateUpdate :=
  {| L3MarketMakerAgent.priceDecimals := 2;
     L3MarketMakerAgent.volumeDecimals := 2;
     L3MarketMakerAgent.publish_interval := 1000;
     L3MarketMakerAgent.timestamp := now;
     L3MarketMakerAgent.books := [(1%Z, bk)] |}.

Definition fallen_book : Book :=
  {| bids := [level 89.0 2.0]; asks := [level 91.0 2.0]; events := [] |}.

Definition opposite (d : OrderDirection) : OrderDirection :=
  match d with BUY => SELL | SELL => BUY end.

(** The best resting order of a side, the quote flag and the desired price
    of a side, for statements about either side of an L3 quote. *)
Definition best_order (d : OrderDirection) (acct : Account)
  : option (Order * Q) :=
  match d with
  | BUY => L3MarketMakerAgent.best_bid_order acct
  | SELL => L3MarketMakerAgent.best_ask_order acct
  end.

Definition side_quoted (d : OrderDirection) (q : L3MarketMakerAgent.Quote) : bool :=
  match d with
  | BUY => L3MarketMakerAgent.quote_bid q
  | SELL => L3MarketMakerAgent.quote_ask q
  end.

Definition side_px (d : OrderDirection) (q : L3MarketMakerAgent.Quote) : Q :=
  match d with
  | BUY => L3MarketMakerAgent.bid_px q
  | SELL => L3MarketMakerAgent.ask_px q
  end.

(** The quote the L3 body computes for a book on a tick, from the signals of
    lines 229-246. *)
Definition run_quote (cfg : L3MarketMakerAgent.Config)
           (su : L3MarketMakerAgent.StateUpdate) (book : Book) (acct : Account)
           (bs : L3MarketMakerAgent._BookState)
  : option L3MarketMakerAgent.Quote :=
  match L3MarketMakerAgent._best_levels book with
  | None => None
  | Some (bid, ask, bidq0, askq0) =>
      let mid := 0.5 * (bid + ask) in
      let vol := L3MarketMakerAgent.step_vol cfg bs mid in
      let imb :=
        L3MarketMakerAgent._depth_imbalance
          book (Z.max 1 (L3MarketMakerAgent.depth_levels cfg)) in
      let t_imb := L3MarketMakerAgent._trade_imbalance book in
      Some (L3MarketMakerAgent.compute_quote
              cfg (L3MarketMakerAgent.priceDecimals su)
              (L3MarketMakerAgent.volumeDecimals su) book acct
              bid ask bidq0 askq0 imb t_imb
              (L3MarketMakerAgent.inventory acct bs)
              (L3MarketMakerAgent.is_toxic cfg vol imb t_imb))
  end.

(** A normal quoting run of the L3 body: no cooldown, a two-sided book with
    a positive spread, inventory within the hard cap, no loss breach. *)
Definition normal_run (cfg : L3MarketMakerAgent.Config)
           (su : L3MarketMakerAgent.StateUpdate) (book : Book) (acct : Account)
           (bs : L3MarketMakerAgent._BookState) : bool :=
  negb (L3MarketMakerAgent.in_cooldown (L3MarketMakerAgent.timestamp su) bs)
  && match L3MarketMakerAgent._best_levels book with
     | None => false
     | Some (bid, ask, _, _) =>
         Py.ltb 0 (ask - bid)
         && Py.leb (Qabs (L3MarketMakerAgent.inventory acct bs))
                   (L3MarketMakerAgent.inv_cap_base cfg)
         && negb (L3MarketMakerAgent.loss_breach cfg acct bs (0.5 * (bid + ask)))
     end.

(** The state of book 1 one tick after the agent first saw [sample_book]
    holding 5 base and 1000 quote. *)
Definition l3_seen_state : L3MarketMakerAgent._BookState :=
  {| L3MarketMakerAgent.base_target := Some 5.0;
     L3MarketMakerAgent.wealth0 := Some 1500.0;
     L3MarketMakerAgent.mid_last := Some 100.0;
     L3MarketMakerAgent.vol_ewma := 0.0;
     L3MarketMakerAgent.cooldown_until := 0;
     L3MarketMakerAgent.loss_cooldown_until := 0 |}.

(** The L3 account of the no-churn scenario: one resting bid at the price
    the body wants on [sample_book]. *)
Definition l3_quoted_account : Account :=
  account 5.0 1000.0 [resting 7 BUY 99.94 4000].

(** The quote of the L3 body on [sample_book] with a flat inventory. *)
Definition l3_sample_quote : L3MarketMakerAgent.Quote :=
  {| L3MarketMakerAgent.bid_px := 99.94;
     L3MarketMakerAgent.ask_px := 100.06;
     L3MarketMakerAgent.quote_bid := true;
     L3MarketMakerAgent.quote_ask := true;
     L3MarketMakerAgent.qty := 0.20 |}.

(** [np.std] where it is not reached: the histories of the scenarios below
    are too short for the agents to call it. *)
Definition np_std_unreached : list Q -> Q := fun _ => 0.

(** The response cancels order [id] of book [book_id], as a test. *)
Definition cancelsb (book_id id : Z) (resp : Response) : bool :=
  existsb (fun i => match i with
                    | cancel_orders b ids =>
                        Z.eqb b book_id && existsb (Z.eqb id) ids
                    | _ => false
                    end) resp.

(** The response places a limit order of direction [d] at price [p]. *)
Definition quotes_at (d : OrderDirection) (p : Q) (resp : Response) : bool :=
  existsb (fun i => match limit_price d i with
                    | Some p' => Py.eqb p' p
                    | None => false
                    end) resp.

(** An EliteMarketMaker tick: [sample_book], no base, 1000 quote, and a
    resting bid at 99.95, the price the agent quotes on this book. *)
Definition elite_tick : EliteMarketMaker.StateUpdate :=
  {| EliteMarketMaker.priceDecimals := 2;
     EliteMarketMaker.books := [(1%Z, sample_book)];
     EliteMarketMaker.accounts :=
       Some [(0%Z, [(1%Z, account 0.0 1000.0 [resting 7 BUY 99.95 0])])] |}.

(** The response to the second of two identical ticks, from a fresh agent. *)
Definition elite_second_response (np_std : list Q -> Q)
           (cfg : EliteMarketMaker.Config) (su : EliteMarketMaker.StateUpdate)
  : option Response :=
  match EliteMarketMaker.respond np_std cfg ∅ su with
  | Ok (ph1, _) =>
      match EliteMarketMaker.respond np_std cfg ph1 su with
      | Ok (_, r2) => Some r2
      | Raise _ => None
      end
  | Raise _ => None
  end.

(** A SmartOrderBookAgent tick that carries two books and no accounts. *)
Definition smart_tick_without_accounts : SmartOrderBookAgent.StateUpdate :=
  {| SmartOrderBookAgent.books := [(1%Z, sample_book); (2%Z, two_level_book)];
     SmartOrderBookAgent.accounts := None |}.

(** The side on which an order would add to the inventory [inv]. *)
Definition risk_increasing (inv : Q) : OrderDirection :=
  if Py.ltb 0 inv then BUY else SELL.

(** An EliteImbalanceMarketMaker tick with its list of books replaced. *)
Definition with_books (su : EliteImbalanceMarketMaker.StateUpdate)
           (bks : list (Z * Book)) : EliteImbalanceMarketMaker.StateUpdate :=
  {| EliteImbalanceMarketMaker.validator := EliteImbalanceMarketMaker.validator su;
     EliteImbalanceMarketMaker.timestamp := EliteImbalanceMarketMaker.timestamp su;
     EliteImbalanceMarketMaker.publish_interval :=
       EliteImbalanceMarketMaker.publish_interval su;
     EliteImbalanceMarketMaker.books := bks |}.



(** A limit order is funded when the free balances of the account of its
    book cover it: price times quantity in quote for a buy, the quantity in
    base for a sell.  Without an account the free balances count as 0. *)
Definition funded (account_of : Z -> option Account) (i : Instruction) : Prop :=
  match i with
  | limit_order b d q p _ _ _ _ _ =>
      match d with
      | BUY =>
          p * q <= match account_of b with
                   | Some a => free (quote_balance a)
                   | None => 0
                   end
      | SELL =>
          q <= match account_of b with
               | Some a => free (base_balance a)
               | None => 0
               end
      end
  | _ => True
  end.

(** An EliteImbalanceMarketMaker agent and tick on [sample_book], with an
    imbalance of 0.1 from the snapshot library and no trades. *)
Definition elite_imbalance_agent : EliteImbalanceMarketMaker.Agent :=
  {| EliteImbalanceMarketMaker._last_mid := ∅;
     EliteImbalanceMarketMaker.accounts := [(1%Z, account 5.0 1000.0 [])] |}.

Definition elite_imbalance_tick : EliteImbalanceMarketMaker.StateUpdate :=
  {| EliteImbalanceMarketMaker.validator := "A"%string;
     EliteImbalanceMarketMaker.timestamp := 5000;
     EliteImbalanceMarketMaker.publish_interval := 1000;
     EliteImbalanceMarketMaker.books := [(1%Z, sample_book)] |}.

(* ===================================================================== *)
(** * Vocabulary of the further properties *)
(* ===================================================================== *)

(** A limit order sent with [postOnly=True] is priced strictly inside the
    opposite touch: a bid below the best ask, an ask above the best bid. *)
Definition post_only_inside (bid ask : Q) (i : Instruction) : Prop :=
  match i with
  | limit_order _ d _ p _ _ (Some true) _ _ =>
      match d with BUY => p < ask | SELL => bid < p end
  | _ => True
  end.

(** An L3 book state whose volatility average is above the toxicity
    threshold of the defaults. *)
Definition l3_volatile_state : L3MarketMakerAgent._BookState :=
  {| L3MarketMakerAgent.base_target := Some 5.0;
     L3MarketMakerAgent.wealth0 := Some 1500.0;
     L3MarketMakerAgent.mid_last := Some 100.0;
     L3MarketMakerAgent.vol_ewma := 0.01;
     L3MarketMakerAgent.cooldown_until := 0;
     L3MarketMakerAgent.loss_cooldown_until := 0 |}.

(** The PnL baselines of an L3 book state, once set, are those of [bs']. *)
Definition kept_baseline (bs bs' : L3MarketMakerAgent._BookState) : Prop :=
  (forall w, L3MarketMakerAgent.wealth0 bs = Some w ->
             L3MarketMakerAgent.wealth0 bs' = Some w)
  /\ (forall t, L3MarketMakerAgent.base_target bs = Some t ->
                L3MarketMakerAgent.base_target bs' = Some t).

(** The client order ids a response carries, in the order of the
    instructions. *)
Definition client_ids (resp : Response) : list Z :=
  flat_map (fun i => match i with
                     | limit_order _ _ _ _ (Some c) _ _ _ _ => [c]
                     | _ => []
                     end) resp.

(** [start, start + 1, ...], [n] integers. *)
Fixpoint zseq (start : Z) (n : nat) : list Z :=
  match n with
  | O => []
  | S n' => start :: zseq (start + 1) n'
  end.

(** The instructions [resp] carry the client order ids that follow the
    counter [cid0], one after the other, and leave the counter at [cid]. *)
Definition fresh_ids (cid0 cid : Z) (resp : Response) : Prop :=
  client_ids resp = zseq (cid0 + 1) (length (client_ids resp))
  /\ cid = (cid0 + Z.of_nat (length (client_ids resp)))%Z.

(** The detailed orders of the levels have no negative quantity. *)
Definition nonneg_level_orders (levels : list Level) : Prop :=
  Forall (fun l => match lvl_orders l with
                   | Some os => Forall (fun o => 0 <= lo_quantity o) os
                   | None => True
                   end) levels.

(** The orders queued at a level before the order [id]: all of them when
    the level does not hold it. *)
Fixpoint queued_before (id : Z) (os : list LevelOrder) : list LevelOrder :=
  match os with
  | [] => []
  | o :: os' => if Z.eqb (lo_id o) id then [] else o :: queued_before id os'
  end.

(** The levels of one side of a book. *)
Definition side_levels (book : Book) (side : OrderDirection) : list Level :=
  match side with BUY => bids book | SELL => asks book end.

(** A level of 2.0 at [p] made of the orders 7 (0.5), 8 (1.0) and 9 (0.5),
    in queue order. *)
Definition detailed_level (p : Q) : Level :=
  {| lvl_price := p; lvl_quantity := 2.0;
     lvl_orders := Some [ {| lo_id := 7; lo_quantity := 0.5 |};
                          {| lo_id := 8; lo_quantity := 1.0 |};
                          {| lo_id := 9; lo_quantity := 0.5 |} ] |}.

Definition detailed_book : Book :=
  {| bids := [detailed_level 99.0]; asks := [level 101.0 2.0]; events := [] |}.

(** What AdaptiveMarketMakerAgent may send: a limit order with self-trade
    prevention [CANCEL_OLDEST] that is either a postOnly quote good for
    [expiry] between [lo] and [hi], or an immediate-or-cancel order. *)
Definition adaptive_order (lo hi : Z) (i : Instruction) : Prop :=
  match i with
  | limit_order _ _ _ _ None (Some CANCEL_OLDEST) (Some true) (Some GTT)
                (Some expiry) => (lo <= expiry <= hi)%Z
  | limit_order _ _ _ _ None (Some CANCEL_OLDEST) None (Some IOC) None => True
  | _ => False
  end.

(** An AdaptiveMarketMakerAgent tick on [sample_book] for agent 0, which
    holds 1 base and 1000 quote. *)
Definition adaptive_tick : AdaptiveMarketMakerAgent.StateUpdate :=
  {| AdaptiveMarketMakerAgent.validator := "A"%string;
     AdaptiveMarketMakerAgent.priceDecimals := 2;
     AdaptiveMarketMakerAgent.volumeDecimals := 2;
     AdaptiveMarketMakerAgent.books := [(1%Z, sample_book)];
     AdaptiveMarketMakerAgent.accounts :=
       Some [(0%Z, [(1%Z, account 1.0 1000.0 [])])] |}.

(** A DominantImbalanceMM tick on [sample_book]. *)
Definition dominant_tick : DominantImbalanceMM.StateUpdate :=
  {| DominantImbalanceMM.validator := "A"%string;
     DominantImbalanceMM.timestamp := 5000;
     DominantImbalanceMM.priceDecimals := 2;
     DominantImbalanceMM.volumeDecimals := 2;
     DominantImbalanceMM.publish_interval := 1000000000;
     DominantImbalanceMM.miner_wealth := 2000.0;
     DominantImbalanceMM.max_open_orders := Some 10%Z;
     DominantImbalanceMM.books := [(1%Z, sample_book)] |}.

(** The trades among the events of a book have no negative quantity. *)
Definition nonneg_trades (book : Book) : Prop :=
  Forall (fun ev => match ev with
                    | TradeInfo _ q _ _ _ => 0 <= q
                    | OtherEvent => True
                    end) (events book).

(** [sample_book] after a buy of 1.0 and a sell of 0.5. *)
Definition traded_book : Book :=
  {| bids := [level 99.0 2.0]; asks := [level 101.0 2.0];
     events := [TradeInfo BUY 1.0 100.0 1 2; OtherEvent;
                TradeInfo SELL 0.5 100.0 2 1] |}.

(** An OrderBookImbalanceMarketMaker tick: a book ten levels deep on each
    side around 100, for agent 0 holding 1 base and 1000 quote. *)
Definition deep_book : Book :=
  {| bids := map (fun k => level (100.0 - inject_Z (Z.of_nat (S k)) * 0.01) 2.0)
                 (seq 0 10);
     asks := map (fun k => level (100.0 + inject_Z (Z.of_nat (S k)) * 0.01) 2.0)
                 (seq 0 10);
     events := [] |}.

Definition imbalance_tick : OrderBookImbalanceMarketMakerRespond.StateUpdate :=
  {| OrderBookImbalanceMarketMakerRespond.validator := "A"%string;
     OrderBookImbalanceMarketMakerRespond.miner_wealth := 2000.0;
     OrderBookImbalanceMarketMakerRespond.priceDecimals := 4;
     OrderBookImbalanceMarketMakerRespond.volumeDecimals := 2;
     OrderBookImbalanceMarketMakerRespond.books := [(1%Z, deep_book)];
     OrderBookImbalanceMarketMakerRespond.accounts :=
       Some [(0%Z, [(1%Z, account 1.0 1000.0 [])])] |}.

(** The defaults of OrderBookImbalanceMarketMaker with a fifth depth. *)
Definition five_depths : OrderBookImbalanceMarketMakerRespond.Config :=
  {| OrderBookImbalanceMarketMakerRespond.uid := 0;
     OrderBookImbalanceMarketMakerRespond.base_order_size := 0.5;
     OrderBookImbalanceMarketMakerRespond.max_inventory_pct := 0.3;
     OrderBookImbalanceMarketMakerRespond.target_spread_bps := 10.0;
     OrderBookImbalanceMarketMakerRespond.min_edge_bps := 2.0;
     OrderBookImbalanceMarketMakerRespond.expiry_period := 60000000000;
     OrderBookImbalanceMarketMakerRespond.imbalance_depths := [1; 2; 3; 5; 10]%Z;
     OrderBookImbalanceMarketMakerRespond.inventory_skew_factor := 0.5 |}.

(** The volatility of a first observation. *)
Definition first_volatility : string -> Z -> Q -> Q := fun _ _ _ => 0.001.

(** A GTT limit order of book [book_id] priced at least [edge] basis
    points away from the positive fair value [fair] on its passive side. *)
Definition has_edge (book_id : Z) (fair edge : Q) (i : Instruction) : Prop :=
  match i with
  | limit_order b d _ px _ _ _ (Some GTT) _ =>
      b = book_id /\ 0 < fair
      /\ match d with
         | BUY => px <= fair * (1 - edge / 10000)
         | SELL => fair * (1 + edge / 10000) <= px
         end
  | _ => False
  end.



(** The accounts are keyed by agent uid, as the protocol types them. *)
Definition keyed_by_uid {V} (accts : list (PyKey * V)) : Prop :=
  Forall (fun kv => exists uid, fst kv = int_key uid) accts.

(** An OrderBookMarketMaker tick on [sample_book] whose accounts hold agent
    0 with 1 base and 1000 quote. *)
Definition market_maker_tick : OrderBookMarketMaker.StateUpdate :=
  {| OrderBookMarketMaker.validator := "A"%string;
     OrderBookMarketMaker.priceDecimals := 2;
     OrderBookMarketMaker.volumeDecimals := 2;
     OrderBookMarketMaker.max_open_orders := 10;
     OrderBookMarketMaker.books := [(1%Z, sample_book)];
     OrderBookMarketMaker.accounts :=
       Some [(int_key 0, [(1%Z, account 1.0 1000.0 [])])] |}.

(** The imbalance of a balanced book. *)
Definition balanced : Book -> Q := fun _ => 0.


(** A limit order rests on the maker side of the touch: a buy strictly
    below the best ask, a sell strictly above the best bid. *)
Definition maker_side (bid ask : Q) (i : Instruction) : Prop :=
  match i with
  | limit_order _ d _ p _ _ _ _ _ =>
      match d with BUY => p < ask | SELL => bid < p end
  | _ => True
  end.

(** The maker-side condition of a response, read against the books of the
    tick: every limit order names a two-sided book of the tick and rests on
    the maker side of its touch. *)
Definition maker_side_of (bks : list (Z * Book)) (i : Instruction) : Prop :=
  match i with
  | limit_order book_id _ _ _ _ _ _ _ _ =>
      exists book b bs a as_,
        In (book_id, book) bks /\ bids book = b :: bs /\ asks book = a :: as_
        /\ maker_side (lvl_price b) (lvl_price a) i
  | _ => True
  end.

(** An EliteImbalanceMarketMaker agent long 5 base against 1000 quote (a
    third of its wealth at a mid of 100), with one resting bid. *)
Definition elite_imbalance_long_agent : EliteImbalanceMarketMaker.Agent :=
  {| EliteImbalanceMarketMaker._last_mid := ∅;
     EliteImbalanceMarketMaker.accounts :=
       [(1%Z, account 5.0 1000.0 [resting 7 BUY 99.0 0])] |}.

(** Stand-ins for the protocol library: an imbalance of 0.1 and no trades. *)
Definition imbalance_tenth : Book -> Z -> option Z -> Result Q :=
  fun _ _ _ => Ok 0.1.

Definition no_trades : Book -> list (OrderDirection * Q) := fun _ => [].

(** The net quantity the fills of agent [uid cfg] add to its position in
    book [book_id], over the events of the books of a tick. *)
Definition net_fills (cfg : SmartOrderBookAgent.Config) (bks : list (Z * Book))
           (book_id : Z) : Q :=
  fold_right
    (fun '(k, book) acc =>
       (if Z.eqb k book_id
        then fold_right (fun ev acc' => SmartOrderBookAgent.trade_change cfg ev + acc')
                        0 (events book)
        else 0) + acc)
    0 bks.

(** A SmartOrderBookAgent tick on which agent 0 bought 2 as maker and sold
    0.5 as taker in book 1, beside a trade between two other agents. *)
Definition smart_fills_tick : SmartOrderBookAgent.StateUpdate :=
  {| SmartOrderBookAgent.books :=
       [(1%Z, {| bids := [level 99.0 2.0]; asks := [level 101.0 2.0];
                 events := [TradeInfo SELL 2.0 99.0 0 5;
                            TradeInfo SELL 0.5 99.0 6 0;
                            TradeInfo BUY 3.0 101.0 5 6] |})];
     SmartOrderBookAgent.accounts := Some [] |}.

(** Every limit order of a response has at least the quantity [lot]. *)
Definition quantity_at_least (lot : Q) (i : Instruction) : Prop :=
  match i with
  | limit_order _ _ q _ _ _ _ _ _ => lot <= q
  | _ => True
  end.

(** The tick [imbalance_tick] for an agent holding [base] units of base:
    at the microprice 100 and a wealth of 2000 its inventory fraction is
    [base / 20]. *)
Definition imbalance_tick_holding (base : Q)
  : OrderBookImbalanceMarketMakerRespond.StateUpdate :=
  {| OrderBookImbalanceMarketMakerRespond.validator := "A"%string;
     OrderBookImbalanceMarketMakerRespond.miner_wealth := 2000.0;
     OrderBookImbalanceMarketMakerRespond.priceDecimals := 4;
     OrderBookImbalanceMarketMakerRespond.volumeDecimals := 2;
     OrderBookImbalanceMarketMakerRespond.books := [(1%Z, deep_book)];
     OrderBookImbalanceMarketMakerRespond.accounts :=
       Some [(0%Z, [(1%Z, account base 1000.0 [])])] |}.

(* ===================================================================== *)
(** * Facts about the Python numerics *)
(* ===================================================================== *)

Lemma ltb_true x y : Py.ltb x y = true <-> x < y.
Proof.
  unfold Py.ltb. destruct (Qcompare_spec x y) as [E|E|E]; split; intros H;
    try discriminate; try reflexivity; try assumption; lra.
Qed.

Lemma ltb_false x y : Py.ltb x y = false <-> y <= x.
Proof.
  unfold Py.ltb. destruct (Qcompare_spec x y) as [E|E|E]; split; intros H;
    try discriminate; try reflexivity; lra.
Qed.

Lemma leb_true x y : Py.leb x y = true <-> x <= y.
Proof.
  unfold Py.leb. destruct (Qcompare_spec x y) as [E|E|E]; split; intros H;
    try discriminate; try reflexivity; lra.
Qed.

Lemma leb_false x y : Py.leb x y = false <-> y < x.
Proof.
  unfold Py.leb. destruct (Qcompare_spec x y) as [E|E|E]; split; intros H;
    try discriminate; try reflexivity; try assumption; lra.
Qed.

Lemma eqb_true x y : Py.eqb x y = true <-> x == y.
Proof.
  unfold Py.eqb. destruct (Qcompare_spec x y) as [E|E|E]; split; intros H;
    try discriminate; try reflexivity; try assumption; lra.
Qed.

Lemma eqb_false x y : Py.eqb x y = false <-> ~ x == y.
Proof.
  unfold Py.eqb. destruct (Qcompare_spec x y) as [E|E|E]; split; intros H;
    try discriminate; try reflexivity; try lra.
Qed.

(** Turn the comparisons found in the hypotheses into propositions. *)
Ltac py_hyps :=
  repeat match goal with
  | H : Py.ltb _ _ = true |- _ => apply ltb_true in H
  | H : Py.ltb _ _ = false |- _ => apply ltb_false in H
  | H : Py.leb _ _ = true |- _ => apply leb_true in H
  | H : Py.leb _ _ = false |- _ => apply leb_false in H
  | H : Py.eqb _ _ = true |- _ => apply eqb_true in H
  | H : Py.eqb _ _ = false |- _ => apply eqb_false in H
  end.

(** Case analysis on the first comparison of the goal. *)
Ltac py_case :=
  match goal with
  | |- context [Py.ltb ?a ?b] => destruct (Py.ltb a b) eqn:?
  | |- context [Py.leb ?a ?b] => destruct (Py.leb a b) eqn:?
  | |- context [Py.eqb ?a ?b] => destruct (Py.eqb a b) eqn:?
  end; py_hyps.

Lemma Qmax_cases a b : (a < b /\ Qmax a b == b) \/ (b <= a /\ Qmax a b == a).
Proof. apply Q.max_spec. Qed.

Lemma Qmin_cases a b : (a <= b /\ Qmin a b == a) \/ (b < a /\ Qmin a b == b).
Proof.
  destruct (Q.min_spec a b) as [[H E]|[H E]].
  - left. split; [lra | exact E].
  - destruct (Qlt_le_dec b a) as [H'|H'].
    + right. split; [exact H' | exact E].
    + left. split; [exact H' | rewrite E; lra].
Qed.

Lemma Qabs_cases a : (0 <= a /\ Qabs a == a) \/ (a < 0 /\ Qabs a == - a).
Proof.
  destruct (Qlt_le_dec a 0) as [H|H].
  - right. split; [assumption|]. apply Qabs_neg. lra.
  - left. split; [assumption|]. apply Qabs_pos. assumption.
Qed.

(** Name the [Qmax], [Qmin] and [Qabs] terms of the goal and record their
    defining inequalities, after which [lra] applies. *)
Ltac q_atoms :=
  repeat match goal with
  | |- context [Qmax ?a ?b] =>
      let m := fresh "m" in
      destruct (Qmax_cases a b) as [[? ?]|[? ?]];
      remember (Qmax a b) as m
  | |- context [Qmin ?a ?b] =>
      let m := fresh "m" in
      destruct (Qmin_cases a b) as [[? ?]|[? ?]];
      remember (Qmin a b) as m
  | |- context [Qabs ?a] =>
      let m := fresh "m" in
      destruct (Qabs_cases a) as [[? ?]|[? ?]];
      remember (Qabs a) as m
  end.

Lemma pow10_pos d : 0 < Py.pow10 d.
Proof. unfold Py.pow10. apply Qpower_0_lt. reflexivity. Qed.

Lemma sum_from_nonneg (xs : list Q) (acc : Q) :
  Forall (fun x => 0 <= x) xs -> acc <= fold_left Qplus xs acc.
Proof.
  revert acc. induction xs as [|x xs IH]; intros acc H; simpl.
  - lra.
  - inversion H; subst. specialize (IH (acc + x) ltac:(assumption)). lra.
Qed.

Lemma sum_nonneg (xs : list Q) :
  Forall (fun x => 0 <= x) xs -> 0 <= Py.sum xs.
Proof. intros H. unfold Py.sum. apply (sum_from_nonneg xs 0 H). Qed.

Lemma Forall_slice_to {A} (P : A -> Prop) (l : list A) (d : Z) :
  Forall P l -> Forall P (Py.slice_to l d).
Proof.
  intros H. unfold Py.slice_to. destruct (0 <=? d)%Z; apply Forall_take, H.
Qed.

Lemma slice_to_nil {A} (d : Z) : Py.slice_to (@nil A) d = [].
Proof. unfold Py.slice_to. destruct (0 <=? d)%Z; apply firstn_nil. Qed.

Lemma ratio_bounds (b a : Q) :
  0 <= b -> 0 <= a -> ~ b + a == 0 -> -1 <= (b - a) / (b + a) <= 1.
Proof.
  intros Hb Ha Hne.
  assert (Hpos : 0 < b + a).
  { destruct (Qlt_le_dec 0 (b + a)); [assumption|]. exfalso. apply Hne. lra. }
  split.
  - apply Qle_shift_div_l; [assumption|]. lra.
  - apply Qle_shift_div_r; [assumption|]. lra.
Qed.

(* ===================================================================== *)
(** * Rounding to a number of decimals *)
(* ===================================================================== *)

Lemma round_half_even_bounds (x : Q) :
  x - 0.5 <= inject_Z (Py.round_half_even x) <= x + 0.5.
Proof.
  unfold Py.round_half_even.
  pose proof (Qfloor_le x) as Hlo. pose proof (Qlt_floor x) as Hhi.
  rewrite inject_Z_plus in Hhi. change (inject_Z 1) with 1 in Hhi.
  destruct (Qcompare_spec (x - inject_Z (Qfloor x)) 0.5) as [E|E|E].
  - destruct (Z.even (Qfloor x)).
    + lra.
    + rewrite inject_Z_plus. change (inject_Z 1) with 1. lra.
  - lra.
  - rewrite inject_Z_plus. change (inject_Z 1) with 1. lra.
Qed.

Lemma round_half_even_Z (k : Z) : Py.round_half_even (inject_Z k) = k.
Proof.
  unfold Py.round_half_even. rewrite Qfloor_Z.
  destruct (Qcompare_spec (inject_Z k - inject_Z k) 0.5) as [E|E|E];
    try reflexivity; exfalso; lra.
Qed.

#[local] Instance round_half_even_comp : Proper (Qeq ==> eq) Py.round_half_even.
Proof.
  intros x y E. unfold Py.round_half_even.
  rewrite (Qfloor_comp x y E).
  assert (E' : x - inject_Z (Qfloor y) == y - inject_Z (Qfloor y)) by (rewrite E; reflexivity).
  rewrite (Qcompare_comp _ _ E' 0.5 0.5 (Qeq_refl _)). reflexivity.
Qed.

Lemma round_half_even_mono (x y : Q) :
  x <= y -> (Py.round_half_even x <= Py.round_half_even y)%Z.
Proof.
  intros Hxy.
  pose proof (Qfloor_resp_le x y Hxy) as Hf.
  pose proof (Qfloor_le x) as Hx. pose proof (Qfloor_le y) as Hy.
  unfold Py.round_half_even.
  destruct (Z.eq_dec (Qfloor x) (Qfloor y)) as [Ef|Nf].
  - rewrite Ef in *.
    destruct (Qcompare_spec (x - inject_Z (Qfloor y)) 0.5) as [E1|E1|E1];
      destruct (Qcompare_spec (y - inject_Z (Qfloor y)) 0.5) as [E2|E2|E2];
      try (exfalso; lra); destruct (Z.even (Qfloor y)); lia.
  - assert (Hlt : (Qfloor x + 1 <= Qfloor y)%Z) by lia.
    destruct (Qcompare_spec (x - inject_Z (Qfloor x)) 0.5) as [E1|E1|E1];
      destruct (Qcompare_spec (y - inject_Z (Qfloor y)) 0.5) as [E2|E2|E2];
      try destruct (Z.even (Qfloor x)); try destruct (Z.even (Qfloor y)); lia.
Qed.

Lemma tick_pow10 (d : Z) : Py.pow10 (- d) == / Py.pow10 d.
Proof. unfold Py.pow10. apply Qpower_opp. Qed.

Lemma round_error (x : Q) (d : Z) :
  x - Py.pow10 (- d) * 0.5 <= Py.round x d <= x + Py.pow10 (- d) * 0.5.
Proof.
  pose proof (pow10_pos d) as HP.
  pose proof (round_half_even_bounds (x * Py.pow10 d)) as [Hlo Hhi].
  rewrite tick_pow10. unfold Py.round.
  set (n := inject_Z (Py.round_half_even (x * Py.pow10 d))) in *.
  set (P := Py.pow10 d) in *.
  split.
  - apply Qle_shift_div_l; [assumption|].
    assert (E : (x - / P * 0.5) * P == x * P - 0.5) by (field; lra). lra.
  - apply Qle_shift_div_r; [assumption|].
    assert (E : (x + / P * 0.5) * P == x * P + 0.5) by (field; lra). lra.
Qed.

Lemma round_mono (x y : Q) (d : Z) : x <= y -> Py.round x d <= Py.round y d.
Proof.
  intros Hxy. pose proof (pow10_pos d) as HP. unfold Py.round.
  assert (Hm : x * Py.pow10 d <= y * Py.pow10 d) by nra.
  apply round_half_even_mono in Hm.
  rewrite Zle_Qle in Hm.
  apply Qle_shift_div_l; [assumption|].
  assert (E : inject_Z (Py.round_half_even (x * Py.pow10 d)) / Py.pow10 d * Py.pow10 d
              == inject_Z (Py.round_half_even (x * Py.pow10 d))) by (field; lra).
  lra.
Qed.

(** A rounded price plus one tick is again a rounded price. *)
Lemma round_plus_tick (x : Q) (d : Z) :
  Py.round (Py.round x d + Py.pow10 (- d)) d == Py.round x d + Py.pow10 (- d).
Proof.
  pose proof (pow10_pos d) as HP.
  unfold Py.round at 1.
  assert (E : (Py.round x d + Py.pow10 (- d)) * Py.pow10 d
              == inject_Z (Py.round_half_even (x * Py.pow10 d) + 1)).
  { rewrite inject_Z_plus. change (inject_Z 1) with 1.
    unfold Py.round. rewrite tick_pow10. field. lra. }
  rewrite E, round_half_even_Z.
  rewrite inject_Z_plus. change (inject_Z 1) with 1.
  unfold Py.round. rewrite tick_pow10. field. lra.
Qed.

#[local] Instance round_comp : Proper (Qeq ==> eq ==> Qeq) Py.round.
Proof.
  intros x y E d d' <-. unfold Py.round. rewrite E. reflexivity.
Qed.

(* ===================================================================== *)
(** * Signals: imbalance and microprice *)
(* ===================================================================== *)


Lemma top_volume_nonneg levels depth :
  Forall (fun l => 0 <= lvl_quantity l) levels -> 0 <= top_volume levels depth.
Proof.
  intros H. unfold top_volume. apply sum_nonneg.
  apply Forall_map. apply Forall_slice_to. exact H.
Qed.

(** The plain imbalance of OrderBookImbalanceMarketMaker. *)
Lemma plain_imbalance_spec (book : Book) (depth : Z) :
  nonneg_quantities book ->
  let bidVol := top_volume (bids book) depth in
  let askVol := top_volume (asks book) depth in
  let imb :=
    OrderBookImbalanceMarketMaker.calculate_order_book_imbalance book depth in
  (bidVol + askVol == 0 -> imb == 0)
  /\ (~ bidVol + askVol == 0 -> imb == (bidVol - askVol) / (bidVol + askVol))
  /\ -1 <= imb <= 1.
Proof.
  intros [Hb Ha]. cbv zeta.
  pose proof (top_volume_nonneg _ depth Hb) as Hb'.
  pose proof (top_volume_nonneg _ depth Ha) as Ha'.
  unfold OrderBookImbalanceMarketMaker.calculate_order_book_imbalance.
  fold (top_volume (bids book) depth). fold (top_volume (asks book) depth).
  py_case.
  - split; [reflexivity|]. split; [contradiction | lra].
  - split; [contradiction|]. split; [reflexivity|].
    apply ratio_bounds; assumption.
Qed.

Lemma plain_imbalance_empty (depth : Z) (evs : list Event) :
  OrderBookImbalanceMarketMaker.calculate_order_book_imbalance
    {| bids := []; asks := []; events := evs |} depth == 0.
Proof.
  unfold OrderBookImbalanceMarketMaker.calculate_order_book_imbalance. simpl.
  rewrite !slice_to_nil. reflexivity.
Qed.

Lemma weighted_mean_between (lo hi wl wh : Q) :
  lo <= hi -> 0 <= wl -> 0 <= wh -> 0 < wl + wh ->
  lo <= (hi * wh + lo * wl) / (wl + wh) <= hi.
Proof.
  intros Hle Hl Hh Hpos. split.
  - apply Qle_shift_div_l; [assumption|]. nra.
  - apply Qle_shift_div_r; [assumption|]. nra.
Qed.

(** ** C6: the microprice *)

(** C6.  For a snapshot with a best bid and a best ask, non-negative top
    quantities and [bestBid <= bestAsk], the microprice of
    OrderBookImbalanceMarketMaker and of DominantImbalanceMM is
    [(bestAsk*bidQty + bestBid*askQty) / (bidQty + askQty)], is the midpoint
    when the top-of-book quantity is zero, and lies between the best bid and
    the best ask. *)
Theorem C6_microprice (book : Book) (b a : Level) (bs as_ : list Level) :
  bids book = b :: bs -> asks book = a :: as_ ->
  0 <= lvl_quantity b -> 0 <= lvl_quantity a ->
  lvl_price b <= lvl_price a ->
  let bestBid := lvl_price b in
  let bestAsk := lvl_price a in
  let bidQty := lvl_quantity b in
  let askQty := lvl_quantity a in
  let m1 := OrderBookImbalanceMarketMaker.calculate_microprice book in
  let m2 := DominantImbalanceMM._microprice bestBid bestAsk bidQty askQty in
  (~ bidQty + askQty == 0 ->
     m1 == (bestAsk * bidQty + bestBid * askQty) / (bidQty + askQty)
     /\ m2 == (bestAsk * bidQty + bestBid * askQty) / (bidQty + askQty))
  /\ (bidQty + askQty == 0 ->
        m1 == (bestBid + bestAsk) / 2 /\ m2 == (bestBid + bestAsk) / 2)
  /\ bestBid <= m1 <= bestAsk
  /\ bestBid <= m2 <= bestAsk.
Proof.
  intros Hbids Hasks Hqb Hqa Hpx. cbv zeta.
  unfold OrderBookImbalanceMarketMaker.calculate_microprice,
         DominantImbalanceMM._microprice.
  rewrite Hbids, Hasks.
  destruct (Py.eqb (lvl_quantity b + lvl_quantity a) 0) eqn:E1;
    destruct (Py.leb (lvl_quantity b + lvl_quantity a) 0) eqn:E2; py_hyps;
    try (exfalso; lra).
  - repeat split; try (intros; contradiction); try reflexivity;
      try (apply Qle_shift_div_l; lra); try (apply Qle_shift_div_r; lra).
  - assert (Hpos : 0 < lvl_quantity b + lvl_quantity a) by lra.
    assert (Hm : lvl_price b
                 <= (lvl_price a * lvl_quantity b + lvl_price b * lvl_quantity a)
                    / (lvl_quantity b + lvl_quantity a) <= lvl_price a).
    { rewrite (Qplus_comm (lvl_quantity b) (lvl_quantity a)).
      apply weighted_mean_between; try assumption. lra. }
    assert (Heq : (lvl_price b * lvl_quantity a + lvl_price a * lvl_quantity b)
                  / (lvl_quantity b + lvl_quantity a)
                  == (lvl_price a * lvl_quantity b + lvl_price b * lvl_quantity a)
                     / (lvl_quantity b + lvl_quantity a)).
    { field. lra. }
    repeat split; try (intros; contradiction); try reflexivity;
      try exact Heq; try (rewrite Heq); try apply Hm.
Qed.


Lemma C6_microprice_witness :
  OrderBookImbalanceMarketMaker.calculate_microprice sample_book == 100.0
  /\ 99.0 <= OrderBookImbalanceMarketMaker.calculate_microprice sample_book <= 101.0.
Proof.
  pose proof (C6_microprice sample_book (level 99.0 2.0) (level 101.0 2.0) [] []
                eq_refl eq_refl) as H.
  simpl in H.
  specialize (H ltac:(vm_compute; discriminate) ltac:(vm_compute; discriminate)
                ltac:(vm_compute; discriminate)).
  destruct H as (_ & _ & H & _).
  split; [vm_compute; reflexivity | exact H].
Defined.

(* ===================================================================== *)
(** * The depth-weighted imbalance of OrderBookMarketMaker *)
(* ===================================================================== *)

Section WeightedImbalance.

Local Open Scope R_scope.


Lemma weighted_volume_sum (decay : R) (levels : list Level) (i : nat) (acc : R) :
  OrderBookMarketMaker.weighted_volume decay levels i acc
  = acc + weighted_sum decay levels i.
Proof.
  revert i acc. induction levels as [|l ls IH]; intros i acc;
    cbn [OrderBookMarketMaker.weighted_volume weighted_sum].
  - lra.
  - rewrite IH. lra.
Qed.

Lemma Q2R_nonneg (q : Q) : (0 <= q)%Q -> 0 <= Q2R q.
Proof. intros H. apply Qreals.Qle_Rle in H. rewrite RMicromega.Q2R_0 in H. exact H. Qed.

Lemma weight_bounds (decay : R) (i : nat) :
  0 <= decay -> 0 < exp (- decay * INR i) <= 1.
Proof.
  intros Hd. split; [apply exp_pos|].
  pose proof (pos_INR i) as Hi.
  destruct (Req_dec (decay * INR i) 0) as [E|E].
  - replace (- decay * INR i) with 0 by lra. rewrite exp_0. lra.
  - left. rewrite <- exp_0. apply exp_increasing. nra.
Qed.

Lemma sum_from (xs : list Q) (acc : Q) :
  (fold_left Qplus xs acc == acc + fold_left Qplus xs 0)%Q.
Proof.
  revert acc. induction xs as [|x xs IH]; intros acc; simpl.
  - lra.
  - rewrite (IH (acc + x)%Q), (IH (0 + x)%Q). lra.
Qed.

Lemma weighted_sum_bounds (decay : R) (levels : list Level) (i : nat) :
  0 <= decay ->
  Forall (fun l => (0 <= lvl_quantity l)%Q) levels ->
  0 <= weighted_sum decay levels i <= Q2R (Py.sum (map lvl_quantity levels)).
Proof.
  intros Hd. revert i. induction levels as [|l ls IH]; intros i H;
    cbn [weighted_sum map].
  - unfold Py.sum. cbn [fold_left]. rewrite RMicromega.Q2R_0. lra.
  - inversion H as [|? ? Hl Hls]; subst.
    specialize (IH (S i) Hls).
    pose proof (weight_bounds decay i Hd) as Hw.
    pose proof (Q2R_nonneg _ Hl) as Hq.
    unfold Py.sum in *. cbn [fold_left].
    assert (E : Q2R (fold_left Qplus (map lvl_quantity ls) (0 + lvl_quantity l)%Q)
                = Q2R (lvl_quantity l) + Q2R (fold_left Qplus (map lvl_quantity ls) 0%Q)).
    { rewrite <- Qreals.Q2R_plus. apply Qreals.Qeq_eqR.
      rewrite sum_from. lra. }
    rewrite E. split; [nra|]. nra.
Qed.

(** The depth-weighted imbalance: its formula, its zero and its range. *)
Lemma weighted_imbalance_spec (book : Book) (depth : Z) :
  nonneg_quantities book ->
  let bidW := weighted_sum 0.5 (Py.slice_to (bids book) depth) 0 in
  let askW := weighted_sum 0.5 (Py.slice_to (asks book) depth) 0 in
  let imb := OrderBookMarketMaker.calculate_book_imbalance book depth in
  (bidW + askW < 1e-8 -> imb = 0)
  /\ (~ bidW + askW < 1e-8 -> imb = (bidW - askW) / (bidW + askW))
  /\ ((top_volume (bids book) depth + top_volume (asks book) depth == 0)%Q ->
      imb = 0)
  /\ -1 <= imb <= 1.
Proof.
  intros [Hb Ha]. cbv zeta.
  unfold OrderBookMarketMaker.calculate_book_imbalance.
  rewrite !weighted_volume_sum.
  pose proof (weighted_sum_bounds 0.5 _ 0 ltac:(lra) (Forall_slice_to _ _ depth Hb)) as Hbw.
  pose proof (weighted_sum_bounds 0.5 _ 0 ltac:(lra) (Forall_slice_to _ _ depth Ha)) as Haw.
  fold (top_volume (bids book) depth) in Hbw.
  fold (top_volume (asks book) depth) in Haw.
  set (bw := weighted_sum 0.5 (Py.slice_to (bids book) depth) 0) in *.
  set (aw := weighted_sum 0.5 (Py.slice_to (asks book) depth) 0) in *.
  replace (0.0 + bw) with bw by lra. replace (0.0 + aw) with aw by lra.
  destruct (Rlt_dec (bw + aw) 1e-8) as [Hlt|Hge].
  - split; [intros _; lra|]. split; [intros Hc; contradiction|].
    split; [intros _; lra|]. lra.
  - assert (Hpos : 0 < bw + aw) by lra.
    split; [intros Hc; contradiction|]. split; [reflexivity|]. split.
    + intros Hz. exfalso.
      apply Qreals.Qeq_eqR in Hz. rewrite Qreals.Q2R_plus, RMicromega.Q2R_0 in Hz.
      lra.
    + split.
      * apply Rmult_le_reg_r with (r := bw + aw); [assumption|].
        unfold Rdiv. rewrite Rmult_assoc, Rinv_l by lra. lra.
      * apply Rmult_le_reg_r with (r := bw + aw); [assumption|].
        unfold Rdiv. rewrite Rmult_assoc, Rinv_l by lra. lra.
Qed.

End WeightedImbalance.

(** ** C5: the imbalance signal *)


(** C5, as stated, fails on OrderBookMarketMaker: with two bid levels of 1
    against one ask level of 2 the top-2 volumes are equal, so the stated
    formula gives 0, while [calculate_book_imbalance] discounts the second
    bid level by [exp(-1/2)] and returns a negative value. *)
Lemma C5_counterexample :
  let bidVol := top_volume (bids two_level_book) 2 in
  let askVol := top_volume (asks two_level_book) 2 in
  ~ (bidVol + askVol == 0)
  /\ (bidVol - askVol) / (bidVol + askVol) == 0
  /\ (OrderBookMarketMaker.calculate_book_imbalance two_level_book 2 < 0)%R.
Proof.
  cbv zeta. split; [vm_compute; discriminate|]. split; [vm_compute; reflexivity|].
  unfold OrderBookMarketMaker.calculate_book_imbalance.
  rewrite !weighted_volume_sum.
  change (Py.slice_to (bids two_level_book) 2)
    with [level 99.0 1.0; level 98.0 1.0].
  change (Py.slice_to (asks two_level_book) 2) with [level 101.0 2.0].
  cbn [weighted_sum level lvl_quantity].
  pose proof (weight_bounds 0.5 1 ltac:(lra)) as [Hp Hle].
  assert (Hlt : (exp (- (0.5) * INR 1) < 1)%R).
  { rewrite <- exp_0. apply exp_increasing. simpl. lra. }
  assert (E0 : exp (- (0.5) * INR 0) = 1%R).
  { simpl. rewrite Rmult_0_r. apply exp_0. }
  rewrite E0.
  set (e := exp (- (0.5) * INR 1)) in *.
  assert (Q1 : Q2R 1.0 = 1%R) by (unfold Q2R; simpl; lra).
  assert (Q2 : Q2R 2.0 = 2%R) by (unfold Q2R; simpl; lra).
  rewrite Q1, Q2.
  destruct (Rlt_dec _ _) as [Hc|_]; [exfalso; lra|].
  apply Rmult_lt_reg_r with (r := (0.0 + (1 * 1 + (1 * e + 0)) + (0.0 + (2 * 1 + 0)))%R);
    [lra|].
  unfold Rdiv. rewrite Rmult_assoc, Rinv_l by lra. lra.
Qed.

(** C5, amended.  On a snapshot with non-negative quantities, the imbalance
    of OrderBookImbalanceMarketMaker is [(bidVol - askVol)/(bidVol + askVol)]
    over the plain top-[depth] volumes and is 0 when that total is 0; the
    imbalance of OrderBookMarketMaker is the same ratio over volumes in which
    level [i] is weighted by [exp(-i/2)], and is 0 when the weighted total is
    below [1e-8], in particular when the plain total is 0.  Both lie in
    [[-1, 1]]. *)
Theorem C5_imbalance (book : Book) (depth : Z) :
  nonneg_quantities book ->
  let bidVol := top_volume (bids book) depth in
  let askVol := top_volume (asks book) depth in
  let bidW := weighted_sum 0.5 (Py.slice_to (bids book) depth) 0 in
  let askW := weighted_sum 0.5 (Py.slice_to (asks book) depth) 0 in
  let plain :=
    OrderBookImbalanceMarketMaker.calculate_order_book_imbalance book depth in
  let weighted := OrderBookMarketMaker.calculate_book_imbalance book depth in
  ((bidVol + askVol == 0 -> plain == 0)
   /\ (~ bidVol + askVol == 0 -> plain == (bidVol - askVol) / (bidVol + askVol))
   /\ -1 <= plain <= 1)
  /\ ((bidW + askW < 1e-8 -> weighted = 0)
      /\ (~ bidW + askW < 1e-8 -> weighted = (bidW - askW) / (bidW + askW))
      /\ (bidVol + askVol == 0 -> weighted = 0)
      /\ -1 <= weighted <= 1)%R.
Proof.
  intros H. cbv zeta. split.
  - apply plain_imbalance_spec, H.
  - pose proof (weighted_imbalance_spec book depth H) as Hw. cbv zeta in Hw.
    exact Hw.
Qed.

Lemma C5_imbalance_witness :
  OrderBookImbalanceMarketMaker.calculate_order_book_imbalance sample_book 1 == 0
  /\ (-1 <= OrderBookMarketMaker.calculate_book_imbalance sample_book 1 <= 1)%R.
Proof.
  assert (Hnn : nonneg_quantities sample_book).
  { split; repeat constructor; vm_compute; discriminate. }
  pose proof (C5_imbalance sample_book 1 Hnn) as [(_ & Hp & _) (_ & _ & _ & Hw)].
  split; [|exact Hw].
  rewrite Hp; [vm_compute; reflexivity | vm_compute; discriminate].
Defined.

(* ===================================================================== *)
(** * The EWMA volatility of DominantImbalanceMM *)
(* ===================================================================== *)

(** OrderBookImbalanceMarketMaker estimates volatility from a window of
    prices instead: 0.001 until three prices are known, and never below
    0.0001 afterwards.  It is never 0. *)
Lemma estimate_volatility_floor lookback book_state v b p :
  (0.0001 <= snd (OrderBookImbalanceMarketMaker.estimate_volatility
                    lookback book_state v b p))%R.
Proof.
  unfold OrderBookImbalanceMarketMaker.estimate_volatility.
  destruct (length _ <? 3)%nat; cbn [snd].
  - lra.
  - apply Rmax_r.
Qed.

Section Volatility.

Import DominantImbalanceMM.
Local Open Scope R_scope.

Lemma state_of_update_same a st v b mid :
  fst (state_of (fst (_update_vol a st v b mid)) v b) = Some mid.
Proof.
  unfold state_of, _update_vol. cbn [fst snd _last_mid _ewma_var].
  rewrite lookup_insert_eq. cbn [from_option Datatypes.id]. apply lookup_insert_eq.
Qed.

Lemma var_of_update_same a st v b mid :
  snd (state_of (fst (_update_vol a st v b mid)) v b)
  = Some (match fst (state_of st v b) with
          | Some m0 =>
              if valid_return (Some m0) mid
              then (1 - a) * default 0 (snd (state_of st v b))
                   + a * (ln (mid / m0) * ln (mid / m0))
              else default 0 (snd (state_of st v b))
          | None => default 0 (snd (state_of st v b))
          end).
Proof.
  unfold state_of, _update_vol. cbn [fst snd _last_mid _ewma_var].
  rewrite lookup_insert_eq. cbn [from_option Datatypes.id]. rewrite lookup_insert_eq.
  destruct (default ∅ (_last_mid st !! v) !! b); reflexivity.
Qed.

Lemma vol_of_update a st v b mid :
  snd (_update_vol a st v b mid)
  = sqrt (Rmax (default 0 (snd (state_of (fst (_update_vol a st v b mid)) v b))) 0).
Proof.
  rewrite var_of_update_same. cbn [from_option Datatypes.id].
  unfold state_of, _update_vol. cbn [fst snd].
  destruct (default ∅ (_last_mid st !! v) !! b); reflexivity.
Qed.

Lemma valid_return_true m0 mid :
  0 < m0 -> 0 < mid -> valid_return (Some m0) mid = true.
Proof.
  intros H0 H1. unfold valid_return.
  destruct (Rlt_dec 0 m0); [|contradiction].
  destruct (Rlt_dec 0 mid); [reflexivity|contradiction].
Qed.

Lemma sqrt_Rmax_pos x : 0 < x -> 0 < sqrt (Rmax x 0).
Proof.
  intros H. apply sqrt_lt_R0. unfold Rmax. destruct (Rle_dec x 0); lra.
Qed.

Lemma sqrt_Rmax_zero x : x <= 0 -> sqrt (Rmax x 0) = 0.
Proof.
  intros H. unfold Rmax. destruct (Rle_dec x 0); [apply sqrt_0 | lra].
Qed.

(** C7, as stated, fails: two ticks at the same mid give a valid return
    observation ([m0 = m1 = 100 > 0]) whose log-return is 0, so the variance
    stays 0 and the reported volatility is 0 after a valid observation. *)
Lemma C7_counterexample :
  let st1 := fst (_update_vol 0.05 onStart "v" 1 100) in
  valid_return (fst (state_of st1 "v" 1)) 100 = true
  /\ snd (_update_vol 0.05 st1 "v" 1 100) = 0.
Proof.
  cbv zeta. split.
  - rewrite state_of_update_same. apply valid_return_true; lra.
  - rewrite vol_of_update, var_of_update_same. cbn [from_option Datatypes.id].
    rewrite state_of_update_same, var_of_update_same.
    rewrite valid_return_true by lra.
    replace (100 / 100) with 1 by lra. rewrite ln_1.
    unfold state_of, onStart. cbn [fst snd _last_mid _ewma_var from_option Datatypes.id].
    rewrite !lookup_empty. cbn [from_option Datatypes.id]. rewrite !lookup_empty. cbn [from_option Datatypes.id].
    apply sqrt_Rmax_zero. lra.
Qed.

(** C7, amended.  [_update_vol] sets the last mid; on a valid return
    observation ([m0 > 0], [m1 > 0]) the variance becomes
    [(1-a)*variance + a*ln(m1/m0)^2], otherwise (first observation included)
    it keeps its value, 0 when the key is new; the reported volatility is
    [sqrt(max(variance, 0))] and is non-negative.  It is 0 on the first
    observation of a key; after a valid return it is positive as soon as
    [m1 <> m0], [0 < a <= 1] and the previous variance is non-negative, and
    it stays 0 when [m1 = m0] and the variance was 0.  The estimate of
    OrderBookImbalanceMarketMaker is a different, windowed one and is never
    below 0.0001. *)
Theorem C7_volatility (a : R) (st : VolState) (v : string) (b : Z) (mid : R) :
  let st' := fst (_update_vol a st v b mid) in
  let vol := snd (_update_vol a st v b mid) in
  let last := fst (state_of st v b) in
  let prev := default 0 (snd (state_of st v b)) in
  let var' := default 0 (snd (state_of st' v b)) in
  (forall m0, last = Some m0 -> 0 < m0 -> 0 < mid ->
     var' = (1 - a) * prev + a * (ln (mid / m0) * ln (mid / m0)))
  /\ (last = None -> var' = prev)
  /\ fst (state_of st' v b) = Some mid
  /\ vol = sqrt (Rmax var' 0)
  /\ 0 <= vol
  /\ (state_of st v b = (None, None) -> var' = 0 /\ vol = 0)
  /\ (forall m0, last = Some m0 -> 0 < m0 -> 0 < mid -> mid <> m0 ->
        0 < a <= 1 -> 0 <= prev -> 0 < vol)
  /\ (forall m0, last = Some m0 -> 0 < m0 -> mid = m0 -> prev = 0 -> vol = 0)
  /\ (forall lookback book_state v0 b0 p,
        0.0001 <= snd (OrderBookImbalanceMarketMaker.estimate_volatility
                         lookback book_state v0 b0 p)).
Proof.
  cbv zeta.
  assert (Hvar : forall m0, fst (state_of st v b) = Some m0 -> 0 < m0 -> 0 < mid ->
            default 0 (snd (state_of (fst (_update_vol a st v b mid)) v b))
            = (1 - a) * default 0 (snd (state_of st v b))
              + a * (ln (mid / m0) * ln (mid / m0))).
  { intros m0 Hl H0 H1. rewrite var_of_update_same, Hl.
    rewrite valid_return_true by assumption. reflexivity. }
  assert (Hnone : fst (state_of st v b) = None ->
            default 0 (snd (state_of (fst (_update_vol a st v b mid)) v b))
            = default 0 (snd (state_of st v b))).
  { intros Hl. rewrite var_of_update_same, Hl. reflexivity. }
  split; [exact Hvar|]. split; [exact Hnone|].
  split; [apply state_of_update_same|].
  split; [apply vol_of_update|].
  split; [rewrite vol_of_update; apply sqrt_pos|].
  split; [|split; [|split]].
  - intros Hs. rewrite vol_of_update, Hnone by (rewrite Hs; reflexivity).
    rewrite Hs. cbn [snd from_option Datatypes.id]. split; [reflexivity|].
    apply sqrt_Rmax_zero. lra.
  - intros m0 Hl H0 H1 Hne Ha Hp.
    rewrite vol_of_update, (Hvar m0 Hl H0 H1).
    apply sqrt_Rmax_pos.
    assert (Hr : ln (mid / m0) <> 0).
    { apply ln_neq_0.
      - intros E. apply Hne. apply (Rmult_eq_compat_r m0) in E.
        unfold Rdiv in E. rewrite Rmult_assoc, Rinv_l in E by lra. lra.
      - apply Rdiv_lt_0_compat; assumption. }
    assert (0 < ln (mid / m0) * ln (mid / m0)) by nra.
    nra.
  - intros m0 Hl H0 He Hp. subst mid.
    rewrite vol_of_update, (Hvar m0 Hl H0 H0), Hp.
    replace (m0 / m0) with 1 by (field; lra). rewrite ln_1.
    apply sqrt_Rmax_zero. lra.
  - intros. apply estimate_volatility_floor.
Qed.

End Volatility.

(* ===================================================================== *)
(** * Quote prices: DominantImbalanceMM and SmartMarketMaker *)
(* ===================================================================== *)

Section DominantQuotes.

Import DominantImbalanceMM.

Lemma maker_quotes_ordered tick d bb ba r half b a :
  maker_quotes tick d bb ba r half = Some (b, a) -> b < a.
Proof.
  unfold maker_quotes.
  py_case; [py_case; [discriminate|]|]; intros H; inversion H; subst; assumption.
Qed.

(** When the rounded quotes cross, the re-anchored ask is one tick or more
    above the re-anchored bid, so the final test never skips the book. *)
Lemma requote_one_tick_apart d bb ba a0 :
  let tick := Py.pow10 (- d) in
  let b1 := Py.round (Qmin bb (a0 - tick)) d in
  let a1 := Py.round (Qmax ba (b1 + tick)) d in
  b1 + tick <= a1.
Proof.
  cbv zeta.
  pose proof (round_plus_tick (Qmin bb (a0 - Py.pow10 (- d))) d) as E.
  set (b1 := Py.round (Qmin bb (a0 - Py.pow10 (- d))) d) in *.
  pose proof (round_mono (b1 + Py.pow10 (- d)) (Qmax ba (b1 + Py.pow10 (- d))) d
                         (Q.le_max_r _ _)).
  lra.
Qed.

Lemma maker_quotes_never_skips d bb ba r half :
  maker_quotes (Py.pow10 (- d)) d bb ba r half <> None.
Proof.
  unfold maker_quotes. py_case; [|discriminate].
  py_case; [|discriminate].
  exfalso.
  match goal with
  | H : Py.round (Qmax ba (Py.round (Qmin bb (?a0 - _)) d + _)) d <= _ |- _ =>
      pose proof (requote_one_tick_apart d bb ba a0) as Hw; cbv zeta in Hw
  end.
  pose proof (pow10_pos (- d)). lra.
Qed.

Lemma maker_quotes_touch d bb ba r half b a :
  bb < ba -> Py.round bb d == bb -> Py.round ba d == ba ->
  maker_quotes (Py.pow10 (- d)) d bb ba r half = Some (b, a) ->
  b < ba /\ bb < a.
Proof.
  intros Hspread Hgb Hga. unfold maker_quotes.
  pose proof (pow10_pos (- d)) as Ht.
  set (tick := Py.pow10 (- d)) in *.
  set (b0 := Py.round (Qmin (r - half) (ba - tick)) d).
  set (a0 := Py.round (Qmax (r + half) (bb + tick)) d).
  py_case.
  - set (b1 := Py.round (Qmin bb (a0 - tick)) d).
    set (a1 := Py.round (Qmax ba (b1 + tick)) d).
    py_case; [discriminate|]. intros H. inversion H; subst b a.
    assert (Hb : b1 <= bb).
    { rewrite <- Hgb. apply round_mono, Q.le_min_l. }
    assert (Ha : ba <= a1).
    { rewrite <- Hga. apply round_mono, Q.le_max_l. }
    clearbody b1 a1 b0 a0 tick. split; lra.
  - intros H. inversion H; subst b a.
    pose proof (round_error (Qmin (r - half) (ba - tick)) d) as [_ Hb].
    pose proof (round_error (Qmax (r + half) (bb + tick)) d) as [Ha _].
    pose proof (Q.le_min_r (r - half) (ba - tick)).
    pose proof (Q.le_max_r (r + half) (bb + tick)).
    fold tick in Hb, Ha. fold b0 in Hb. fold a0 in Ha.
    clearbody b0 a0 tick. split; lra.
Qed.

End DominantQuotes.


Lemma dominant_place_prices cfg book_id qty b a inv informed flow e i :
  In i (DominantImbalanceMM.place cfg book_id qty b a inv informed flow e) ->
  (forall pb, limit_price BUY i = Some pb -> pb = b)
  /\ (forall pa, limit_price SELL i = Some pa -> pa = a).
Proof.
  unfold DominantImbalanceMM.place, DominantImbalanceMM.gtt_order.
  intros H.
  repeat match type of H with
         | context [if ?c then _ else _] => destruct c
         end;
    simpl in H; intuition; subst; simpl in *; congruence.
Qed.

Lemma dominant_bids_below_asks cfg d book_id bb ba r half qty inv informed flow e :
  bids_below_asks
    (DominantImbalanceMM.quote_book cfg d book_id bb ba r half qty inv informed
                                    flow e).
Proof.
  unfold DominantImbalanceMM.quote_book. intros i j pb pa Hi Hj Hb Ha.
  destruct (DominantImbalanceMM.maker_quotes _ d bb ba r half) as [[b a]|] eqn:E;
    [|contradiction].
  apply dominant_place_prices in Hi, Hj.
  destruct Hi as [Hi _], Hj as [_ Hj].
  rewrite (Hi pb Hb), (Hj pa Ha).
  eapply maker_quotes_ordered, E.
Qed.

Section SmartLadder.

Import SmartMarketMaker.

(** What a rung emits: nothing, or a bid and an ask with [bid < ask]. *)
Lemma ladder_level_cases cfg su book_id c spread q i :
  let half := spread * (1 + (inject_Z i * level_spacing_bps cfg / 10.0)) / 2.0 in
  let bid_p := Py.round (c - half) (priceDecimals su) in
  let ask_p := Py.round (c + half) (priceDecimals su) in
  ladder_level cfg su book_id c spread q i = []
  \/ (bid_p < ask_p
      /\ exists qty e,
           ladder_level cfg su book_id c spread q i
           = [limit_order book_id BUY qty bid_p None None (Some true) (Some GTT) e;
              limit_order book_id SELL qty ask_p None None (Some true) (Some GTT) e]).
Proof.
  cbv zeta. unfold ladder_level.
  py_case; [left; reflexivity|].
  py_case; [left; reflexivity|].
  right. split; [assumption|]. eexists _, _. reflexivity.
Qed.

Lemma ladder_bids_below_asks cfg su book_id c spread q (ks : list Z) :
  bids_below_asks (flat_map (ladder_level cfg su book_id c spread q) ks).
Proof.
  intros i j pb pa Hi Hj Hb Ha.
  apply in_flat_map in Hi as (ki & _ & Hi).
  apply in_flat_map in Hj as (kj & _ & Hj).
  destruct (ladder_level_cases cfg su book_id c spread q ki) as [E|(Hlt_i & qi & ei & E)];
    rewrite E in Hi; [contradiction|].
  destruct (ladder_level_cases cfg su book_id c spread q kj) as [E'|(Hlt_j & qj & ej & E')];
    rewrite E' in Hj; [contradiction|].
  set (hi := spread * (1 + inject_Z ki * level_spacing_bps cfg / 10.0) / 2.0) in *.
  set (hj := spread * (1 + inject_Z kj * level_spacing_bps cfg / 10.0) / 2.0) in *.
  assert (Epb : pb = Py.round (c - hi) (priceDecimals su)).
  { destruct Hi as [<-|[<-|[]]]; simpl in Hb; congruence. }
  assert (Epa : pa = Py.round (c + hj) (priceDecimals su)).
  { destruct Hj as [<-|[<-|[]]]; simpl in Ha; congruence. }
  subst pb pa.
  destruct (Qlt_le_dec hj hi) as [Hc|Hc].
  - pose proof (round_mono (c - hi) (c - hj) (priceDecimals su) ltac:(lra)). lra.
  - pose proof (round_mono (c + hi) (c + hj) (priceDecimals su) ltac:(lra)). lra.
Qed.

Lemma smart_bids_below_asks cfg su book_id book mid vol :
  bids_below_asks (fst (book_quotes cfg su book_id book mid vol)).
Proof.
  unfold book_quotes.
  destruct (accounts su) as [accts|]; [|intros ? ? ? ? []].
  destruct (dict_get accts (uid cfg)) as [by_book|]; [|intros ? ? ? ? []].
  destruct (dict_get by_book book_id) as [account|]; [|intros ? ? ? ? []].
  cbv zeta.
  assert (Hc : forall i d,
             In i (match orders account with
                   | [] => []
                   | os => [cancel_orders book_id (map ord_id os)]
                   end) -> limit_price d i = None).
  { intros i d Hi. destruct (orders account); [contradiction|].
    destruct Hi as [<-|[]]. reflexivity. }
  destruct (Py.eqb mid 0).
  - intros i j pb pa Hi _ Hb _. cbn [fst] in Hi. rewrite (Hc i BUY Hi) in Hb. discriminate.
  - cbn [fst]. intros i j pb pa Hi Hj Hb Ha.
    apply in_app_or in Hi as [Hi|Hi]; [rewrite (Hc i BUY Hi) in Hb; discriminate|].
    apply in_app_or in Hj as [Hj|Hj]; [rewrite (Hc j SELL Hj) in Ha; discriminate|].
    exact (ladder_bids_below_asks _ _ _ _ _ _ _ i j pb pa Hi Hj Hb Ha).
Qed.

End SmartLadder.

(** ** C4: non-inverted quotes *)



(** C4, as stated, fails on SmartMarketMaker, which never clamps to the
    touch: with the default parameters, no history (volatility 0.001), the
    book 99.0 x 101.0 and 200 units of base, the ladder is centred on 97.8 and
    its asks are priced below the best bid 99.0. *)
Lemma C4_counterexample :
  existsb (ask_through_bid 99.0)
          (fst (SmartMarketMaker.book_body
                  np_std_unreached (SmartMarketMaker.default_config 0)
                  smart_long_state [] 1 sample_book)) = true.
Proof. vm_compute. reflexivity. Qed.

(** Without history the body of SmartMarketMaker runs [book_quotes] at the
    default volatility, whatever [np.std] is. *)
Lemma smart_body_without_history np_std cfg su book_id book b a bs as_ :
  bids book = b :: bs -> asks book = a :: as_ ->
  SmartMarketMaker.book_body np_std cfg su [] book_id book
  = SmartMarketMaker.book_quotes cfg su book_id book
      ((lvl_price b + lvl_price a) / 2.0) 0.001.
Proof.
  intros Hb Ha. unfold SmartMarketMaker.book_body. rewrite Hb, Ha.
  unfold SmartMarketMaker.history_mids, Py.slice_last.
  destruct (SmartMarketMaker.vol_window cfg =? 0)%Z;
    [|destruct (0 <? SmartMarketMaker.vol_window cfg)%Z];
    rewrite ?skipn_nil; reflexivity.
Qed.

(** C4, amended.  In DominantImbalanceMM and in SmartMarketMaker every bid
    emitted for a book on a tick is priced below every ask emitted for it.
    DominantImbalanceMM clamps to the touch: when the best prices are
    rounded prices with [bestBid < bestAsk], its bids are below the best ask
    and its asks above the best bid; when the clamped and rounded quotes
    cross it re-anchors them at least one tick apart, so the final skip never
    fires.  SmartMarketMaker does not clamp to the touch; it only drops a
    ladder level whose rounded bid is not below its rounded ask. *)
Theorem C4_quotes_ordered :
  (forall cfg d book_id bb ba r half qty inv informed flow e,
     let resp := DominantImbalanceMM.quote_book cfg d book_id bb ba r half qty
                   inv informed flow e in
     bids_below_asks resp
     /\ (bb < ba -> Py.round bb d == bb -> Py.round ba d == ba ->
         forall i p, In i resp ->
           (limit_price BUY i = Some p -> p < ba)
           /\ (limit_price SELL i = Some p -> bb < p)))
  /\ (forall d bb ba r half,
        let tick := Py.pow10 (- d) in
        let b0 := Py.round (Qmin (r - half) (ba - tick)) d in
        let a0 := Py.round (Qmax (r + half) (bb + tick)) d in
        exists b a,
          DominantImbalanceMM.maker_quotes tick d bb ba r half = Some (b, a)
          /\ b < a
          /\ (b0 < a0 -> b = b0 /\ a = a0)
          /\ (a0 <= b0 -> b + tick <= a))
  /\ (forall cfg su book_id book mid vol,
        bids_below_asks
          (fst (SmartMarketMaker.book_quotes cfg su book_id book mid vol))).
Proof.
  split; [|split].
  - intros cfg d book_id bb ba r half qty inv informed flow e. cbv zeta.
    split; [apply dominant_bids_below_asks|].
    intros Hs Hgb Hga i p Hi.
    unfold DominantImbalanceMM.quote_book in Hi.
    destruct (DominantImbalanceMM.maker_quotes _ d bb ba r half) as [[b a]|] eqn:E;
      [|contradiction].
    destruct (maker_quotes_touch d bb ba r half b a Hs Hgb Hga E) as [Hb Ha].
    apply dominant_place_prices in Hi as [Hi1 Hi2].
    split; intros Hp.
    + rewrite (Hi1 p Hp). exact Hb.
    + rewrite (Hi2 p Hp). exact Ha.
  - intros d bb ba r half. cbv zeta.
    destruct (DominantImbalanceMM.maker_quotes (Py.pow10 (- d)) d bb ba r half)
      as [[b a]|] eqn:E; [|exfalso; eapply maker_quotes_never_skips; exact E].
    exists b, a. split; [reflexivity|].
    split; [eapply maker_quotes_ordered, E|].
    revert E. unfold DominantImbalanceMM.maker_quotes.
    py_case.
    + py_case; [discriminate|]. intros E. inversion E; subst b a.
      split; [intros Hc; exfalso; lra|]. intros _.
      apply requote_one_tick_apart.
    + intros E. inversion E; subst b a. split; [intros _; split; reflexivity|].
      intros Hc. exfalso. lra.
  - intros. apply smart_bids_below_asks.
Qed.

(* ===================================================================== *)
(** * L3MarketMakerAgent: the drawdown kill-switch *)
(* ===================================================================== *)

Section L3KillSwitch.

Import L3MarketMakerAgent.

Lemma first_pass_step_quoting accts store book_id book b :
  quoting_state
    (default new_BookState (fst (first_pass_step accts store book_id book) !! b))
  = quoting_state (default new_BookState (store !! b)).
Proof.
  unfold first_pass_step.
  set (store1 := match store !! book_id with
                 | Some _ => store
                 | None => <[book_id:=new_BookState]> store
                 end).
  assert (H1 : quoting_state (default new_BookState (store1 !! b))
               = quoting_state (default new_BookState (store !! b))).
  { unfold store1. destruct (store !! book_id) eqn:E; [reflexivity|].
    destruct (decide (book_id = b)) as [->|Hne].
    - rewrite lookup_insert_eq, E. reflexivity.
    - rewrite lookup_insert_ne by assumption. reflexivity. }
  destruct (dict_get accts book_id) as [acct|]; [|exact H1].
  destruct (_best_levels book) as [[[[bid ask] bq] aq]|]; [|exact H1].
  cbn [fst]. rewrite <- H1.
  destruct (decide (book_id = b)) as [->|Hne].
  - rewrite lookup_insert_eq. reflexivity.
  - rewrite lookup_insert_ne by assumption. reflexivity.
Qed.

Lemma first_pass_quoting accts bks store b :
  quoting_state
    (default new_BookState (fst (fst (first_pass accts bks store)) !! b))
  = quoting_state (default new_BookState (store !! b)).
Proof.
  unfold first_pass. generalize 0.0 at 1 as p. generalize 0.0 at 1 as w.
  revert store. induction bks as [|[book_id book] bks IH]; intros store w p.
  - reflexivity.
  - cbn [fold_left].
    pose proof (first_pass_step_quoting accts store book_id book b) as Hs.
    destruct (first_pass_step accts store book_id book) as [store' [[pnl w0]|]];
      cbn [fst] in Hs; rewrite IH; exact Hs.
Qed.

Lemma cancel_all_no_placement book_id acct i :
  In i (cancel_all book_id acct) -> is_placement i = false.
Proof.
  unfold cancel_all. destruct (orders acct); [intros []|].
  intros [<-|[]]. reflexivity.
Qed.

Lemma priced_ids_In (os : list Order) (o : Order) :
  In o os -> ord_price o <> None -> In (ord_id o) (priced_ids os).
Proof.
  intros Hin Hp. unfold priced_ids. apply in_map. apply filter_In.
  split; [assumption|]. destruct (ord_price o); [reflexivity|contradiction].
Qed.

Lemma cancel_all_cancels book_id acct o :
  In o (orders acct) -> ord_price o <> None ->
  cancels book_id (ord_id o) (cancel_all book_id acct).
Proof.
  intros Hin Hp. exists (priced_ids (orders acct)).
  split; [|apply priced_ids_In; assumption].
  unfold cancel_all. destruct (orders acct); [contradiction|]. left. reflexivity.
Qed.

(** C1.  When the aggregate baseline wealth of the first pass is positive and
    the aggregate PnL is below [-dd_stop_frac] times it, the response of
    [respond] contains no placement, cancels every open order that carries a
    price (every resting limit order) of every account, and is decided
    before any quoting work: the client order id and the quoting state of
    every book are what they were. *)
Theorem C1_kill_switch (cfg : Config) (self : Agent) (su : StateUpdate) :
  let totals := first_pass (accounts self) (books su) (_books self) in
  let total_pnl := snd (fst totals) in
  let total_w0 := snd totals in
  0 < total_w0 ->
  total_pnl < - dd_stop_frac cfg * total_w0 ->
  let self' := fst (respond cfg self su) in
  let resp := snd (respond cfg self su) in
  (forall i, In i resp -> is_placement i = false)
  /\ (forall book_id acct o,
        In (book_id, acct) (accounts self) -> In o (orders acct) ->
        ord_price o <> None -> cancels book_id (ord_id o) resp)
  /\ _client_id self' = _client_id self
  /\ (forall b,
        quoting_state (default new_BookState (_books self' !! b))
        = quoting_state (default new_BookState (_books self !! b))).
Proof.
  cbv zeta. intros Hw Hp. unfold respond.
  pose proof (first_pass_quoting (accounts self) (books su) (_books self)) as Hq.
  destruct (first_pass (accounts self) (books su) (_books self))
    as [[store1 total_pnl] total_w0].
  cbn [fst snd] in *.
  assert (Hk : kill_switch cfg total_pnl total_w0 = true).
  { unfold kill_switch. apply andb_true_intro. split; apply ltb_true; assumption. }
  rewrite Hk. cbn [fst snd _client_id _books].
  split; [|split; [|split]].
  - intros i Hi. unfold kill_response in Hi.
    apply in_flat_map in Hi as ([b acct] & _ & Hi).
    eapply cancel_all_no_placement, Hi.
  - intros book_id acct o Hin Ho Hpr.
    destruct (cancel_all_cancels book_id acct o Ho Hpr) as (ids & Hc & Hid).
    exists ids. split; [|assumption].
    unfold kill_response. apply in_flat_map.
    exists (book_id, acct). split; assumption.
  - reflexivity.
  - exact Hq.
Qed.

Lemma C1_kill_switch_witness :
  cancels 1 7 (snd (respond default_config l3_agent_in_drawdown
                            (l3_tick fallen_book 5000))).
Proof.
  pose proof (C1_kill_switch default_config l3_agent_in_drawdown
                (l3_tick fallen_book 5000)) as H.
  cbv zeta in H.
  specialize (H ltac:(vm_compute; reflexivity) ltac:(vm_compute; reflexivity)).
  destruct H as (_ & H & _).
  apply (H 1%Z (account 5.0 1000.0 [resting 7 BUY 98.5 4000])
           (resting 7 BUY 98.5 4000)).
  - left. reflexivity.
  - left. reflexivity.
  - discriminate.
Defined.

End L3KillSwitch.

(* ===================================================================== *)
(** * L3MarketMakerAgent: the order lifecycle *)
(* ===================================================================== *)

Section L3Lifecycle.

Import L3MarketMakerAgent.

Lemma loss_breach_wealth0 cfg acct bs bs' mid :
  wealth0 bs' = wealth0 bs ->
  loss_breach cfg acct bs' mid = loss_breach cfg acct bs mid.
Proof. intros E. unfold loss_breach. rewrite E. reflexivity. Qed.

(** On a normal run the instructions of the body are those of
    [manage_orders] for the quote of the run. *)
Lemma book_body_normal cfg su book_id book acct bs cid q :
  normal_run cfg su book acct bs = true ->
  run_quote cfg su book acct bs = Some q ->
  snd (book_body cfg su book_id book acct bs cid)
  = snd (manage_orders cfg (_tick (priceDecimals su)) (timestamp su)
                       (publish_interval su) book_id acct q cid).
Proof.
  unfold normal_run, run_quote, book_body.
  intros Hn Hq.
  apply andb_prop in Hn as [Hcd Hn]. apply negb_true_iff in Hcd. rewrite Hcd.
  destruct (_best_levels book) as [[[[bid ask] bidq0] askq0]|]; [|discriminate].
  apply andb_prop in Hn as [Hn Hloss]. apply andb_prop in Hn as [Hsp Hcap].
  apply negb_true_iff in Hloss. py_hyps.
  assert (Hsp' : Py.leb (ask - bid) 0 = false) by (apply leb_false; lra).
  rewrite Hsp'. cbv zeta.
  assert (Hcap' : Py.ltb (inv_cap_base cfg) (Qabs (inventory acct bs)) = false)
    by (apply ltb_false; assumption).
  rewrite Hcap'.
  inversion Hq as [Eq]. clear Hq.
  match goal with
  | |- context [manage_orders ?c ?t ?n ?pi ?b ?a ?q' ?cid'] =>
      destruct (manage_orders c t n pi b a q' cid') as [cid2 instrs] eqn:Em
  end.
  match goal with
  | |- context [loss_breach cfg acct ?bs1 ?mid] =>
      rewrite (loss_breach_wealth0 cfg acct bs bs1 mid eq_refl)
  end.
  rewrite Hloss. reflexivity.
Qed.

Lemma mem_id_nil id : mem_id id [] = false.
Proof. reflexivity. Qed.

Lemma mem_id_single id id' : id' <> id -> mem_id id [id'] = false.
Proof.
  intros H. unfold mem_id. cbn [existsb]. rewrite orb_false_r.
  apply Z.eqb_neq. congruence.
Qed.

Lemma mem_id_false_not_In id ids : mem_id id ids = false -> ~ In id ids.
Proof.
  unfold mem_id. intros H Hin.
  assert (existsb (Z.eqb id) ids = true).
  { apply existsb_exists. exists id. split; [assumption | apply Z.eqb_refl]. }
  congruence.
Qed.

Lemma must_cancel_false cfg tick now age_limit o px :
  (now - ord_timestamp (fst o) <= age_limit)%Z ->
  Qabs (snd o - px) < inject_Z (reprice_ticks cfg) * tick ->
  must_cancel cfg tick now age_limit true o px = false.
Proof.
  intros Hage Hpx. unfold must_cancel. cbn [negb orb].
  apply orb_false_intro.
  - apply Z.ltb_ge. assumption.
  - apply leb_false. assumption.
Qed.

(** The cancellation list of a run that keeps the best order of side [d]
    holds at most the best order of the other side. *)
Lemma lifecycle_keeps cfg tick now pi acct q d o p :
  best_order d acct = Some (o, p) ->
  side_quoted d q = true ->
  (now - ord_timestamp o <= max_age cfg pi)%Z ->
  Qabs (p - side_px d q) < inject_Z (reprice_ticks cfg) * tick ->
  (forall o' p', best_order (opposite d) acct = Some (o', p') ->
                 ord_id o' <> ord_id o) ->
  mem_id (ord_id o) (lifecycle_cancel_ids cfg tick now pi acct q) = false.
Proof.
  intros Hbest Hq Hage Hpx Hother. unfold lifecycle_cancel_ids.
  destruct d; cbn [best_order side_quoted side_px opposite] in *.
  - rewrite Hbest, Hq.
    rewrite (must_cancel_false cfg tick now _ (o, p) (bid_px q) Hage Hpx).
    cbn [app].
    destruct (best_ask_order acct) as [[o' p']|]; [|reflexivity].
    destruct (must_cancel _ _ _ _ _ _ _); [|reflexivity].
    apply mem_id_single. eapply Hother. reflexivity.
  - rewrite Hbest, Hq.
    rewrite (must_cancel_false cfg tick now _ (o, p) (ask_px q) Hage Hpx).
    rewrite app_nil_r.
    destruct (best_bid_order acct) as [[o' p']|]; [|reflexivity].
    destruct (must_cancel _ _ _ _ _ _ _); [|reflexivity].
    apply mem_id_single. eapply Hother. reflexivity.
Qed.

Lemma manage_orders_keeps cfg tick now pi book_id acct q cid d o p :
  best_order d acct = Some (o, p) ->
  side_quoted d q = true ->
  (now - ord_timestamp o <= max_age cfg pi)%Z ->
  Qabs (p - side_px d q) < inject_Z (reprice_ticks cfg) * tick ->
  (forall o' p', best_order (opposite d) acct = Some (o', p') ->
                 ord_id o' <> ord_id o) ->
  forall i, In i (snd (manage_orders cfg tick now pi book_id acct q cid)) ->
    places d book_id i = false
    /\ (forall b ids, i = cancel_orders b ids -> ~ In (ord_id o) ids).
Proof.
  intros Hbest Hq Hage Hpx Hother i Hi.
  pose proof (lifecycle_keeps cfg tick now pi acct q d o p Hbest Hq Hage Hpx Hother)
    as Hmem.
  unfold manage_orders in Hi. cbv zeta in Hi. cbn [snd] in Hi.
  apply in_app_or in Hi as [Hi|Hi].
  - destruct (lifecycle_cancel_ids cfg tick now pi acct q) as [|x xs] eqn:El;
      [contradiction|].
    destruct Hi as [<-|[]]. split; [reflexivity|].
    intros b ids E. inversion E; subst. apply mem_id_false_not_In, Hmem.
  - apply in_app_or in Hi as [Hi|Hi].
    + destruct d; cbn [best_order] in Hbest.
      * rewrite Hbest in Hi. cbn [fst] in Hi.
        rewrite Hmem, andb_false_r in Hi. contradiction.
      * destruct (_ && _ && _) in Hi; [|contradiction].
        destruct Hi as [<-|[]]. split; [|discriminate].
        cbn [places direction_eqb]. apply andb_false_r.
    + destruct d; cbn [best_order] in Hbest.
      * destruct (_ && _ && _) in Hi; [|contradiction].
        destruct Hi as [<-|[]]. split; [|discriminate].
        cbn [places direction_eqb]. apply andb_false_r.
      * rewrite Hbest in Hi. cbn [fst] in Hi.
        rewrite Hmem, andb_false_r in Hi. contradiction.
Qed.

(** C8, amended.  On a normal quoting run of the L3 body (no cooldown, a
    two-sided book with positive spread, inventory within the hard cap, no
    loss breach), if the best resting order of a side is not older than
    [max_age], lies strictly within [reprice_ticks] ticks of the price the
    run wants for that side, the side is quoted, and no other order shares
    its id, then the run neither cancels that order nor places an order on
    that side.  This holds for every such run, a repeated one included. *)
Theorem C8_no_churn (cfg : Config) (su : StateUpdate) (book_id : Z)
        (book : Book) (acct : Account) (bs : _BookState) (cid : Z)
        (d : OrderDirection) (o : Order) (p : Q) (q : Quote) :
  normal_run cfg su book acct bs = true ->
  run_quote cfg su book acct bs = Some q ->
  best_order d acct = Some (o, p) ->
  side_quoted d q = true ->
  (timestamp su - ord_timestamp o <= max_age cfg (publish_interval su))%Z ->
  Qabs (p - side_px d q)
  < inject_Z (reprice_ticks cfg) * _tick (priceDecimals su) ->
  (forall o' p', best_order (opposite d) acct = Some (o', p') ->
                 ord_id o' <> ord_id o) ->
  Forall (fun i =>
            places d book_id i = false
            /\ (forall b ids, i = cancel_orders b ids -> ~ In (ord_id o) ids))
         (snd (book_body cfg su book_id book acct bs cid)).
Proof.
  intros Hn Hq Hbest Hs Hage Hpx Hother.
  rewrite (book_body_normal cfg su book_id book acct bs cid q Hn Hq).
  apply List.Forall_forall. intros i Hi.
  exact (manage_orders_keeps cfg _ _ _ book_id acct q cid d o p
                             Hbest Hs Hage Hpx Hother i Hi).
Qed.

End L3Lifecycle.

Lemma C8_no_churn_witness :
  Forall (fun i =>
            places BUY 1 i = false
            /\ (forall b ids, i = cancel_orders b ids -> ~ In 7%Z ids))
         (snd (L3MarketMakerAgent.book_body
                 L3MarketMakerAgent.default_config (l3_tick sample_book 5000)
                 1 sample_book l3_quoted_account l3_seen_state 10000)).
Proof.
  apply (C8_no_churn L3MarketMakerAgent.default_config (l3_tick sample_book 5000)
           1 sample_book l3_quoted_account l3_seen_state 10000
           BUY (resting 7 BUY 99.94 4000) 99.94 l3_sample_quote).
  - vm_compute. reflexivity.
  - vm_compute. reflexivity.
  - vm_compute. reflexivity.
  - reflexivity.
  - vm_compute. discriminate.
  - vm_compute. reflexivity.
  - intros o' p' H. vm_compute in H. discriminate.
Defined.

(** C8, as stated, fails on EliteMarketMaker, which re-quotes on every tick:
    on the second of two identical ticks, with a resting bid at exactly the
    price it quotes (99.95), it cancels that bid and places a new bid at the
    same price. *)
Lemma C8_counterexample :
  exists r2,
    elite_second_response np_std_unreached (EliteMarketMaker.default_config 0)
                          elite_tick = Some r2
    /\ cancelsb 1 7 r2 = true
    /\ quotes_at BUY 99.95 r2 = true.
Proof.
  eexists. split; [vm_compute; reflexivity|].
  split; vm_compute; reflexivity.
Qed.

(** The scenario does not depend on the stand-in for [np.std]. *)
Lemma elite_second_response_any_std (f : list Q -> Q) :
  elite_second_response f (EliteMarketMaker.default_config 0) elite_tick
  = elite_second_response np_std_unreached (EliteMarketMaker.default_config 0)
                          elite_tick.
Proof. vm_compute. reflexivity. Qed.

(** On every tick EliteMarketMaker cancels every open order of its accounts,
    whatever the prices. *)
Lemma elite_cancels_every_order (np_std : list Q -> Q) cfg price_history su
      price_history' resp accts by_book book_id acct o :
  EliteMarketMaker.respond np_std cfg price_history su = Ok (price_history', resp) ->
  EliteMarketMaker.accounts su = Some accts ->
  dict_get accts (EliteMarketMaker.uid cfg) = Some by_book ->
  In (book_id, acct) by_book -> In o (orders acct) ->
  cancels book_id (ord_id o) resp.
Proof.
  intros Hr Ha Hu Hb Ho. unfold EliteMarketMaker.respond in Hr.
  assert (Hc : cancels book_id (ord_id o) (EliteMarketMaker.cancel_everything cfg su)).
  { unfold EliteMarketMaker.cancel_everything. rewrite Ha, Hu.
    exists (map ord_id (orders acct)). split; [|apply in_map, Ho].
    apply in_flat_map. exists (book_id, acct). split; [assumption|].
    destruct (orders acct) as [|x xs]; [contradiction|]. left. reflexivity. }
  revert Hr Hc. generalize (EliteMarketMaker.cancel_everything cfg su) as r0.
  generalize price_history as ph0. generalize (EliteMarketMaker.books su) as bks.
  induction bks as [|kb bks IH]; intros ph0 r0 Hr Hc; cbn [for_each] in Hr.
  - inversion Hr; subst. exact Hc.
  - destruct (EliteMarketMaker.book_body np_std cfg su (ph0, r0) kb)
      as [[ph1 r1]|e] eqn:E; [|discriminate].
    cbn [bind] in Hr. apply (IH ph1 r1 Hr).
    destruct Hc as (ids & Hin & Hid). exists ids. split; [|assumption].
    destruct kb as [k bk]. unfold EliteMarketMaker.book_body in E.
    destruct (bids bk); [inversion E; subst; assumption|].
    destruct (asks bk); [inversion E; subst; assumption|].
    destruct (EliteMarketMaker.calculate_volatility _ _ _ _ _) as [ph2 vol].
    destruct (Py.eqb _ 0); [discriminate|]. cbv zeta in E.
    destruct (EliteMarketMaker.accounts su); [|discriminate].
    inversion E; subst. apply in_or_app. left. assumption.
Qed.

(* ===================================================================== *)
(** * The hard inventory cap *)
(* ===================================================================== *)

(** C2.  AdaptiveMarketMakerAgent breaks the exclusive comparison: with the
    default [max_inventory = 5.0], an inventory of exactly 5.0 passes the
    guard [abs(inventory) < max_inventory], fails [inventory >
    max_inventory], and so takes the "too short" branch: an
    immediate-or-cancel BUY of the minimum size 0.1 at 100.10. *)
Theorem C2_adaptive_triggers_at_cap :
  AdaptiveMarketMakerAgent.place_inventory_rebalancing_order
    AdaptiveMarketMakerAgent.default_config 1 5.0 100.0 2 2
  = [limit_order 1 BUY 0.1 100.10 None (Some CANCEL_OLDEST) None (Some IOC) None].
Proof. vm_compute. reflexivity. Qed.

(** At the boundary the function always places an order, and for a long
    inventory it is a buy. *)
Lemma adaptive_boundary_places cfg book_id inventory midquote pd vd :
  Qabs inventory == AdaptiveMarketMakerAgent.max_inventory cfg ->
  exists d q p,
    AdaptiveMarketMakerAgent.place_inventory_rebalancing_order
      cfg book_id inventory midquote pd vd
    = [limit_order book_id d q p None (Some CANCEL_OLDEST) None (Some IOC) None]
    /\ (0 <= inventory -> d = BUY).
Proof.
  intros Heq. unfold AdaptiveMarketMakerAgent.place_inventory_rebalancing_order.
  assert (H1 : Py.ltb (Qabs inventory) (AdaptiveMarketMakerAgent.max_inventory cfg)
               = false) by (apply ltb_false; lra).
  rewrite H1.
  destruct (Py.ltb (AdaptiveMarketMakerAgent.max_inventory cfg) inventory) eqn:H2.
  - py_hyps. pose proof (Qle_Qabs inventory). exfalso. lra.
  - eexists _, _, _. split; [reflexivity|]. intros _. reflexivity.
Qed.

(** Inside the band nothing is placed. *)
Lemma adaptive_inside_band cfg book_id inventory midquote pd vd :
  Qabs inventory < AdaptiveMarketMakerAgent.max_inventory cfg ->
  AdaptiveMarketMakerAgent.place_inventory_rebalancing_order
    cfg book_id inventory midquote pd vd = [].
Proof.
  intros H. unfold AdaptiveMarketMakerAgent.place_inventory_rebalancing_order.
  apply ltb_true in H. rewrite H. reflexivity.
Qed.

Section L3HardCap.

Import L3MarketMakerAgent.

Lemma open_orders_by_side_In (os : list Order) (o : Order) (p : Q) :
  (In (o, p) (fst (_open_orders_by_side os))
   <-> In o os /\ ord_price o = Some p /\ ord_side o = BUY)
  /\ (In (o, p) (snd (_open_orders_by_side os))
      <-> In o os /\ ord_price o = Some p /\ ord_side o = SELL).
Proof.
  induction os as [|x xs [IHb IHa]]; cbn [_open_orders_by_side].
  - cbn. split; split; intros H; try contradiction; destruct H as [[] _].
  - destruct (_open_orders_by_side xs) as [bs as_] eqn:E. cbn [fst snd] in *.
    destruct (ord_price x) as [px|] eqn:Ep; [destruct (ord_side x) eqn:Es|];
      cbn [fst snd In]; rewrite ?IHb, ?IHa; split; split; intros H.
    all: repeat match goal with
                | H : _ \/ _ |- _ => destruct H
                | H : _ /\ _ |- _ => destruct H
                | H : (_, _) = (_, _) |- _ => inversion H; subst; clear H
                end; subst; try congruence; auto; left; congruence.
Qed.

(** The L3 comparison is exclusive: an inventory deviation equal to the cap
    does not enter the hard-cap regime, any larger one does. *)
Lemma L3_hard_cap_exclusive cfg inv :
  (Qabs inv == inv_cap_base cfg -> Py.ltb (inv_cap_base cfg) (Qabs inv) = false)
  /\ (inv_cap_base cfg < Qabs inv -> Py.ltb (inv_cap_base cfg) (Qabs inv) = true).
Proof.
  split; intros H; [apply ltb_false; lra | apply ltb_true; assumption].
Qed.

(** The hard-cap regime of L3: no order on the risk-increasing side, every
    priced order of that side cancelled, and, when the deviation exceeds the
    soft cap, one immediate-or-cancel order on the other side at the touch,
    sized [hard_flatten_frac] of the excess, clamped and rounded. *)
Lemma L3_hard_cap_regime cfg vol_dec book_id acct inv bid ask :
  let resp := hard_cap_derisk cfg vol_dec book_id acct inv bid ask in
  let excess := Qabs inv - inv_soft_cap_base cfg in
  (forall i, In i resp -> places (risk_increasing inv) book_id i = false)
  /\ (forall o, In o (orders acct) -> ord_price o <> None ->
                ord_side o = risk_increasing inv ->
                cancels book_id (ord_id o) resp)
  /\ (0 < excess ->
      In (limit_order book_id (opposite (risk_increasing inv))
            (Py.round (_clamp (excess * hard_flatten_frac cfg)
                              (min_order_size cfg) (max_order_size cfg)) vol_dec)
            (if Py.ltb 0 inv then bid else ask)
            None (Some CANCEL_BOTH) (Some false) (Some IOC) None) resp).
Proof.
  cbv zeta. unfold hard_cap_derisk, risk_increasing.
  pose proof (open_orders_by_side_In (orders acct)) as Hside.
  destruct (_open_orders_by_side (orders acct)) as [bids_open asks_open].
  cbn [fst snd] in Hside.
  set (ids := if Py.ltb 0 inv
              then map (fun x => ord_id (fst x)) bids_open
              else map (fun x => ord_id (fst x)) asks_open).
  set (cs := match ids with [] => [] | _ => [cancel_orders book_id ids] end).
  assert (Hcs : forall i d, In i cs -> places d book_id i = false).
  { intros i d Hi. unfold cs in Hi. destruct ids; [contradiction|].
    destruct Hi as [<-|[]]. reflexivity. }
  assert (Hcan : forall o, In o (orders acct) -> ord_price o <> None ->
                           ord_side o = (if Py.ltb 0 inv then BUY else SELL) ->
                           cancels book_id (ord_id o) cs).
  { intros o Ho Hp Hs. exists ids.
    assert (Hin : In (ord_id o) ids).
    { destruct (ord_price o) as [p|] eqn:Ep; [|contradiction].
      unfold ids. destruct (Py.ltb 0 inv).
      - apply (in_map (fun x => ord_id (fst x)) _ (o, p)).
        apply (proj1 (Hside o p)). auto.
      - apply (in_map (fun x => ord_id (fst x)) _ (o, p)).
        apply (proj2 (Hside o p)). auto. }
    split; [|assumption].
    unfold cs. destruct ids; [contradiction|]. left. reflexivity. }
  assert (Hcan' : forall o resp', cancels book_id (ord_id o) cs ->
                                  cancels book_id (ord_id o) (cs ++ resp')).
  { intros o resp' (l & H1 & H2). exists l. split; [apply in_or_app; left|]; assumption. }
  destruct (Py.ltb 0 (Qabs inv - inv_soft_cap_base cfg)) eqn:Hex.
  - destruct (Py.ltb 0 inv) eqn:Hinv; (split; [|split]).
    + intros i Hi. apply in_app_or in Hi as [Hi|[<-|[]]]; [eapply Hcs, Hi|].
      cbn [places direction_eqb]. apply andb_false_r.
    + intros o Ho Hp Hs. apply Hcan'. apply Hcan; assumption.
    + intros _. apply in_or_app. right. left. reflexivity.
    + intros i Hi. apply in_app_or in Hi as [Hi|[<-|[]]]; [eapply Hcs, Hi|].
      cbn [places direction_eqb]. apply andb_false_r.
    + intros o Ho Hp Hs. apply Hcan'. apply Hcan; assumption.
    + intros _. apply in_or_app. right. left. reflexivity.
  - py_hyps. split; [|split].
    + intros i Hi. eapply Hcs, Hi.
    + apply Hcan.
    + intros Hc. exfalso. lra.
Qed.

(** A book that passes the gates with a deviation above the cap gets the
    hard-cap response and nothing else. *)
Lemma L3_hard_cap_entered cfg su book_id book acct bs cid bid ask bq aq :
  in_cooldown (timestamp su) bs = false ->
  _best_levels book = Some (bid, ask, bq, aq) ->
  0 < ask - bid ->
  inv_cap_base cfg < Qabs (inventory acct bs) ->
  snd (book_body cfg su book_id book acct bs cid)
  = hard_cap_derisk cfg (volumeDecimals su) book_id acct (inventory acct bs)
                    bid ask.
Proof.
  intros Hcd Hl Hs Hc. unfold book_body. rewrite Hcd, Hl.
  assert (H1 : Py.leb (ask - bid) 0 = false) by (apply leb_false; assumption).
  rewrite H1. cbv zeta.
  apply ltb_true in Hc. rewrite Hc. reflexivity.
Qed.

End L3HardCap.

(* ===================================================================== *)
(** * Failures inside the loop over the books *)
(* ===================================================================== *)

(** C3.  SmartOrderBookAgent has no failure boundary: on a tick without
    accounts ([state.accounts] is [None]) the membership test of the first
    book raises [TypeError], which leaves [respond]: no response is returned
    and the second book is never processed. *)
Theorem C3_smart_order_book_aborts (np_std : list Q -> Q) :
  SmartOrderBookAgent.respond np_std (SmartOrderBookAgent.default_config 0)
    SmartOrderBookAgent.initial smart_tick_without_accounts
  = Raise TypeError.
Proof. reflexivity. Qed.

(** The same failure for any agent state and any tick without accounts whose
    first book has both sides. *)
Lemma smart_order_book_aborts np_std cfg self su book_id book rest b bs a as_ :
  SmartOrderBookAgent.accounts su = None ->
  SmartOrderBookAgent.books su = (book_id, book) :: rest ->
  bids book = b :: bs -> asks book = a :: as_ ->
  SmartOrderBookAgent.respond np_std cfg self su = Raise TypeError.
Proof.
  intros Ha Hb Hbid Hask. unfold SmartOrderBookAgent.respond.
  rewrite Hb. cbn [for_each].
  unfold SmartOrderBookAgent.book_body at 1. rewrite Hbid, Hask, Ha.
  reflexivity.
Qed.

Section EliteImbalanceBoundary.

Import EliteImbalanceMarketMaker.

Variable snapshot_imbalance : Book -> Z -> option Z -> Result Q.
Variable book_trades : Book -> list (OrderDirection * Q).

Let body := book_body snapshot_imbalance book_trades.
Let run := respond snapshot_imbalance book_trades.

Lemma respond_step_accounts cfg su acc kb :
  accounts (fst (respond_step snapshot_imbalance book_trades cfg su acc kb)) = accounts (fst acc).
Proof.
  destruct acc as [self response], kb as [book_id book]. unfold respond_step.
  fold body.
  destruct (body cfg self su book_id book) as [[instrs [mid|]]|e]; reflexivity.
Qed.

Lemma guarded_loop_accounts cfg su bks acc :
  accounts (fst (fold_left (respond_step snapshot_imbalance book_trades cfg su) bks acc)) = accounts (fst acc).
Proof.
  revert acc. induction bks as [|kb bks IH]; intros acc; cbn [fold_left].
  - reflexivity.
  - rewrite IH. apply respond_step_accounts.
Qed.

(** The body of a book without an account raises [KeyError]. *)
Lemma body_missing_account cfg self su book_id book b bs a as_ :
  bids book = b :: bs -> asks book = a :: as_ ->
  dict_get (accounts self) book_id = None ->
  body cfg self su book_id book = Raise KeyError.
Proof.
  intros Hb Ha Hk. unfold body, book_body. rewrite Hb, Ha, Hk. reflexivity.
Qed.

(** EliteImbalanceMarketMaker, a sibling with the boundary: a book whose
    body raises (here: no account for it) contributes nothing, and the
    response and the agent are those of the tick without that book. *)
Lemma elite_imbalance_isolates cfg self su l1 l2 book_id book b bs a as_ :
  bids book = b :: bs -> asks book = a :: as_ ->
  dict_get (accounts self) book_id = None ->
  run cfg self (with_books su (l1 ++ (book_id, book) :: l2))
  = run cfg self (with_books su (l1 ++ l2)).
Proof.
  intros Hb Ha Hk. unfold run, respond, with_books. cbn [validator books].
  set (self0 := match _last_mid self !! validator su with
                | Some _ => self
                | None => _
                end).
  assert (H0 : accounts self0 = accounts self).
  { unfold self0. destruct (_last_mid self !! validator su); reflexivity. }
  change (fold_left (respond_step snapshot_imbalance book_trades cfg (with_books su (l1 ++ (book_id, book) :: l2)))
                    (l1 ++ (book_id, book) :: l2) (self0, [])
          = fold_left (respond_step snapshot_imbalance book_trades cfg (with_books su (l1 ++ l2)))
                      (l1 ++ l2) (self0, [])).
  assert (Hstep : forall bks bks' acc kb,
             respond_step snapshot_imbalance book_trades cfg (with_books su bks) acc kb
             = respond_step snapshot_imbalance book_trades cfg (with_books su bks') acc kb).
  { intros bks bks' [s r] [k bk]. reflexivity. }
  assert (Hfold : forall bks bks' l acc,
             fold_left (respond_step snapshot_imbalance book_trades cfg (with_books su bks)) l acc
             = fold_left (respond_step snapshot_imbalance book_trades cfg (with_books su bks')) l acc).
  { intros bks bks' l. induction l as [|x l IH]; intros acc; cbn [fold_left].
    - reflexivity.
    - rewrite (Hstep bks bks'). apply IH. }
  rewrite (Hfold _ (l1 ++ l2)).
  rewrite !fold_left_app. cbn [fold_left].
  set (acc1 := fold_left (respond_step snapshot_imbalance book_trades cfg (with_books su (l1 ++ l2))) l1 (self0, [])).
  assert (Hacc : accounts (fst acc1) = accounts self).
  { unfold acc1. rewrite guarded_loop_accounts. exact H0. }
  assert (Hskip : respond_step snapshot_imbalance book_trades cfg (with_books su (l1 ++ l2)) acc1 (book_id, book)
                  = acc1).
  { destruct acc1 as [s r]. cbn [fst] in Hacc. unfold respond_step. fold body.
    rewrite (body_missing_account cfg s _ book_id book b bs a as_ Hb Ha)
      by (rewrite Hacc; exact Hk).
    reflexivity. }
  rewrite Hskip. reflexivity.
Qed.

End EliteImbalanceBoundary.

(* ===================================================================== *)
(** * Partition of the per-book state *)
(* ===================================================================== *)




Lemma l3_first_pass_partition accts store b book b' :
  b' <> b ->
  fst (L3MarketMakerAgent.first_pass_step accts store b book) !! b' = store !! b'.
Proof.
  intros Hne. unfold L3MarketMakerAgent.first_pass_step.
  assert (H1 : match store !! b with
               | Some _ => store
               | None => <[b:=L3MarketMakerAgent.new_BookState]> store
               end !! b' = store !! b').
  { destruct (store !! b); [reflexivity|]. apply lookup_insert_ne. congruence. }
  destruct (dict_get accts b); [|exact H1].
  destruct (L3MarketMakerAgent._best_levels book) as [[[[? ?] ?] ?]|]; [|exact H1].
  cbn [fst]. rewrite lookup_insert_ne by congruence. exact H1.
Qed.

Lemma l3_book_step_partition cfg su accts store cid b book b' :
  b' <> b ->
  fst (fst (L3MarketMakerAgent.book_step cfg su accts store cid b book)) !! b'
  = store !! b'.
Proof.
  intros Hne. unfold L3MarketMakerAgent.book_step.
  destruct (dict_get accts b); [|reflexivity].
  destruct (store !! b); [|reflexivity].
  destruct (L3MarketMakerAgent.book_body _ _ _ _ _ _ _) as [[bs' cid'] instrs].
  cbn [fst]. apply lookup_insert_ne. congruence.
Qed.





(* ===================================================================== *)
(** * Balance checks before placing *)
(* ===================================================================== *)

Section EliteImbalanceFunds.

Import EliteImbalanceMarketMaker.

Variable snapshot_imbalance : Book -> Z -> option Z -> Result Q.
Variable book_trades : Book -> list (OrderDirection * Q).

Lemma place_quotes_funded (account_of : Z -> option Account) book_id acct fees
      db da bq aq e :
  account_of book_id = Some acct ->
  Forall (funded account_of) (place_quotes book_id acct fees db da bq aq e).
Proof.
  intros Hacct. unfold place_quotes. destruct fees; [constructor|].
  apply Forall_app. split.
  - destruct (Py.ltb 0 db && Py.ltb 0 bq
              && Py.leb (bq * db) (free (quote_balance acct))) eqn:E;
      [|constructor].
    apply andb_prop in E as [_ E]. py_hyps.
    constructor; [|constructor]. cbn [funded]. rewrite Hacct. lra.
  - destruct (Py.ltb 0 da && Py.ltb 0 aq
              && Py.leb aq (free (base_balance acct))) eqn:E;
      [|constructor].
    apply andb_prop in E as [_ E]. py_hyps.
    constructor; [|constructor]. cbn [funded]. rewrite Hacct. lra.
Qed.

Lemma emergency_unwind_funded (account_of : Z -> option Account) cfg book_id
      acct inv_dev best_ask :
  Forall (funded account_of) (emergency_unwind cfg book_id acct inv_dev best_ask).
Proof.
  unfold emergency_unwind.
  repeat match goal with
         | |- context [if ?c then _ else _] => destruct c
         end;
    repeat constructor.
Qed.

Lemma body_funded cfg self su book_id book instrs m :
  book_body snapshot_imbalance book_trades cfg self su book_id book
  = Ok (instrs, m) ->
  Forall (funded (dict_get (accounts self))) instrs.
Proof.
  intros H. unfold book_body in H.
  destruct (bids book) as [|b bs]; [inversion H; constructor|].
  destruct (asks book) as [|a as_]; [inversion H; constructor|].
  destruct (dict_get (accounts self) book_id) as [acct|] eqn:Hacct; [|discriminate].
  cbv zeta in H.
  destruct (_compute_mid_spread book) as [[[best_bid best_ask] mid] spread].
  destruct (Py.leb mid 0.0); [inversion H; constructor|].
  destruct (_l2_imbalance snapshot_imbalance cfg book (timestamp su)) as [imb|e];
    [|discriminate].
  cbn [bind] in H.
  destruct (_interval_flow_signal book_trades cfg self book mid (validator su) book_id)
    as [[flow toxic]|e]; [|discriminate].
  cbn [bind] in H.
  match type of H with
  | match ?x with Some _ => _ | None => _ end = _ =>
      destruct x as [[db da]|]
  end; [|inversion H; constructor].
  inversion H; subst instrs m. clear H.
  apply Forall_app. split.
  - match goal with
    | |- Forall _ (match ?ids with [] => [] | _ => _ end) =>
        destruct ids; repeat constructor
    end.
  - apply Forall_app. split.
    + apply emergency_unwind_funded.
    + apply place_quotes_funded. exact Hacct.
Qed.

Lemma respond_step_funded cfg su acc kb accts :
  accounts (fst acc) = accts ->
  Forall (funded (dict_get accts)) (snd acc) ->
  accounts (fst (respond_step snapshot_imbalance book_trades cfg su acc kb)) = accts
  /\ Forall (funded (dict_get accts))
            (snd (respond_step snapshot_imbalance book_trades cfg su acc kb)).
Proof.
  destruct acc as [self response], kb as [book_id book]. cbn [fst snd].
  intros <- Hr. unfold respond_step.
  destruct (book_body snapshot_imbalance book_trades cfg self su book_id book)
    as [[instrs [mid|]]|e] eqn:E; cbn [fst snd accounts];
    (split; [reflexivity|]); try assumption;
    apply Forall_app; split; try assumption; eapply body_funded, E.
Qed.

Lemma respond_loop_funded cfg su bks acc accts :
  accounts (fst acc) = accts ->
  Forall (funded (dict_get accts)) (snd acc) ->
  Forall (funded (dict_get accts))
         (snd (fold_left (respond_step snapshot_imbalance book_trades cfg su)
                         bks acc)).
Proof.
  revert acc. induction bks as [|kb bks IH]; intros acc Ha Hf; cbn [fold_left].
  - exact Hf.
  - destruct (respond_step_funded cfg su acc kb accts Ha Hf) as [Ha' Hf'].
    apply IH; assumption.
Qed.

Lemma respond_funded cfg self su :
  Forall (funded (dict_get (accounts self)))
         (snd (respond snapshot_imbalance book_trades cfg self su)).
Proof.
  unfold respond. apply respond_loop_funded; [|constructor].
  cbn [fst]. destruct (_last_mid self !! validator su); reflexivity.
Qed.

End EliteImbalanceFunds.

Section EliteFunds.

Import EliteMarketMaker.

Variable np_std : list Q -> Q.

Lemma place_orders_funded (account_of : Z -> option Account) cfg book_id
      my_bid my_ask :
  Forall (funded account_of)
         (place_orders cfg book_id (account_of book_id) my_bid my_ask).
Proof.
  unfold place_orders. apply Forall_app. split.
  - match goal with
    | |- Forall _ (if ?c then _ else _) => destruct c eqn:E; [|constructor]
    end.
    apply andb_prop in E as [_ E]. py_hyps.
    constructor; [|constructor]. cbn [funded].
    destruct (account_of book_id); lra.
  - match goal with
    | |- Forall _ (if ?c then _ else _) => destruct c eqn:E; [|constructor]
    end.
    apply andb_prop in E as [_ E]. py_hyps.
    constructor; [|constructor]. cbn [funded].
    destruct (account_of book_id); lra.
Qed.

Lemma cancel_everything_funded (account_of : Z -> option Account) cfg su :
  Forall (funded account_of) (cancel_everything cfg su).
Proof.
  unfold cancel_everything.
  destruct (accounts su) as [accts|]; [|constructor].
  destruct (dict_get accts (uid cfg)) as [by_book|]; [|constructor].
  apply List.Forall_forall. intros i Hi.
  apply in_flat_map in Hi as ([b acct] & _ & Hi).
  destruct (map ord_id (orders acct)); [contradiction|].
  destruct Hi as [<-|[]]. exact I.
Qed.

Lemma elite_body_funded cfg su ph resp kb ph' resp' :
  let account_of := account_of cfg (default [] (accounts su)) in
  Forall (funded account_of) resp ->
  book_body np_std cfg su (ph, resp) kb = Ok (ph', resp') ->
  Forall (funded account_of) resp'.
Proof.
  cbv zeta. intros Hr H. destruct kb as [book_id book].
  unfold book_body in H.
  destruct (bids book) as [|b bs]; [inversion H; subst; assumption|].
  destruct (asks book) as [|a as_]; [inversion H; subst; assumption|].
  destruct (calculate_volatility np_std cfg ph book_id _) as [ph1 vol].
  destruct (Py.eqb (order_quantity cfg) 0); [discriminate|].
  cbv zeta in H.
  destruct (accounts su) as [accts|]; [|discriminate].
  inversion H; subst ph' resp'. clear H.
  apply Forall_app. split; [assumption|].
  cbn [from_option Datatypes.id].
  apply (place_orders_funded (account_of cfg accts)).
Qed.

Lemma elite_loop_funded cfg su bks ph resp ph' resp' :
  let account_of := account_of cfg (default [] (accounts su)) in
  Forall (funded account_of) resp ->
  for_each (book_body np_std cfg su) bks (ph, resp) = Ok (ph', resp') ->
  Forall (funded account_of) resp'.
Proof.
  cbv zeta. revert ph resp.
  induction bks as [|kb bks IH]; intros ph resp Hr H; cbn [for_each] in H.
  - inversion H; subst. assumption.
  - destruct (book_body np_std cfg su (ph, resp) kb) as [[ph1 resp1]|e] eqn:E;
      [|discriminate].
    cbn [bind] in H. eapply IH; [|exact H].
    eapply elite_body_funded; eassumption.
Qed.

(** With accounts and a non-zero order quantity the loop does not raise. *)
Lemma elite_loop_returns cfg su accts bks st :
  accounts su = Some accts -> ~ order_quantity cfg == 0 ->
  exists r, for_each (book_body np_std cfg su) bks st = Ok r.
Proof.
  intros Ha Hq. revert st.
  induction bks as [|[book_id book] bks IH]; intros st; cbn [for_each].
  - eexists. reflexivity.
  - assert (Hb : exists st', book_body np_std cfg su st (book_id, book) = Ok st').
    { destruct st as [ph resp]. unfold book_body.
      destruct (bids book) as [|b bs]; [eexists; reflexivity|].
      destruct (asks book) as [|a as_]; [eexists; reflexivity|].
      destruct (calculate_volatility np_std cfg ph book_id _) as [ph1 vol].
      apply eqb_false in Hq. rewrite Hq, Ha. eexists. reflexivity. }
    destruct Hb as [st' Hb]. rewrite Hb. cbn [bind]. apply IH.
Qed.

End EliteFunds.

(** C10.  Every limit order in a response of EliteImbalanceMarketMaker and of
    EliteMarketMaker is funded: a buy is emitted only if the free quote
    balance of the book's account is at least price times quantity, a sell
    only if the free base balance is at least the quantity.
    EliteImbalanceMarketMaker always returns a response; EliteMarketMaker
    returns one whenever the tick carries accounts and the configured order
    quantity is not zero. *)
Theorem C10_limit_orders_funded :
  (forall snapshot_imbalance book_trades cfg self su,
     Forall (funded (dict_get (EliteImbalanceMarketMaker.accounts self)))
            (snd (EliteImbalanceMarketMaker.respond
                    snapshot_imbalance book_trades cfg self su)))
  /\ (forall np_std cfg price_history su,
        (forall accts,
           EliteMarketMaker.accounts su = Some accts ->
           ~ EliteMarketMaker.order_quantity cfg == 0 ->
           exists r, EliteMarketMaker.respond np_std cfg price_history su = Ok r)
        /\ (forall price_history' resp,
              EliteMarketMaker.respond np_std cfg price_history su
              = Ok (price_history', resp) ->
              Forall (funded (EliteMarketMaker.account_of
                                cfg (default [] (EliteMarketMaker.accounts su))))
                     resp)).
Proof.
  split.
  - intros. apply respond_funded.
  - intros np_std cfg ph su. split.
    + intros accts Ha Hq. unfold EliteMarketMaker.respond.
      eapply elite_loop_returns; eassumption.
    + intros ph' resp H. unfold EliteMarketMaker.respond in H.
      eapply elite_loop_funded; [|exact H].
      apply cancel_everything_funded.
Qed.

(* ===================================================================== *)
(** * L3MarketMakerAgent: quotes, cooldown, baselines and client ids *)
(* ===================================================================== *)

Section L3Quotes.

Import L3MarketMakerAgent.

(** Rounding to the tick of [decimals] decimals lands on the tick grid. *)
Lemma round_to_tick_value (x : Q) (d : Z) :
  _round_to_tick x (_tick d) d
  == inject_Z (Py.round_half_even (x / _tick d)) * _tick d.
Proof.
  unfold _round_to_tick, _tick.
  pose proof (pow10_pos d) as HP. pose proof (tick_pow10 d) as Et.
  set (n := Py.round_half_even (x / Py.pow10 (- d))).
  unfold Py.round.
  assert (E : inject_Z n * Py.pow10 (- d) * Py.pow10 d == inject_Z n).
  { rewrite Et. field. lra. }
  rewrite E, round_half_even_Z. rewrite Et. field. lra.
Qed.

Lemma round_to_tick_error (x : Q) (d : Z) :
  x - _tick d * 0.5 <= _round_to_tick x (_tick d) d <= x + _tick d * 0.5.
Proof.
  rewrite round_to_tick_value.
  pose proof (pow10_pos (- d)) as Ht. fold (_tick d) in Ht.
  pose proof (round_half_even_bounds (x / _tick d)) as [Hlo Hhi].
  set (n := inject_Z (Py.round_half_even (x / _tick d))) in *.
  assert (E : x / _tick d * _tick d == x) by (field; lra).
  set (y := x / _tick d) in *. clearbody n y.
  split; nra.
Qed.

(** The last two steps of the quote decision, after any earlier choice of
    raw prices. *)
Lemma final_prices_inside (d : Z) (bid ask bp ap : Q) :
  let tick := _tick d in
  let b0 := _round_to_tick bp tick d in
  let a0 := _round_to_tick ap tick d in
  let b1 := if Py.leb ask b0 then _round_to_tick (ask - tick) tick d else b0 in
  let a1 := if Py.leb a0 bid then _round_to_tick (bid + tick) tick d else a0 in
  b1 < ask /\ bid < a1
  /\ (exists n, b1 == inject_Z n * tick) /\ (exists n, a1 == inject_Z n * tick).
Proof.
  cbv zeta. pose proof (pow10_pos (- d)) as Ht. fold (_tick d) in Ht.
  pose proof (round_to_tick_error (ask - _tick d) d) as [_ Hb].
  pose proof (round_to_tick_error (bid + _tick d) d) as [Ha _].
  repeat split.
  - py_case; lra.
  - py_case; lra.
  - py_case; eexists; apply round_to_tick_value.
  - py_case; eexists; apply round_to_tick_value.
Qed.

(** The quote decision keeps both prices strictly inside the opposite touch
    and on the tick grid, whatever the book, the account and the signals. *)
Lemma compute_quote_inside_touch cfg price_dec vol_dec book account
      bid ask bidq0 askq0 imb t_imb inv toxic :
  let q := compute_quote cfg price_dec vol_dec book account
                         bid ask bidq0 askq0 imb t_imb inv toxic in
  bid_px q < ask /\ bid < ask_px q
  /\ (exists n, bid_px q == inject_Z n * _tick price_dec)
  /\ (exists n, ask_px q == inject_Z n * _tick price_dec).
Proof.
  cbv zeta. unfold compute_quote. cbv zeta.
  match goal with
  | |- context [let '(_, _) := ?X in _] => destruct X as [bp ap]
  end.
  cbn [bid_px ask_px].
  exact (final_prices_inside price_dec bid ask bp ap).
Qed.

Lemma cancel_all_inside bid ask book_id account :
  Forall (post_only_inside bid ask) (cancel_all book_id account).
Proof.
  unfold cancel_all. destruct (orders account); repeat constructor.
Qed.

Lemma manage_orders_inside cfg tick now pi book_id account q cid bid ask :
  bid_px q < ask -> bid < ask_px q ->
  Forall (post_only_inside bid ask)
         (snd (manage_orders cfg tick now pi book_id account q cid)).
Proof.
  intros Hb Ha. unfold manage_orders. cbv zeta. cbn [snd].
  repeat (apply Forall_app; split).
  - destruct (lifecycle_cancel_ids _ _ _ _ _ _); repeat constructor.
  - match goal with |- context [if ?c then _ else _] => destruct c end;
      repeat constructor. exact Hb.
  - match goal with |- context [if ?c then _ else _] => destruct c end;
      repeat constructor. exact Ha.
Qed.

Lemma hard_cap_derisk_inside cfg vol_dec book_id account inv bid ask :
  Forall (post_only_inside bid ask)
         (hard_cap_derisk cfg vol_dec book_id account inv bid ask).
Proof.
  unfold hard_cap_derisk.
  destruct (_open_orders_by_side (orders account)) as [bids_open asks_open].
  cbv zeta.
  repeat match goal with
         | |- context [if ?c then _ else _] => destruct c
         | |- context [match ?l with [] => _ | _ :: _ => _ end] => destruct l
         end; cbn [map app]; repeat constructor.
Qed.

(** X1.  Every order L3MarketMakerAgent sends with [postOnly=True] for a
    book is priced strictly inside the opposite touch of that book: its bids
    are below the best ask and its asks above the best bid, in every regime
    of the body and whatever the account and the stored state. *)
Theorem L3_post_only_inside_touch cfg su book_id book account bs cid
        bid ask bidq0 askq0 :
  _best_levels book = Some (bid, ask, bidq0, askq0) ->
  Forall (post_only_inside bid ask)
         (snd (book_body cfg su book_id book account bs cid)).
Proof.
  intros Hl. unfold book_body. cbv zeta.
  destruct (in_cooldown (timestamp su) bs); [apply cancel_all_inside|].
  rewrite Hl.
  destruct (Py.leb (ask - bid) 0); [constructor|].
  destruct (Py.ltb (inv_cap_base cfg) (Qabs (inventory account bs)));
    [apply hard_cap_derisk_inside|].
  match goal with
  | |- context [manage_orders ?c ?t ?n ?p ?b ?a ?q ?i] =>
      pose proof (manage_orders_inside c t n p b a q i bid ask) as Hm;
      destruct (manage_orders c t n p b a q i) as [cid' instrs]
  end.
  cbn [snd] in Hm.
  match type of Hm with
  | bid_px ?q < _ -> _ =>
      match q with
      | compute_quote ?c ?pd ?vd ?bk ?ac ?b ?a ?bq ?aq ?im ?ti ?iv ?tx =>
          pose proof (compute_quote_inside_touch c pd vd bk ac b a bq aq im ti iv tx)
            as (H1 & H2 & _)
      end
  end.
  cbv zeta in H1, H2. specialize (Hm H1 H2).
  destruct (loss_breach _ _ _ _); cbn [snd]; [|exact Hm].
  apply Forall_app. split; [exact Hm | apply cancel_all_inside].
Qed.

Lemma L3_post_only_inside_touch_witness :
  Forall (post_only_inside 99.0 101.0)
         (snd (book_body default_config (l3_tick sample_book 5000) 1 sample_book
                         (account 5.0 1000.0 []) l3_seen_state 10000)).
Proof.
  apply (L3_post_only_inside_touch default_config (l3_tick sample_book 5000) 1
           sample_book (account 5.0 1000.0 []) l3_seen_state 10000
           99.0 101.0 2.0 2.0).
  reflexivity.
Defined.

End L3Quotes.

Section L3Cooldown.

Import L3MarketMakerAgent.

(** X2.  A tick on which the signals are toxic starts a cooldown: the book
    state leaves the body with [cooldown_until] one cooldown after the tick,
    and on every later tick before that time the body only cancels the
    priced orders of the account: it places nothing and leaves the state and
    the client id as they are, whatever the book and the account then are. *)
Theorem L3_toxic_tick_starts_cooldown cfg su book_id book account bs cid
        bid ask bidq0 askq0 :
  in_cooldown (timestamp su) bs = false ->
  _best_levels book = Some (bid, ask, bidq0, askq0) ->
  bid < ask ->
  is_toxic cfg (step_vol cfg bs (0.5 * (bid + ask)))
           (_depth_imbalance book (Z.max 1 (depth_levels cfg)))
           (_trade_imbalance book) = true ->
  let bs' := fst (fst (book_body cfg su book_id book account bs cid)) in
  let until :=
    (timestamp su + Py.int (cooldown_mult cfg * inject_Z (publish_interval su)))%Z in
  cooldown_until bs' = until
  /\ forall su' book' account' cid',
       (timestamp su' < until)%Z ->
       book_body cfg su' book_id book' account' bs' cid'
       = (bs', cid', cancel_all book_id account').
Proof.
  intros Hcd Hl Hs Htox. cbv zeta.
  assert (Hu : cooldown_until
                 (fst (fst (book_body cfg su book_id book account bs cid)))
               = (timestamp su
                  + Py.int (cooldown_mult cfg * inject_Z (publish_interval su)))%Z).
  { unfold book_body. cbv zeta. rewrite Hcd, Hl.
    assert (H1 : Py.leb (ask - bid) 0 = false) by (apply leb_false; lra).
    rewrite H1, Htox.
    destruct (Py.ltb (inv_cap_base cfg) (Qabs (inventory account bs)));
      [reflexivity|].
    destruct (manage_orders _ _ _ _ _ _ _ _) as [c i].
    destruct (loss_breach _ _ _ _); reflexivity. }
  split; [exact Hu|].
  intros su' book' account' cid' Hnow.
  unfold book_body at 1. cbv zeta.
  assert (Hin : in_cooldown (timestamp su')
                  (fst (fst (book_body cfg su book_id book account bs cid)))
                = true).
  { unfold in_cooldown. rewrite Hu.
    apply orb_true_intro. left. apply Z.ltb_lt. exact Hnow. }
  rewrite Hin. reflexivity.
Qed.

Lemma L3_toxic_tick_starts_cooldown_witness :
  snd (book_body default_config (l3_tick sample_book 6000) 1 sample_book
                 l3_quoted_account
                 (fst (fst (book_body default_config (l3_tick sample_book 5000) 1
                                      sample_book l3_quoted_account
                                      l3_volatile_state 10000)))
                 10001)
  = cancel_all 1 l3_quoted_account.
Proof.
  pose proof (L3_toxic_tick_starts_cooldown default_config
                (l3_tick sample_book 5000) 1 sample_book l3_quoted_account
                l3_volatile_state 10000 99.0 101.0 2.0 2.0) as H.
  cbv zeta in H.
  specialize (H ltac:(reflexivity) ltac:(reflexivity) ltac:(reflexivity)
                ltac:(vm_compute; reflexivity)).
  destruct H as [_ H].
  rewrite (H (l3_tick sample_book 6000) sample_book l3_quoted_account 10001%Z
             ltac:(vm_compute; reflexivity)).
  reflexivity.
Defined.

End L3Cooldown.

Section L3Baseline.

Import L3MarketMakerAgent.

Lemma kept_baseline_refl bs : kept_baseline bs bs.
Proof. split; auto. Qed.

Lemma kept_baseline_trans a b c :
  kept_baseline a b -> kept_baseline b c -> kept_baseline a c.
Proof. intros [H1 H2] [H3 H4]. split; auto. Qed.

Lemma first_pass_step_baseline accts store b book k bs :
  store !! k = Some bs ->
  exists bs', fst (first_pass_step accts store b book) !! k = Some bs'
              /\ kept_baseline bs bs'.
Proof.
  intros Hk. destruct (decide (k = b)) as [->|Hne].
  - unfold first_pass_step. rewrite Hk. cbv beta iota. rewrite Hk.
    cbn [default from_option Datatypes.id].
    destruct (dict_get accts b);
      [|exists bs; split; [exact Hk | apply kept_baseline_refl]].
    destruct (_best_levels book) as [[[[bid ask] bq] aq]|];
      [|exists bs; split; [exact Hk | apply kept_baseline_refl]].
    cbn [fst]. rewrite lookup_insert_eq. eexists. split; [reflexivity|].
    split; cbn [wealth0 base_target]; intros x Hx; rewrite Hx; reflexivity.
  - exists bs. rewrite l3_first_pass_partition by assumption.
    split; [exact Hk | apply kept_baseline_refl].
Qed.

Lemma first_pass_baseline accts bks store k bs :
  store !! k = Some bs ->
  exists bs', fst (fst (first_pass accts bks store)) !! k = Some bs'
              /\ kept_baseline bs bs'.
Proof.
  unfold first_pass. generalize 0.0 at 1 as p. generalize 0.0 at 1 as w.
  revert store bs. induction bks as [|[b book] bks IH]; intros store bs w p Hk.
  - exists bs. split; [exact Hk | apply kept_baseline_refl].
  - cbn [fold_left].
    destruct (first_pass_step_baseline accts store b book k bs Hk)
      as (bs1 & H1 & K1).
    destruct (first_pass_step accts store b book) as [store' [[pnl w0]|]];
      cbn [fst] in H1;
      (edestruct (IH store' bs1) as (bs2 & H2 & K2); [exact H1|]);
      exists bs2; (split; [exact H2 | eapply kept_baseline_trans; eassumption]).
Qed.

Lemma book_body_baseline cfg su b book account bs cid :
  kept_baseline bs (fst (fst (book_body cfg su b book account bs cid))).
Proof.
  unfold book_body. cbv zeta.
  destruct (in_cooldown _ _); [apply kept_baseline_refl|].
  destruct (_best_levels book) as [[[[bid ask] bq] aq]|];
    [|apply kept_baseline_refl].
  destruct (Py.leb _ 0); [apply kept_baseline_refl|].
  destruct (Py.ltb (inv_cap_base cfg) _); [split; auto|].
  destruct (manage_orders _ _ _ _ _ _ _ _) as [c i].
  destruct (loss_breach _ _ _ _); split; auto.
Qed.

Lemma book_step_baseline cfg su accts store cid b book k bs :
  store !! k = Some bs ->
  exists bs', fst (fst (book_step cfg su accts store cid b book)) !! k = Some bs'
              /\ kept_baseline bs bs'.
Proof.
  intros Hk. destruct (decide (k = b)) as [->|Hne].
  - unfold book_step.
    destruct (dict_get accts b) as [account|];
      [|exists bs; split; [exact Hk | apply kept_baseline_refl]].
    rewrite Hk.
    pose proof (book_body_baseline cfg su b book account bs cid) as K.
    destruct (book_body cfg su b book account bs cid) as [[bs' cid'] instrs].
    cbn [fst] in *. exists bs'. split; [apply lookup_insert_eq | exact K].
  - exists bs. rewrite l3_book_step_partition by assumption.
    split; [exact Hk | apply kept_baseline_refl].
Qed.

Lemma second_pass_baseline cfg su accts store cid k bs :
  store !! k = Some bs ->
  exists bs', fst (fst (second_pass cfg su accts store cid)) !! k = Some bs'
              /\ kept_baseline bs bs'.
Proof.
  unfold second_pass. generalize (@nil Instruction) as resp.
  generalize (books su) as bks. intros bks. revert store cid bs.
  induction bks as [|[b book] bks IH]; intros store cid bs resp Hk.
  - exists bs. split; [exact Hk | apply kept_baseline_refl].
  - cbn [fold_left].
    destruct (book_step_baseline cfg su accts store cid b book k bs Hk)
      as (bs1 & H1 & K1).
    destruct (book_step cfg su accts store cid b book) as [[store' cid'] instrs].
    cbn [fst] in H1.
    destruct (IH store' cid' bs1 (resp ++ instrs) H1) as (bs2 & H2 & K2).
    exists bs2. split; [exact H2 | eapply kept_baseline_trans; eassumption].
Qed.

(** X3.  The PnL baselines of a book are fixed when L3MarketMakerAgent first
    values the book and are never reset: a call of [respond] keeps the entry
    of every book it knows, and a [wealth0] or [base_target] that was set
    before the call has the same value after it, whether the call ends in
    the kill-switch or in quoting. *)
Theorem L3_baselines_are_kept cfg self su k bs :
  _books self !! k = Some bs ->
  exists bs', _books (fst (respond cfg self su)) !! k = Some bs'
              /\ kept_baseline bs bs'.
Proof.
  intros Hk. unfold respond.
  destruct (first_pass_baseline (accounts self) (books su) (_books self) k bs Hk)
    as (bs1 & H1 & K1).
  destruct (first_pass (accounts self) (books su) (_books self))
    as [[store1 total_pnl] total_w0].
  cbn [fst] in H1.
  destruct (kill_switch cfg total_pnl total_w0).
  - cbn [fst _books]. exists bs1. split; assumption.
  - destruct (second_pass_baseline cfg su (accounts self) store1 (_client_id self)
                                   k bs1 H1) as (bs2 & H2 & K2).
    destruct (second_pass cfg su (accounts self) store1 (_client_id self))
      as [[store2 cid] resp].
    cbn [fst _books] in *. exists bs2.
    split; [exact H2 | eapply kept_baseline_trans; eassumption].
Qed.

Lemma L3_baselines_are_kept_witness :
  exists bs',
    _books (fst (respond default_config l3_agent_in_drawdown
                         (l3_tick sample_book 5000))) !! 1%Z = Some bs'
    /\ wealth0 bs' = Some 1500.0.
Proof.
  destruct (L3_baselines_are_kept default_config l3_agent_in_drawdown
              (l3_tick sample_book 5000) 1%Z
              l3_seen_state ltac:(vm_compute; reflexivity))
    as (bs' & H & K & _).
  exists bs'. split; [exact H | apply K; reflexivity].
Defined.

End L3Baseline.

Section L3ClientIds.

Import L3MarketMakerAgent.

Lemma zseq_app (a : Z) (n m : nat) :
  zseq a n ++ zseq (a + Z.of_nat n) m = zseq a (n + m).
Proof.
  revert a. induction n as [|n IH]; intros a.
  - cbn [zseq app Nat.add]. rewrite Z.add_0_r. reflexivity.
  - cbn [zseq app Nat.add]. f_equal. rewrite <- IH. f_equal. f_equal. lia.
Qed.

Lemma client_ids_app (r1 r2 : Response) :
  client_ids (r1 ++ r2) = client_ids r1 ++ client_ids r2.
Proof. unfold client_ids. apply flat_map_app. Qed.

Lemma fresh_ids_nil cid : fresh_ids cid cid [].
Proof. split; [reflexivity | cbn; lia]. Qed.

Lemma fresh_ids_app c0 c1 c2 r1 r2 :
  fresh_ids c0 c1 r1 -> fresh_ids c1 c2 r2 -> fresh_ids c0 c2 (r1 ++ r2).
Proof.
  intros [E1 C1] [E2 C2]. unfold fresh_ids.
  rewrite client_ids_app, length_app. split.
  - rewrite E1 at 1. rewrite E2 at 1. subst c1.
    rewrite <- zseq_app. f_equal. f_equal. lia.
  - lia.
Qed.

Lemma fresh_ids_none cid resp :
  client_ids resp = [] -> fresh_ids cid cid resp.
Proof. intros E. unfold fresh_ids. rewrite E. cbn. split; [reflexivity | lia]. Qed.

Lemma cancel_all_client_ids b account : client_ids (cancel_all b account) = [].
Proof. unfold cancel_all. destruct (orders account); reflexivity. Qed.

Lemma hard_cap_derisk_client_ids cfg vd b account inv bid ask :
  client_ids (hard_cap_derisk cfg vd b account inv bid ask) = [].
Proof.
  unfold hard_cap_derisk.
  destruct (_open_orders_by_side (orders account)) as [bids_open asks_open].
  cbv zeta.
  repeat match goal with
         | |- context [if ?c then _ else _] => destruct c
         | |- context [match ?l with [] => _ | _ :: _ => _ end] => destruct l
         end; reflexivity.
Qed.

Lemma manage_orders_fresh cfg tick now pi b account q cid :
  fresh_ids cid (fst (manage_orders cfg tick now pi b account q cid))
            (snd (manage_orders cfg tick now pi b account q cid)).
Proof.
  unfold manage_orders. cbv zeta. cbn [fst snd].
  set (cancels := match lifecycle_cancel_ids cfg tick now pi account q with
                  | [] => []
                  | _ :: _ => [cancel_orders b (lifecycle_cancel_ids cfg tick now pi account q)]
                  end).
  assert (Hc : client_ids cancels = []).
  { unfold cancels. destruct (lifecycle_cancel_ids _ _ _ _ _ _); reflexivity. }
  unfold fresh_ids. rewrite !client_ids_app, Hc.
  repeat match goal with
         | |- context [if ?c then _ else _] => destruct c
         end; cbn; (split; [repeat f_equal; lia | lia]).
Qed.

Lemma book_body_fresh cfg su b book account bs cid :
  fresh_ids cid (snd (fst (book_body cfg su b book account bs cid)))
            (snd (book_body cfg su b book account bs cid)).
Proof.
  unfold book_body. cbv zeta.
  destruct (in_cooldown _ _);
    [apply fresh_ids_none, cancel_all_client_ids|].
  destruct (_best_levels book) as [[[[bid ask] bq] aq]|]; [|apply fresh_ids_nil].
  destruct (Py.leb _ 0); [apply fresh_ids_nil|].
  destruct (Py.ltb (inv_cap_base cfg) _);
    [apply fresh_ids_none, hard_cap_derisk_client_ids|].
  match goal with
  | |- context [manage_orders ?c ?t ?n ?p ?k ?a ?q ?i] =>
      pose proof (manage_orders_fresh c t n p k a q i) as Hm;
      destruct (manage_orders c t n p k a q i) as [cid' instrs]
  end.
  cbn [fst snd] in Hm.
  destruct (loss_breach _ _ _ _); cbn [fst snd]; [|exact Hm].
  eapply fresh_ids_app; [exact Hm|].
  apply fresh_ids_none, cancel_all_client_ids.
Qed.

Lemma book_step_fresh cfg su accts store cid b book :
  fresh_ids cid (snd (fst (book_step cfg su accts store cid b book)))
            (snd (book_step cfg su accts store cid b book)).
Proof.
  unfold book_step.
  destruct (dict_get accts b) as [account|]; [|apply fresh_ids_nil].
  destruct (store !! b) as [bs|]; [|apply fresh_ids_nil].
  pose proof (book_body_fresh cfg su b book account bs cid) as H.
  destruct (book_body cfg su b book account bs cid) as [[bs' cid'] instrs].
  exact H.
Qed.

Lemma second_pass_fresh cfg su accts bks store cid0 cid resp :
  fresh_ids cid0 cid resp ->
  let out :=
    fold_left
      (fun '(store, cid, resp) '(book_id, book) =>
         let '(store', cid', instrs) :=
           book_step cfg su accts store cid book_id book in
         (store', cid', resp ++ instrs))
      bks (store, cid, resp) in
  fresh_ids cid0 (snd (fst out)) (snd out).
Proof.
  revert store cid resp. induction bks as [|[b book] bks IH];
    intros store cid resp H; cbv zeta.
  - exact H.
  - cbn [fold_left].
    pose proof (book_step_fresh cfg su accts store cid b book) as Hs.
    destruct (book_step cfg su accts store cid b book) as [[store' cid'] instrs].
    cbn [fst snd] in Hs.
    apply IH. eapply fresh_ids_app; eassumption.
Qed.

Lemma second_pass_fresh_ids cfg su accts store cid :
  fresh_ids cid (snd (fst (second_pass cfg su accts store cid)))
            (snd (second_pass cfg su accts store cid)).
Proof.
  unfold second_pass.
  exact (second_pass_fresh cfg su accts (books su) store cid cid []
                           (fresh_ids_nil cid)).
Qed.

(** X4.  L3MarketMakerAgent never reuses a client order id: the ids carried
    by the orders of one response are the integers that follow the agent's
    counter, each used once and in order, and the counter ends the call at
    the last of them.  Orders sent without an id (the forced de-risking
    orders) and cancellations leave the counter alone. *)
Theorem L3_client_ids_are_fresh cfg self su :
  fresh_ids (_client_id self) (_client_id (fst (respond cfg self su)))
            (snd (respond cfg self su)).
Proof.
  unfold respond.
  destruct (first_pass (accounts self) (books su) (_books self))
    as [[store1 total_pnl] total_w0].
  destruct (kill_switch cfg total_pnl total_w0).
  - cbn [fst snd _client_id]. apply fresh_ids_none.
    unfold kill_response.
    induction (accounts self) as [|[b account] l IH]; [reflexivity|].
    cbn [flat_map]. rewrite client_ids_app, cancel_all_client_ids. exact IH.
  - pose proof (second_pass_fresh_ids cfg su (accounts self) store1
                                      (_client_id self)) as H.
    destruct (second_pass cfg su (accounts self) store1 (_client_id self))
      as [[store2 cid] resp].
    exact H.
Qed.

End L3ClientIds.

Section L3Queue.

Import L3MarketMakerAgent.

Lemma ahead_of_bounds (id : Z) (os : list LevelOrder) (acc : Q) :
  Forall (fun o => 0 <= lo_quantity o) os ->
  acc <= ahead_of id os acc
  /\ ahead_of id os acc <= acc + Py.sum (map lo_quantity os).
Proof.
  revert acc. induction os as [|o os IH]; intros acc H; cbn [ahead_of map].
  - unfold Py.sum. cbn. lra.
  - inversion H as [|? ? Ho Hos]; subst.
    unfold Py.sum. cbn [fold_left]. rewrite sum_from.
    fold (Py.sum (map lo_quantity os)).
    pose proof (sum_nonneg (map lo_quantity os)
                  ltac:(apply Forall_map; exact Hos)) as Hs.
    destruct (Z.eqb (lo_id o) id).
    + lra.
    + destruct (IH (acc + lo_quantity o) Hos) as [H1 H2]. lra.
Qed.

Lemma ahead_of_absent (id : Z) (os : list LevelOrder) (acc : Q) :
  ~ In id (map lo_id os) ->
  ahead_of id os acc == acc + Py.sum (map lo_quantity os).
Proof.
  revert acc. induction os as [|o os IH]; intros acc H; cbn [ahead_of map].
  - unfold Py.sum. cbn. lra.
  - cbn [map In] in H.
    destruct (Z.eqb_spec (lo_id o) id) as [E|E]; [exfalso; auto|].
    rewrite IH by auto. unfold Py.sum. cbn [fold_left].
    rewrite (sum_from _ (0 + lo_quantity o)). lra.
Qed.

Lemma ahead_of_queued_before (id : Z) (os : list LevelOrder) (acc : Q) :
  ahead_of id os acc == acc + Py.sum (map lo_quantity (queued_before id os)).
Proof.
  revert acc. induction os as [|o os IH]; intros acc;
    cbn [ahead_of queued_before map].
  - unfold Py.sum. cbn. lra.
  - destruct (Z.eqb (lo_id o) id).
    + unfold Py.sum. cbn. lra.
    + rewrite IH. cbn [map]. unfold Py.sum. cbn [fold_left].
      rewrite (sum_from _ (0 + lo_quantity o)). lra.
Qed.

Lemma queued_before_absent (id : Z) (os : list LevelOrder) :
  ~ In id (map lo_id os) -> queued_before id os = os.
Proof.
  induction os as [|o os IH]; intros H; cbn [queued_before]; [reflexivity|].
  cbn [map In] in H.
  destruct (Z.eqb_spec (lo_id o) id) as [E|E]; [exfalso; auto|].
  rewrite IH by auto. reflexivity.
Qed.

Lemma queue_ahead_levels_bounds levels price id qa :
  queue_ahead_levels levels price (Some id) = Some qa ->
  exists lvl os,
    In lvl levels /\ lvl_price lvl == price /\ lvl_orders lvl = Some os
    /\ queue_ahead_levels levels price None = Some (Py.sum (map lo_quantity os))
    /\ qa == Py.sum (map lo_quantity (queued_before id os)).
Proof.
  induction levels as [|lvl rest IH]; cbn [queue_ahead_levels];
    [discriminate|].
  destruct (Py.eqb (lvl_price lvl) price) eqn:Ep; cbn [negb].
  - py_hyps. destruct (lvl_orders lvl) as [[|o os]|] eqn:Eo; try discriminate.
    pose proof (ahead_of_queued_before id (o :: os) 0.0) as H1.
    remember (ahead_of id (o :: os) 0.0) as A eqn:EA. clear EA.
    intros H. assert (EA : A = qa) by congruence. subst qa.
    exists lvl, (o :: os).
    split; [left; reflexivity|]. split; [exact Ep|]. split; [exact Eo|].
    split; [reflexivity|]. rewrite H1. lra.
  - intros H. destruct (IH H) as (l & os & Hin & Hp & Ho & Hq & Ha).
    exists l, os. split; [right; exact Hin|]. repeat split; assumption.
Qed.

Lemma In_slice_to {A} (l : list A) (d : Z) (x : A) :
  In x (Py.slice_to l d) -> In x l.
Proof.
  intros H.
  assert (HF : Forall (fun y => In y l) l)
    by (apply List.Forall_forall; auto).
  pose proof (Forall_slice_to _ l d HF) as HS.
  rewrite List.Forall_forall in HS. exact (HS x H).
Qed.

(** X5.  The queue ahead of an own order, as [_queue_ahead] reports it, is
    read off one level of the named side at the asked price: it is the sum
    of the quantities of the orders queued at that level before the own
    order, of all of them when the level does not hold the order, and 0
    when the order heads the queue.  When the detailed quantities are not
    negative it lies between 0 and the whole queue of the level, which is
    the value reported when no own order is named. *)
Theorem L3_queue_ahead_bounds book side price id qa :
  _queue_ahead book side price (Some id) = Some qa ->
  exists lvl os,
    In lvl (side_levels book side)
    /\ lvl_price lvl == price /\ lvl_orders lvl = Some os
    /\ _queue_ahead book side price None = Some (Py.sum (map lo_quantity os))
    /\ qa == Py.sum (map lo_quantity (queued_before id os))
    /\ (~ In id (map lo_id os) -> qa == Py.sum (map lo_quantity os))
    /\ (forall o rest, os = o :: rest -> lo_id o = id -> qa == 0)
    /\ (nonneg_level_orders (side_levels book side) ->
        0 <= qa <= Py.sum (map lo_quantity os)).
Proof.
  unfold _queue_ahead. intros H.
  destruct (queue_ahead_levels_bounds _ _ _ _ H)
    as (lvl & os & Hin & Hp & Ho & Hq & Ha).
  apply In_slice_to in Hin.
  exists lvl, os.
  split; [destruct side; exact Hin|]. split; [exact Hp|]. split; [exact Ho|].
  split; [exact Hq|]. split; [exact Ha|]. split; [|split].
  - intros Hnot. rewrite Ha, (queued_before_absent id os Hnot). reflexivity.
  - intros o rest E Hid. rewrite Ha, E. cbn [queued_before].
    rewrite Hid, Z.eqb_refl. reflexivity.
  - intros Hn. unfold nonneg_level_orders in Hn.
    rewrite List.Forall_forall in Hn.
    assert (Hl : Forall (fun o => 0 <= lo_quantity o) os).
    { specialize (Hn lvl ltac:(destruct side; exact Hin)).
      rewrite Ho in Hn. exact Hn. }
    pose proof (ahead_of_bounds id os 0 Hl) as [B1 B2].
    pose proof (ahead_of_queued_before id os 0) as B3.
    rewrite Ha. lra.
Qed.

Lemma L3_queue_ahead_bounds_witness :
  exists lvl os,
    In lvl (bids detailed_book)
    /\ lvl_orders lvl = Some os
    /\ _queue_ahead detailed_book BUY 99.0 None
       = Some (Py.sum (map lo_quantity os))
    /\ 0.50 == Py.sum (map lo_quantity (queued_before 8 os))
    /\ 0 <= 0.50 <= Py.sum (map lo_quantity os).
Proof.
  destruct (L3_queue_ahead_bounds detailed_book BUY 99.0 8 0.50
              ltac:(vm_compute; reflexivity))
    as (lvl & os & H1 & _ & H2 & H3 & H4 & _ & _ & H5).
  exists lvl, os.
  split; [exact H1|]. split; [exact H2|]. split; [exact H3|].
  split; [exact H4|].
  apply H5. repeat constructor; vm_compute; discriminate.
Defined.

End L3Queue.

(* ===================================================================== *)
(** * Further facts about the numerics *)
(* ===================================================================== *)

Lemma np_clip_bounds (x lo hi : Q) :
  np_clip x lo hi <= hi /\ (lo <= hi -> lo <= np_clip x lo hi).
Proof. unfold np_clip. split; [|intros H]; q_atoms; lra. Qed.

Lemma np_clip_mono (x y lo hi : Q) :
  x <= y -> np_clip x lo hi <= np_clip y lo hi.
Proof. intros H. unfold np_clip. q_atoms; lra. Qed.

Lemma np_clip_inside (x lo hi : Q) :
  lo <= x -> x <= hi -> np_clip x lo hi == x.
Proof. intros H1 H2. unfold np_clip. q_atoms; lra. Qed.




(** [int] is monotone. *)
Lemma int_mono (x y : Q) : x <= y -> (Py.int x <= Py.int y)%Z.
Proof.
  destruct x as [a b], y as [c d]. unfold Qle, Py.int. cbn [Qnum Qden].
  intros H.
  rewrite <- (Z.quot_mul_cancel_r a (Zpos b) (Zpos d)) by lia.
  rewrite <- (Z.quot_mul_cancel_r c (Zpos d) (Zpos b)) by lia.
  rewrite (Z.mul_comm (Zpos d) (Zpos b)).
  apply Z.quot_le_mono; lia.
Qed.

Lemma slice_last_length {A} (l : list A) (n : Z) :
  (0 < n)%Z -> (Z.of_nat (length (Py.slice_last l n)) <= n)%Z.
Proof.
  intros Hn. unfold Py.slice_last.
  destruct (Z.eqb_spec n 0) as [E|_]; [lia|].
  destruct (Z.ltb_spec 0 n) as [_|E]; [|lia].
  rewrite length_skipn. lia.
Qed.

Lemma slice_last_last {A} (l : list A) (x : A) (n : Z) :
  (0 < n)%Z -> List.last (Py.slice_last (l ++ [x]) n) x = x.
Proof.
  intros Hn. unfold Py.slice_last.
  destruct (Z.eqb_spec n 0) as [E|_]; [lia|].
  destruct (Z.ltb_spec 0 n) as [_|E]; [|lia].
  rewrite length_app. cbn [length].
  assert (Hk : (length l + 1 - Z.to_nat n <= length l)%nat) by lia.
  rewrite skipn_app.
  replace (length l + 1 - Z.to_nat n - length l)%nat with 0%nat by lia.
  cbn [skipn]. apply List.last_last.
Qed.

Lemma lookup2_store2_eq {V} (dflt : V) d v b x :
  lookup2 dflt (store2 d v b x) v b = x.
Proof.
  unfold lookup2, store2. rewrite lookup_insert_eq. cbn.
  rewrite lookup_insert_eq. reflexivity.
Qed.

Lemma lookup2_store2_ne {V} (dflt : V) d v b x v' b' :
  (v', b') <> (v, b) ->
  lookup2 dflt (store2 d v b x) v' b' = lookup2 dflt d v' b'.
Proof.
  intros Hne. unfold lookup2, store2.
  destruct (decide (v' = v)) as [->|Hv].
  - rewrite lookup_insert_eq. cbn.
    rewrite lookup_insert_ne by congruence. reflexivity.
  - rewrite lookup_insert_ne by congruence. reflexivity.
Qed.

(* ===================================================================== *)
(** * AdaptiveMarketMakerAgent: quotes, expiry, tracking and responses *)
(* ===================================================================== *)

Section AdaptiveQuotes.

Import AdaptiveMarketMakerAgent.



(** The call raises exactly when [max_inventory] is 0. *)
Lemma Adaptive_quotes_raise p midquote volatility inventory_ imbalance pd vd :
  (max_inventory (limits p) == 0
   -> calculate_optimal_quotes p midquote volatility inventory_ imbalance pd vd
      = Raise ZeroDivisionError)
  /\ (~ max_inventory (limits p) == 0
      -> exists r,
           calculate_optimal_quotes p midquote volatility inventory_ imbalance
                                    pd vd = Ok r).
Proof.
  unfold calculate_optimal_quotes. cbv zeta. split; intros H.
  - apply eqb_true in H. rewrite H. reflexivity.
  - apply eqb_false in H. rewrite H.
    match goal with
    | |- context [let '(_, _) := ?X in _] => destruct X as [bs0 as0]
    end.
    eexists. reflexivity.
Qed.

End AdaptiveQuotes.

Section AdaptiveExpiry.

Import AdaptiveMarketMakerAgent.

(** X7.  The adaptive expiry stays within its bounds and does not grow with
    the volatility: with [min_expiry <= max_expiry] it lies between the two,
    and with a non-negative [base_expiry] a higher volatility never gives a
    longer expiry. *)
Theorem Adaptive_expiry_bounded_and_antitone p v1 v2 :
  (min_expiry p <= max_expiry p)%Z ->
  (0 <= base_expiry p)%Z ->
  v1 <= v2 ->
  (min_expiry p <= calculate_adaptive_expiry p v1 <= max_expiry p)%Z
  /\ (calculate_adaptive_expiry p v2 <= calculate_adaptive_expiry p v1)%Z.
Proof.
  intros Hb Hbase Hv. unfold calculate_adaptive_expiry. cbv zeta.
  split; [lia|].
  assert (Hc : np_clip (v1 / 0.01) 0.1 5.0 <= np_clip (v2 / 0.01) 0.1 5.0).
  { apply np_clip_mono.
    assert (E1 : v1 / 0.01 == v1 * 100) by (field).
    assert (E2 : v2 / 0.01 == v2 * 100) by (field).
    lra. }
  pose proof (np_clip_bounds (v1 / 0.01) 0.1 5.0) as [_ L1].
  pose proof (np_clip_bounds (v2 / 0.01) 0.1 5.0) as [_ L2].
  specialize (L1 ltac:(lra)). specialize (L2 ltac:(lra)).
  set (c1 := np_clip (v1 / 0.01) 0.1 5.0) in *.
  set (c2 := np_clip (v2 / 0.01) 0.1 5.0) in *.
  assert (Hf : 1.0 / c2 <= 1.0 / c1).
  { apply Qle_shift_div_l; [lra|].
    assert (E : 1.0 / c2 * c1 == c1 / c2) by (field; lra).
    rewrite E. apply Qle_shift_div_r; lra. }
  assert (HB : 0 <= inject_Z (base_expiry p)).
  { rewrite Zle_Qle in Hbase. exact Hbase. }
  assert (Hm : inject_Z (base_expiry p) * (1.0 / c2)
               <= inject_Z (base_expiry p) * (1.0 / c1)).
  { clearbody c1 c2. set (f1 := 1.0 / c1) in *. set (f2 := 1.0 / c2) in *.
    clearbody f1 f2. nra. }
  apply int_mono in Hm. lia.
Qed.

Lemma Adaptive_expiry_bounded_and_antitone_witness :
  (calculate_adaptive_expiry (default_params 0) 0.02
   <= calculate_adaptive_expiry (default_params 0) 0.01)%Z.
Proof.
  apply (Adaptive_expiry_bounded_and_antitone (default_params 0) 0.01 0.02);
    vm_compute; discriminate.
Defined.

End AdaptiveExpiry.

Section AdaptiveTracking.

Import AdaptiveMarketMakerAgent.

(** X8.  [update_state_tracking] keeps the midquote history of a key short
    and current: with a positive [volatility_lookback] the history holds at
    most twice that many midquotes after the call and ends with the new
    one, which is also the stored last midquote; the histories and last
    midquotes of the other keys are untouched. *)
Theorem Adaptive_tracking_is_bounded p self v b midquote inventory_ :
  (0 < volatility_lookback p)%Z ->
  let self' := update_state_tracking p self v b midquote inventory_ in
  let history := lookup2 [] (midquote_history self') v b in
  (Z.of_nat (length history) <= 2 * volatility_lookback p)%Z
  /\ List.last history midquote = midquote
  /\ lookup2 0.0 (last_midquote self') v b = midquote
  /\ forall v' b', (v', b') <> (v, b) ->
       lookup2 [] (midquote_history self') v' b'
       = lookup2 [] (midquote_history self) v' b'
       /\ lookup2 0.0 (last_midquote self') v' b'
          = lookup2 0.0 (last_midquote self) v' b'.
Proof.
  intros HL. cbv zeta. unfold update_state_tracking. cbv zeta.
  cbn [midquote_history last_midquote].
  rewrite !lookup2_store2_eq.
  set (old := lookup2 [] (midquote_history self) v b).
  split; [|split; [|split]].
  - destruct (Z.ltb_spec (volatility_lookback p * 2)
                         (Z.of_nat (length (old ++ [midquote])))) as [H|H].
    + pose proof (slice_last_length (old ++ [midquote])
                    (volatility_lookback p * 2) ltac:(lia)). lia.
    + lia.
  - destruct (volatility_lookback p * 2 <? _)%Z.
    + apply slice_last_last. lia.
    + apply List.last_last.
  - reflexivity.
  - intros v' b' Hne. rewrite !lookup2_store2_ne by assumption. split; reflexivity.
Qed.

Lemma Adaptive_tracking_is_bounded_witness :
  (Z.of_nat (length (lookup2 [] (midquote_history
                                   (update_state_tracking (default_params 0) initial
                                      "A" 1 100.0 1.0)) "A" 1))
   <= 2 * 10)%Z.
Proof.
  pose proof (Adaptive_tracking_is_bounded (default_params 0) initial "A" 1
                100.0 1.0 ltac:(reflexivity)) as H.
  cbv zeta in H. exact (proj1 H).
Defined.

End AdaptiveTracking.

Section AdaptiveRespond.

Import AdaptiveMarketMakerAgent.

Variable np_std_log_returns : list Q -> Q.

Lemma rebalancing_order_allowed cfg book_id inventory_ midquote pd vd lo hi :
  Forall (adaptive_order lo hi)
         (place_inventory_rebalancing_order cfg book_id inventory_ midquote pd vd).
Proof.
  unfold place_inventory_rebalancing_order.
  destruct (Py.ltb (Qabs inventory_) (max_inventory cfg)); [constructor|].
  destruct (Py.ltb (max_inventory cfg) inventory_); repeat constructor.
Qed.

Lemma adaptive_body_allowed p su accounts_ self book_id book :
  (min_expiry p <= max_expiry p)%Z ->
  match snd (book_body np_std_log_returns p su accounts_ self book_id book) with
  | Ok instrs => Forall (adaptive_order (min_expiry p) (max_expiry p)) instrs
  | Raise _ => True
  end.
Proof.
  intros Hb. unfold book_body.
  destruct (bids book) as [|b bs]; [constructor|].
  destruct (asks book) as [|a as_]; [constructor|].
  destruct (dict_get accounts_ book_id) as [account|]; [|constructor].
  cbn [calculate_inventory]. cbv zeta. cbn [negb check_volume_limit].
  match goal with
  | |- context [calculate_optimal_quotes ?a ?b ?c ?d ?e ?f ?g] =>
      destruct (calculate_optimal_quotes a b c d e f g)
        as [[[[bid_price ask_price] bid_size] ask_size]|e']
  end; [|exact I].
  cbn [snd]. apply Forall_app. split; [|apply rebalancing_order_allowed].
  unfold place_market_making_orders.
  assert (He : forall v,
             (min_expiry p <= calculate_adaptive_expiry p v <= max_expiry p)%Z).
  { intros v. unfold calculate_adaptive_expiry. cbv zeta. lia. }
  repeat constructor; apply He.
Qed.

(** X9.  AdaptiveMarketMakerAgent only ever sends limit orders with
    self-trade prevention [CANCEL_OLDEST]: postOnly quotes whose expiry lies
    between [min_expiry] and [max_expiry], and immediate-or-cancel
    rebalancing orders.  It never cancels and never sends a market order,
    whatever the stores, the books and the accounts. *)
Theorem Adaptive_sends_only_expiring_quotes p self su :
  (min_expiry p <= max_expiry p)%Z ->
  Forall (adaptive_order (min_expiry p) (max_expiry p))
         (snd (respond np_std_log_returns p self su)).
Proof.
  intros Hb. unfold respond.
  destruct (accounts su) as [[|x accts]|]; try constructor.
  destruct (dict_get (x :: accts) (uid p)) as [accounts_|]; [|constructor].
  assert (H : forall bks acc,
             Forall (adaptive_order (min_expiry p) (max_expiry p)) (snd acc) ->
             Forall (adaptive_order (min_expiry p) (max_expiry p))
                    (snd (fold_left (respond_step np_std_log_returns p su accounts_)
                                    bks acc))).
  { induction bks as [|kb bks IH]; intros [s r] Hacc; [exact Hacc|].
    cbn [fold_left]. apply IH. unfold respond_step.
    pose proof (adaptive_body_allowed p su accounts_ s (fst kb) (snd kb) Hb) as Hs.
    destruct (book_body np_std_log_returns p su accounts_ s (fst kb) (snd kb))
      as [s' [instrs|e]]; cbn [snd] in *.
    - apply Forall_app. split; assumption.
    - exact Hacc. }
  apply H. constructor.
Qed.

End AdaptiveRespond.

Lemma Adaptive_sends_only_expiring_quotes_witness :
  Forall (adaptive_order 10000000000 60000000000)
         (snd (AdaptiveMarketMakerAgent.respond
                 np_std_unreached (AdaptiveMarketMakerAgent.default_params 0)
                 AdaptiveMarketMakerAgent.initial adaptive_tick)).
Proof.
  apply (Adaptive_sends_only_expiring_quotes np_std_unreached
           (AdaptiveMarketMakerAgent.default_params 0)
           AdaptiveMarketMakerAgent.initial adaptive_tick).
  vm_compute. discriminate.
Defined.

(* ===================================================================== *)
(** * DominantImbalanceMM: instruction count and one-sided quoting *)
(* ===================================================================== *)

Section DominantBody.

Import DominantImbalanceMM.

Lemma place_shape cfg book_id qty b a inv informed flow e :
  let resp := place cfg book_id qty b a inv informed flow e in
  (length resp <= 2)%nat
  /\ forall i, In i resp -> exists d px, i = gtt_order book_id d qty px e.
Proof.
  cbv zeta. unfold place.
  repeat match goal with
         | |- context [if ?c then _ else _] => destruct c
         end; (split; [cbn; lia|]);
    intros i Hi; cbn in Hi;
    repeat destruct Hi as [<-|Hi]; try contradiction; eexists _, _; reflexivity.
Qed.

(** X10.  DominantImbalanceMM keeps its instruction count minimal: for one
    book on one tick the body sends nothing, or one cancellation of all open
    orders and nothing else, or at most two limit orders and no
    cancellation. *)
Theorem Dominant_at_most_two_instructions p su accounts prev_mid last_fill
        sigma log_return book_id book instrs :
  book_body p su accounts prev_mid last_fill sigma log_return book_id book
  = Returns instrs ->
  (length instrs <= 2)%nat
  /\ (forall b ids, In (cancel_orders b ids) instrs ->
                    instrs = [cancel_orders b ids])
  /\ (forall i, is_placement i = true -> In i instrs ->
                Forall (fun j => is_placement j = true) instrs).
Proof.
  assert (Hnil : (length (@nil Instruction) <= 2)%nat
                 /\ (forall b ids, In (cancel_orders b ids) [] ->
                                   [] = [cancel_orders b ids])
                 /\ (forall i, is_placement i = true -> In i [] ->
                               Forall (fun j => is_placement j = true) [])).
  { split; [cbn; lia|]. split; intros; contradiction. }
  unfold book_body. cbv zeta.
  destruct (bids book) as [|b bs];
    [intros H; inversion H; subst; exact Hnil|].
  destruct (asks book) as [|a as_];
    [intros H; inversion H; subst; exact Hnil|].
  destruct (dict_get accounts book_id) as [account|]; [|discriminate].
  match goal with
  | |- context [if ?c then Returns [] else _] => destruct c
  end; [intros H; inversion H; subst; exact Hnil|].
  destruct (Py.leb (lvl_price a) (lvl_price b));
    [intros H; inversion H; subst; exact Hnil|].
  match goal with
  | |- context [if ?c then Raises _ else _] => destruct c
  end; [discriminate|].
  match goal with
  | |- context [match ?X with Raises _ => _ | Returns _ => _ end] =>
      destruct X as [informed|e]
  end; [|discriminate].
  match goal with
  | |- context [if ?c then Returns [] else _] => destruct c
  end; [intros H; inversion H; subst; exact Hnil|].
  match goal with
  | |- context [if ?c then Returns [cancel_orders _ _] else _] => destruct c
  end.
  - intros H. inversion H; subst. split; [cbn; lia|]. split.
    + intros b0 ids [E|[]]. inversion E; subst. reflexivity.
    + intros i Hp [<-|[]]. discriminate.
  - intros H. inversion H; subst. clear H. unfold quote_book.
    destruct (maker_quotes _ _ _ _ _ _) as [[bid_px ask_px]|]; [|exact Hnil].
    match goal with
    | |- context [place ?c ?k ?q ?x ?y ?i ?f ?fl ?e] =>
        pose proof (place_shape c k q x y i f fl e) as [Hlen Hshape];
        set (resp := place c k q x y i f fl e) in *
    end.
    split; [exact Hlen|]. split.
    + intros b0 ids Hin. destruct (Hshape _ Hin) as (d & px & E). discriminate.
    + intros i _ _. apply List.Forall_forall. intros j Hj.
      destruct (Hshape _ Hj) as (d & px & ->). reflexivity.
Qed.

Lemma Dominant_at_most_two_instructions_witness :
  exists instrs,
    book_body default_params dominant_tick [(1%Z, account 0.0 2000.0 [])]
              None 0 0 0 1 sample_book = Returns instrs
    /\ (length instrs <= 2)%nat.
Proof.
  eexists. split; [vm_compute; reflexivity|].
  refine (proj1 (Dominant_at_most_two_instructions default_params dominant_tick
                   [(1%Z, account 0.0 2000.0 [])] None 0 0 0 1 sample_book _ _)).
  vm_compute. reflexivity.
Defined.

(** X11.  One-sided quoting of DominantImbalanceMM never adds to the
    position: once the inventory ratio reaches the positive one-sided
    threshold in absolute value, the quotes of the book are a single order,
    on the side that reduces the inventory. *)
Theorem Dominant_one_sided_reduces_inventory cfg d book_id bb ba r half qty
        inv_ratio informed flow e :
  0 < inv_one_sided_threshold cfg ->
  inv_one_sided_threshold cfg <= Qabs inv_ratio ->
  let resp := quote_book cfg d book_id bb ba r half qty inv_ratio informed flow e in
  (length resp <= 1)%nat
  /\ forall i, In i resp -> places (risk_increasing inv_ratio) book_id i = false.
Proof.
  intros Hthr Hinv. cbv zeta. unfold quote_book.
  destruct (maker_quotes _ _ _ _ _ _) as [[bid_px ask_px]|];
    [|split; [cbn; lia | intros i []]].
  unfold place, risk_increasing.
  assert (H1 : Py.leb (inv_one_sided_threshold cfg) (Qabs inv_ratio) = true)
    by (apply leb_true; assumption).
  rewrite H1. cbn [orb].
  destruct (Py.ltb 0.0 inv_ratio) eqn:Hpos; py_hyps.
  - assert (H2 : Py.ltb 0 inv_ratio = true) by (apply ltb_true; lra).
    rewrite H2.
    split; [cbn; lia|]. intros i [<-|[]]. cbn. apply andb_false_r.
  - assert (H2 : Py.ltb 0 inv_ratio = false) by (apply ltb_false; lra).
    rewrite H2.
    destruct (Py.ltb inv_ratio 0.0) eqn:Hneg; py_hyps.
    + split; [cbn; lia|]. intros i [<-|[]]. cbn. apply andb_false_r.
    + exfalso. destruct (Qabs_cases inv_ratio) as [[? E]|[? E]]; lra.
Qed.

Lemma Dominant_one_sided_reduces_inventory_witness :
  (length (quote_book default_config 2 1 99.0 101.0 100.0 1.0 0.1 1.0 0 0 1000)
   <= 1)%nat.
Proof.
  refine (proj1 (Dominant_one_sided_reduces_inventory default_config 2 1
                   99.0 101.0 100.0 1.0 0.1 1.0 0 0 1000 _ _));
    vm_compute; try reflexivity; discriminate.
Defined.

End DominantBody.

(* ===================================================================== *)
(** * Signals of the other agents: depth and trade imbalance *)
(* ===================================================================== *)

Lemma fold_quantities (ls : list Level) (a : Q) :
  fold_left (fun acc lvl => acc + lvl_quantity lvl) ls a
  == a + Py.sum (map lvl_quantity ls).
Proof.
  revert a. induction ls as [|l ls IH]; intros a; cbn [fold_left map].
  - unfold Py.sum. cbn. lra.
  - rewrite IH. unfold Py.sum. cbn [fold_left].
    rewrite (sum_from _ (0 + lvl_quantity l)). lra.
Qed.

Lemma fold_quantities_nonneg (ls : list Level) :
  Forall (fun l => 0 <= lvl_quantity l) ls ->
  0 <= fold_left (fun acc lvl => acc + lvl_quantity lvl) ls 0.0.
Proof.
  intros H. rewrite fold_quantities.
  pose proof (sum_nonneg (map lvl_quantity ls) ltac:(apply Forall_map; exact H)).
  lra.
Qed.

Lemma eps8_pos : 0 < 1e-8.
Proof. reflexivity. Qed.

Lemma ratio_in_range (b a : Q) :
  0 <= b -> 0 <= a -> 0 < b + a -> -1 <= (b - a) / (b + a) <= 1.
Proof. intros Hb Ha Hp. apply ratio_bounds; try assumption. lra. Qed.

(** X12.  The depth imbalances of L3MarketMakerAgent, DominantImbalanceMM,
    SmartOrderBookAgent and EliteMarketMaker lie in [-1, 1] for every
    snapshot without negative quantities and every depth. *)
Theorem depth_imbalances_in_range (book : Book) (depth : Z) (levels : nat)
        (cfg : DominantImbalanceMM.Config) :
  nonneg_quantities book ->
  -1 <= L3MarketMakerAgent._depth_imbalance book depth <= 1
  /\ -1 <= DominantImbalanceMM._book_imbalance cfg book <= 1
  /\ -1 <= SmartOrderBookAgent.get_weighted_imbalance book levels <= 1
  /\ -1 <= EliteMarketMaker.calculate_obi book depth <= 1.
Proof.
  intros [Hb Ha].
  assert (Hs : forall d,
             0 <= fold_left (fun acc lvl => acc + lvl_quantity lvl)
                            (Py.slice_to (bids book) d) 0.0
             /\ 0 <= fold_left (fun acc lvl => acc + lvl_quantity lvl)
                               (Py.slice_to (asks book) d) 0.0).
  { intros d. split; apply fold_quantities_nonneg, Forall_slice_to; assumption. }
  repeat split.
  all: try (unfold L3MarketMakerAgent._depth_imbalance; cbv zeta;
            destruct (Hs depth); py_case; [lra | apply ratio_in_range; lra]).
  all: try (unfold DominantImbalanceMM._book_imbalance; cbv zeta;
            destruct (Hs (DominantImbalanceMM.imbalance_depth cfg));
            py_case; [lra | apply ratio_in_range; lra]).
  all: try (unfold SmartOrderBookAgent.get_weighted_imbalance; cbv zeta;
            pose proof (fold_quantities_nonneg _
                          (Forall_take _ (Nat.min levels (length (bids book))) _ Hb));
            pose proof (fold_quantities_nonneg _
                          (Forall_take _ (Nat.min levels (length (asks book))) _ Ha));
            py_case; [lra | apply ratio_bounds; assumption]).
  all: unfold EliteMarketMaker.calculate_obi; cbv zeta;
    fold (top_volume (bids book) depth); fold (top_volume (asks book) depth);
    pose proof (top_volume_nonneg _ depth Hb);
    pose proof (top_volume_nonneg _ depth Ha);
    (py_case; [lra | apply ratio_bounds; assumption]).
Qed.

Lemma depth_imbalances_in_range_witness :
  -1 <= L3MarketMakerAgent._depth_imbalance two_level_book 5 <= 1.
Proof.
  refine (proj1 (depth_imbalances_in_range two_level_book 5 5
                   DominantImbalanceMM.default_config _)).
  split; repeat constructor; vm_compute; discriminate.
Defined.

(** X13.  The imbalance of AdaptiveMarketMakerAgent is clipped: it lies in
    [-1, 1] for every book and depth, negative quantities included. *)
Theorem Adaptive_imbalance_is_clipped p book depth :
  -1 <= AdaptiveMarketMakerAgent.calculate_imbalance p book depth <= 1.
Proof.
  unfold AdaptiveMarketMakerAgent.calculate_imbalance. cbv zeta.
  py_case; [lra|].
  match goal with
  | |- _ <= np_clip ?x ?lo ?hi <= _ =>
      pose proof (np_clip_bounds x lo hi) as [H1 H2]
  end.
  specialize (H2 ltac:(lra)). lra.
Qed.

Section TradeFlow.

Lemma buy_sell_nonneg (evs : list Event) (b s : Q) :
  Forall (fun ev => match ev with
                    | TradeInfo _ q _ _ _ => 0 <= q
                    | OtherEvent => True
                    end) evs ->
  0 <= b -> 0 <= s ->
  let '(b', s') :=
    fold_left (fun '(buy, sell) ev =>
                 match ev with
                 | TradeInfo BUY q _ _ _ => (buy + q, sell)
                 | TradeInfo SELL q _ _ _ => (buy, sell + q)
                 | OtherEvent => (buy, sell)
                 end) evs (b, s) in
  0 <= b' /\ 0 <= s'.
Proof.
  revert b s. induction evs as [|ev evs IH]; intros b s H Hb Hs; cbn [fold_left].
  - split; assumption.
  - inversion H as [|? ? Hq Hrest]; subst.
    destruct ev as [[|] q px m t|]; apply IH; try assumption; lra.
Qed.

Lemma signed_total_bounds (evs : list Event) (sg tot : Q) :
  Forall (fun ev => match ev with
                    | TradeInfo _ q _ _ _ => 0 <= q
                    | OtherEvent => True
                    end) evs ->
  - tot <= sg -> sg <= tot ->
  let '(sg', tot') :=
    fold_left (fun '(signed, total) ev =>
                 match ev with
                 | TradeInfo side q _ _ _ =>
                     (signed + match side with BUY => q | SELL => - q end,
                      total + q)
                 | OtherEvent => (signed, total)
                 end) evs (sg, tot) in
  - tot' <= sg' /\ sg' <= tot'.
Proof.
  revert sg tot. induction evs as [|ev evs IH]; intros sg tot H H1 H2;
    cbn [fold_left].
  - split; assumption.
  - inversion H as [|? ? Hq Hrest]; subst.
    destruct ev as [[|] q px m t|]; apply IH; try assumption; lra.
Qed.

(** X14.  The trade-flow imbalances of L3MarketMakerAgent,
    DominantImbalanceMM and OrderBookMarketMaker lie in [-1, 1] whenever no
    trade of the book has a negative quantity. *)
Theorem trade_imbalances_in_range (book : Book) :
  nonneg_trades book ->
  -1 <= L3MarketMakerAgent._trade_imbalance book <= 1
  /\ -1 <= DominantImbalanceMM._trade_flow book <= 1
  /\ -1 <= OrderBookMarketMaker.calculate_trade_flow_imbalance book <= 1.
Proof.
  unfold nonneg_trades. intros H.
  unfold L3MarketMakerAgent._trade_imbalance, DominantImbalanceMM._trade_flow,
    OrderBookMarketMaker.calculate_trade_flow_imbalance.
  remember (events book) as evs0 eqn:E. clear E.
  destruct evs0 as [|ev evs]; [repeat split; lra|].
  pose proof (buy_sell_nonneg (ev :: evs) 0.0 0.0 H ltac:(lra) ltac:(lra)) as H1.
  pose proof (signed_total_bounds (ev :: evs) 0.0 0.0 H ltac:(lra) ltac:(lra))
    as H2.
  set (evs0 := ev :: evs) in *. clearbody evs0.
  split; [|split].
  - clear H2. destruct (fold_left _ evs0 (0.0, 0.0)) as [b s] in H1 |- *.
    destruct H1. py_case; [lra | apply ratio_in_range; lra].
  - clear H1. destruct (fold_left _ evs0 (0.0, 0.0)) as [sg tot] in H2 |- *.
    destruct H2. py_case; [lra|].
    split; [apply Qle_shift_div_l | apply Qle_shift_div_r]; lra.
  - clear H2. destruct (fold_left _ evs0 (0.0, 0.0)) as [b s] in H1 |- *.
    destruct H1. pose proof eps8_pos.
    py_case; [lra | apply ratio_in_range; lra].
Qed.

Lemma trade_imbalances_in_range_witness :
  -1 <= DominantImbalanceMM._trade_flow traded_book <= 1.
Proof.
  refine (proj1 (proj2 (trade_imbalances_in_range traded_book _))).
  repeat constructor; vm_compute; discriminate.
Defined.

End TradeFlow.

(* ===================================================================== *)
(** * OrderBookImbalanceMarketMaker: inventory, quotes and responses *)
(* ===================================================================== *)

Section ImbalanceQuotes.

Import OrderBookImbalanceMarketMakerRespond.

(** X15.  [calculate_inventory_position] fails exactly when
    [max_inventory_pct] is 0.  Otherwise the skew it returns lies in
    [-1, 1], and without a positive initial capital both the inventory
    fraction and the skew are 0. *)
Theorem OBIMM_inventory_skew_in_range cfg account microprice initial_capital :
  (max_inventory_pct cfg == 0 ->
   calculate_inventory_position cfg account microprice initial_capital
   = Raise ZeroDivisionError)
  /\ (~ max_inventory_pct cfg == 0 ->
      exists pct skew,
        calculate_inventory_position cfg account microprice initial_capital
        = Ok (pct, skew)
        /\ -1 <= skew <= 1
        /\ (initial_capital <= 0 -> pct == 0 /\ skew == 0)).
Proof.
  unfold calculate_inventory_position. cbv zeta. split; intros H.
  - apply eqb_true in H. rewrite H. reflexivity.
  - assert (H' := H). apply eqb_false in H'. rewrite H'.
    eexists _, _. split; [reflexivity|]. split.
    + match goal with
      | |- _ <= np_clip ?x ?lo ?hi <= _ =>
          pose proof (np_clip_bounds x lo hi) as [H1 H2]
      end.
      specialize (H2 ltac:(lra)). lra.
    + intros Hc.
      assert (Hl : Py.ltb 0 initial_capital = false) by (apply ltb_false; lra).
      rewrite Hl. split; [reflexivity|].
      rewrite np_clip_inside.
      * field. exact H.
      * assert (E : 0.0 / max_inventory_pct cfg * inventory_skew_factor cfg == 0)
          by (field; exact H).
        rewrite E. lra.
      * assert (E : 0.0 / max_inventory_pct cfg * inventory_skew_factor cfg == 0)
          by (field; exact H).
        rewrite E. lra.
Qed.

(** X16.  The quotes of [calculate_optimal_quotes] keep their order: the
    bid is at most the ask for a non-negative spread and strictly below it
    once the spread exceeds one tick, whatever the signal and the skew; the
    two size multipliers lie in [0.5, 2]. *)
Theorem OBIMM_quotes_keep_order microprice spread imbalance_signal
        inventory_skew pd :
  let '(bid_price, ask_price, bid_size_mult, ask_size_mult) :=
    calculate_optimal_quotes microprice spread imbalance_signal inventory_skew pd in
  (0 <= spread -> bid_price <= ask_price)
  /\ (Py.pow10 (- pd) < spread -> bid_price < ask_price)
  /\ 0.5 <= bid_size_mult <= 2 /\ 0.5 <= ask_size_mult <= 2.
Proof.
  unfold calculate_optimal_quotes. cbv zeta.
  set (adj := imbalance_signal * (spread / 2) * 0.3
              + - inventory_skew * (spread / 2) * 0.5).
  assert (Eh : spread / 2 == spread * 0.5) by field.
  set (h := spread / 2) in *.
  split; [|split; [|split]].
  - intros Hs. apply round_mono. clearbody adj h. lra.
  - intros Hs.
    pose proof (round_error (microprice - h + adj) pd) as [_ E1].
    pose proof (round_error (microprice + h + adj) pd) as [E2 _].
    clearbody adj h. lra.
  - match goal with
    | |- _ <= np_clip ?x ?lo ?hi <= _ =>
        pose proof (np_clip_bounds x lo hi) as [H1 H2]
    end.
    specialize (H2 ltac:(lra)). lra.
  - match goal with
    | |- _ <= np_clip ?x ?lo ?hi <= _ =>
        pose proof (np_clip_bounds x lo hi) as [H1 H2]
    end.
    specialize (H2 ltac:(lra)). lra.
Qed.

Lemma edge_cases (q m e10 : Q) :
  0 < e10 -> ~ m == 0 ->
  let d := Qabs (q - m) / m * 10000 in
  ((q < m /\ e10 <= d) <-> (0 < m /\ q <= m * (1 - e10 / 10000)))
  /\ ((m < q /\ e10 <= d) <-> (0 < m /\ m * (1 + e10 / 10000) <= q)).
Proof.
  intros He Hm. cbv zeta.
  assert (Ee : e10 / 10000 == e10 * (1 # 10000)) by field.
  set (e := e10 / 10000) in *.
  set (d := Qabs (q - m) / m * 10000).
  assert (Ed : d * m == Qabs (q - m) * 10000) by (unfold d; field; exact Hm).
  clearbody d e.
  destruct (Qlt_le_dec 0 m) as [Hp|Hn].
  - destruct (Qabs_cases (q - m)) as [[Hs Ea]|[Hs Ea]]; rewrite Ea in Ed; clear Ea.
    + split; split.
      * intros [H1 H2]. exfalso. lra.
      * intros [H1 H2]. split; [nra|]. nra.
      * intros [H1 H2]. split; [assumption|]. nra.
      * intros [H1 H2]. split; [nra|]. nra.
    + split; split.
      * intros [H1 H2]. split; [assumption|]. nra.
      * intros [H1 H2]. split; [lra|]. nra.
      * intros [H1 H2]. exfalso. lra.
      * intros [H1 H2]. exfalso. nra.
  - assert (Hn' : m < 0).
    { destruct (Qlt_le_dec m 0); [assumption|]. exfalso. apply Hm. lra. }
    pose proof (Qabs_nonneg (q - m)) as Hab.
    assert (Hd : d <= 0).
    { destruct (Qlt_le_dec 0 d) as [Hd|Hd]; [exfalso; nra | exact Hd]. }
    split; split; intros [H1 H2]; exfalso; lra.
Qed.

Lemma should_place_order_edge quote_price microprice min_edge_bps :
  0 < min_edge_bps ->
  (should_place_order quote_price microprice true min_edge_bps = true
   <-> 0 < microprice
       /\ quote_price <= microprice * (1 - min_edge_bps / 10000))
  /\ (should_place_order quote_price microprice false min_edge_bps = true
      <-> 0 < microprice
          /\ microprice * (1 + min_edge_bps / 10000) <= quote_price).
Proof.
  intros He. unfold should_place_order. cbv zeta.
  destruct (Py.eqb microprice 0) eqn:Hm; py_hyps.
  - split; split; intros H; try discriminate; destruct H; lra.
  - destruct (edge_cases quote_price microprice min_edge_bps He Hm) as [Hb Ha].
    cbv zeta in Hb, Ha.
    split; (etransitivity; [apply andb_true_iff|]);
      rewrite ltb_true, leb_true; assumption.
Qed.

(** X17.  With a positive minimum edge, [should_place_order] accepts a
    quote only when the microprice is positive and the quote lies on the
    passive side of it, at least the edge away: a bid below the microprice
    and at or below [microprice * (1 - edge/10000)], an ask above it and at
    or above [microprice * (1 + edge/10000)].  It rejects every quote when
    the microprice is not positive, every bid at or above the microprice and
    every ask at or below it. *)
Theorem OBIMM_order_needs_edge quote_price microprice min_edge_bps :
  0 < min_edge_bps ->
  (should_place_order quote_price microprice true min_edge_bps = true ->
   0 < microprice /\ quote_price < microprice
   /\ quote_price <= microprice * (1 - min_edge_bps / 10000))
  /\ (should_place_order quote_price microprice false min_edge_bps = true ->
      0 < microprice /\ microprice < quote_price
      /\ microprice * (1 + min_edge_bps / 10000) <= quote_price)
  /\ (microprice <= 0 ->
      forall is_bid,
        should_place_order quote_price microprice is_bid min_edge_bps = false)
  /\ (microprice <= quote_price ->
      should_place_order quote_price microprice true min_edge_bps = false)
  /\ (quote_price <= microprice ->
      should_place_order quote_price microprice false min_edge_bps = false).
Proof.
  intros He.
  destruct (should_place_order_edge quote_price microprice min_edge_bps He)
    as [Hb Ha].
  assert (Hside : forall is_bid,
             should_place_order quote_price microprice is_bid min_edge_bps = true ->
             if is_bid then quote_price < microprice
             else microprice < quote_price).
  { intros is_bid H. unfold should_place_order in H.
    destruct (Py.eqb microprice 0); [discriminate|]. cbv zeta in H.
    destruct is_bid; apply andb_prop in H as [H _]; py_hyps; exact H. }
  split; [|split; [|split; [|split]]].
  - intros H. destruct (proj1 Hb H) as [H1 H2].
    split; [exact H1|]. split; [exact (Hside true H)|exact H2].
  - intros H. destruct (proj1 Ha H) as [H1 H2].
    split; [exact H1|]. split; [exact (Hside false H)|exact H2].
  - intros Hm is_bid.
    destruct (should_place_order quote_price microprice is_bid min_edge_bps)
      eqn:E; [exfalso|reflexivity].
    destruct is_bid; [apply Hb in E|apply Ha in E]; destruct E; lra.
  - intros Hq.
    destruct (should_place_order quote_price microprice true min_edge_bps)
      eqn:E; [exfalso|reflexivity].
    pose proof (Hside true E) as Hs. cbv beta iota in Hs. lra.
  - intros Hq.
    destruct (should_place_order quote_price microprice false min_edge_bps)
      eqn:E; [exfalso|reflexivity].
    pose proof (Hside false E) as Hs. cbv beta iota in Hs. lra.
Qed.

Lemma OBIMM_order_needs_edge_witness :
  (0 < 100.0 /\ 99.97 < 100.0 /\ 99.97 <= 100.0 * (1 - 2.0 / 10000))
  /\ should_place_order 100.0 100.0 true 2.0 = false.
Proof.
  destruct (OBIMM_order_needs_edge 99.97 100.0 2.0 ltac:(reflexivity))
    as [H _].
  destruct (OBIMM_order_needs_edge 100.0 100.0 2.0 ltac:(reflexivity))
    as (_ & _ & _ & H' & _).
  split.
  - apply H. vm_compute. reflexivity.
  - apply H'. vm_compute. discriminate.
Defined.

End ImbalanceQuotes.

Section ImbalanceRespond.

Import OrderBookImbalanceMarketMakerRespond.

Variable volatility_of : string -> Z -> Q -> Q.

(** The body, once the book and the account are found: what it returns in
    terms of the inventory fraction and the quotes. *)
Lemma imbalance_body_cases cfg su book_id book instrs :
  book_body volatility_of cfg su book_id book = Returns instrs ->
  instrs = []
  \/ exists accts by_book account pct skew bid_price ask_price bid_mult ask_mult
            spread signal,
      OrderBookImbalanceMarketMakerRespond.accounts su = Some accts
      /\ dict_get accts (uid cfg) = Some by_book
      /\ dict_get by_book book_id = Some account
      /\ calculate_inventory_position
           cfg account (OrderBookImbalanceMarketMaker.calculate_microprice book)
           (miner_wealth su) = Ok (pct, skew)
      /\ Qabs pct < max_inventory_pct cfg
      /\ calculate_optimal_quotes
           (OrderBookImbalanceMarketMaker.calculate_microprice book) spread signal
           skew (priceDecimals su)
         = (bid_price, ask_price, bid_mult, ask_mult)
      /\ instrs
         = (if Py.ltb pct (max_inventory_pct cfg * 0.8)
               && should_place_order
                    bid_price (OrderBookImbalanceMarketMaker.calculate_microprice book)
                    true (min_edge_bps cfg)
            then [limit_order book_id BUY
                    (Py.round (base_order_size cfg * bid_mult) (volumeDecimals su))
                    bid_price None (Some CANCEL_BOTH) None (Some GTT)
                    (Some (expiry_period cfg))]
            else [])
           ++ (if Py.ltb (- max_inventory_pct cfg * 0.8) pct
                  && should_place_order
                       ask_price
                       (OrderBookImbalanceMarketMaker.calculate_microprice book)
                       false (min_edge_bps cfg)
               then [limit_order book_id SELL
                       (Py.round (base_order_size cfg * ask_mult) (volumeDecimals su))
                       ask_price None (Some CANCEL_BOTH) None (Some GTT)
                       (Some (expiry_period cfg))]
               else []).
Proof.
  unfold book_body.
  destruct (bids book) as [|b bs] eqn:Eb;
    [intros H; inversion H; left; reflexivity|].
  destruct (asks book) as [|a as_] eqn:Ea;
    [intros H; inversion H; left; reflexivity|].
  destruct (imbalance_depths cfg) as [|d0 ds] eqn:Ed; [discriminate|].
  match goal with
  | |- context [if ?c then Returns [] else _] => destruct c
  end; [intros H; inversion H; left; reflexivity|].
  destruct (OrderBookImbalanceMarketMakerRespond.accounts su) as [[|x accts]|] eqn:Eacc;
    try (intros H; inversion H; left; reflexivity).
  destruct (dict_get (x :: accts) (uid cfg)) as [by_book|] eqn:Eu;
    [|intros H; inversion H; left; reflexivity].
  destruct (dict_get by_book book_id) as [account|] eqn:Ek;
    [|intros H; inversion H; left; reflexivity].
  destruct (weighted_signal _) as [signal|e]; [|discriminate].
  cbv zeta.
  destruct (Py.eqb (OrderBookImbalanceMarketMaker.calculate_microprice _) 0);
    [intros H; inversion H; left; reflexivity|].
  destruct (calculate_inventory_position cfg account _ (miner_wealth su))
    as [[pct skew]|e] eqn:Einv; [|discriminate].
  destruct (Py.leb (max_inventory_pct cfg) (Qabs pct)) eqn:Hlim;
    [intros H; inversion H; left; reflexivity|].
  py_hyps.
  match goal with
  | |- context [calculate_optimal_quotes ?m ?s ?g ?k ?d] =>
      destruct (calculate_optimal_quotes m s g k d)
        as [[[bid_price ask_price] bid_mult] ask_mult] eqn:Eq
  end.
  intros H. inversion H; subst instrs. clear H. right.
  eexists _, _, _, _, _, _, _, _, _, _, _.
  repeat (split; [first [eassumption | reflexivity]|]).
  reflexivity.
Qed.

(** X18.  Every order OrderBookImbalanceMarketMaker places for a book has
    the configured edge: with a positive [min_edge_bps] the microprice of
    the book is positive, each bid is priced at least that many basis points
    below it and each ask at least as many above, so a bid of the book is
    always below an ask of it.  A book gets at most two orders. *)
Theorem OBIMM_orders_have_edge cfg su book_id book instrs :
  0 < min_edge_bps cfg ->
  book_body volatility_of cfg su book_id book = Returns instrs ->
  (length instrs <= 2)%nat
  /\ Forall (has_edge book_id
                      (OrderBookImbalanceMarketMaker.calculate_microprice book)
                      (min_edge_bps cfg)) instrs.
Proof.
  intros He Hb.
  destruct (imbalance_body_cases cfg su book_id book instrs Hb)
    as [->|(accts & by_book & account & pct & skew & bp & ap & bm & am & sp & sg
            & _ & _ & _ & _ & _ & _ & ->)].
  - split; [cbn; lia | constructor].
  - set (micro := OrderBookImbalanceMarketMaker.calculate_microprice book).
    destruct (should_place_order_edge bp micro (min_edge_bps cfg) He) as [Hbid _].
    destruct (should_place_order_edge ap micro (min_edge_bps cfg) He) as [_ Hask].
    split.
    + rewrite length_app.
      repeat match goal with
             | |- context [if ?c then _ else _] => destruct c
             end; cbn; lia.
    + apply Forall_app. split.
      * destruct (Py.ltb pct _); cbn [andb]; [|constructor].
        destruct (should_place_order bp micro true _) eqn:E; [|constructor].
        repeat constructor; apply Hbid; reflexivity.
      * destruct (Py.ltb _ pct); cbn [andb]; [|constructor].
        destruct (should_place_order ap micro false _) eqn:E; [|constructor].
        repeat constructor; apply Hask; reflexivity.
Qed.

(** X19.  OrderBookImbalanceMarketMaker stops adding to a position before
    the inventory limit: at 80% of [max_inventory_pct] long it places no
    bid, at 80% short no ask, and nothing at all is returned for a book
    whose inventory fraction has reached the limit. *)
Theorem OBIMM_respects_inventory_limit cfg su book_id book instrs
        accts by_book account pct skew :
  OrderBookImbalanceMarketMakerRespond.accounts su = Some accts ->
  dict_get accts (uid cfg) = Some by_book ->
  dict_get by_book book_id = Some account ->
  calculate_inventory_position
    cfg account (OrderBookImbalanceMarketMaker.calculate_microprice book)
    (miner_wealth su) = Ok (pct, skew) ->
  book_body volatility_of cfg su book_id book = Returns instrs ->
  (max_inventory_pct cfg <= Qabs pct -> instrs = [])
  /\ (max_inventory_pct cfg * 0.8 <= pct ->
      forall i, In i instrs -> places BUY book_id i = false)
  /\ (pct <= - max_inventory_pct cfg * 0.8 ->
      forall i, In i instrs -> places SELL book_id i = false).
Proof.
  intros Ha Hu Hk Hinv Hb.
  destruct (imbalance_body_cases cfg su book_id book instrs Hb)
    as [->|(accts' & by_book' & account' & pct' & skew' & bp & ap & bm & am & sp
            & sg & Ha' & Hu' & Hk' & Hinv' & Hlim & _ & ->)].
  - split; [reflexivity|]. split; intros _ i [].
  - rewrite Ha in Ha'. inversion Ha'; subst accts'.
    rewrite Hu in Hu'. inversion Hu'; subst by_book'.
    rewrite Hk in Hk'. inversion Hk'; subst account'.
    rewrite Hinv in Hinv'. inversion Hinv'; subst pct' skew'.
    split; [intros Hc; exfalso; lra|]. split.
    + intros Hc. assert (E : Py.ltb pct (max_inventory_pct cfg * 0.8) = false)
        by (apply ltb_false; exact Hc).
      rewrite E. cbn [andb app].
      match goal with
      | |- context [if ?c then _ else _] => destruct c
      end; intros i Hi; [|cbn in Hi; contradiction].
      destruct Hi as [<-|[]]. cbn. apply andb_false_r.
    + intros Hc. assert (E : Py.ltb (- max_inventory_pct cfg * 0.8) pct = false)
        by (apply ltb_false; exact Hc).
      rewrite E. cbn [andb]. rewrite app_nil_r.
      match goal with
      | |- context [if ?c then _ else _] => destruct c
      end; intros i Hi; [|cbn in Hi; contradiction].
      destruct Hi as [<-|[]]. cbn. apply andb_false_r.
Qed.

Lemma weighted_signal_mismatch (imbalances : list Q) :
  (4 < length imbalances)%nat -> weighted_signal imbalances = Raises ValueError.
Proof.
  intros H. unfold weighted_signal. cbv zeta.
  rewrite length_map, length_firstn. cbn [length].
  destruct (Nat.eqb_spec (length imbalances) (Nat.min (length imbalances) 4));
    [lia | reflexivity].
Qed.

(** X20.  OrderBookImbalanceMarketMaker supports four imbalance depths at
    most: with a fifth depth configured the weights no longer match the
    imbalances, [np.dot] raises for every book that reaches it, and the
    response is empty on every tick. *)
Theorem OBIMM_fifth_depth_silences_agent cfg su :
  (4 < length (imbalance_depths cfg))%nat ->
  respond volatility_of cfg su = [].
Proof.
  intros H. unfold respond.
  induction (books su) as [|[book_id book] bks IH]; [reflexivity|].
  cbn [flat_map]. rewrite IH, app_nil_r.
  unfold book_body.
  destruct (bids book) as [|b bs]; [reflexivity|].
  destruct (asks book) as [|a as_]; [reflexivity|].
  destruct (imbalance_depths cfg) as [|d0 ds] eqn:Ed; [reflexivity|].
  destruct (_ <? _)%Z; [reflexivity|].
  destruct (OrderBookImbalanceMarketMakerRespond.accounts su) as [[|x accts]|];
    try reflexivity.
  destruct (dict_get (x :: accts) (uid cfg)); [|reflexivity].
  destruct (dict_get _ book_id); [|reflexivity].
  rewrite weighted_signal_mismatch; [reflexivity|].
  rewrite length_map. exact H.
Qed.

End ImbalanceRespond.

Lemma OBIMM_orders_have_edge_witness :
  exists instrs,
    OrderBookImbalanceMarketMakerRespond.book_body
      first_volatility (OrderBookImbalanceMarketMakerRespond.default_config 0)
      imbalance_tick 1 deep_book = Returns instrs
    /\ (length instrs <= 2)%nat.
Proof.
  eexists. split; [vm_compute; reflexivity|].
  refine (proj1 (OBIMM_orders_have_edge first_volatility
                   (OrderBookImbalanceMarketMakerRespond.default_config 0)
                   imbalance_tick 1 deep_book _ _ _)).
  - reflexivity.
  - vm_compute. reflexivity.
Defined.

Lemma OBIMM_respects_inventory_limit_witness :
  (exists instrs,
     OrderBookImbalanceMarketMakerRespond.book_body
       first_volatility (OrderBookImbalanceMarketMakerRespond.default_config 0)
       (imbalance_tick_holding 5.0) 1 deep_book = Returns instrs
     /\ instrs <> []
     /\ forall i, In i instrs -> places BUY 1 i = false)
  /\ OrderBookImbalanceMarketMakerRespond.book_body
       first_volatility (OrderBookImbalanceMarketMakerRespond.default_config 0)
       (imbalance_tick_holding 10.0) 1 deep_book = Returns [].
Proof.
  split.
  - eexists. split; [vm_compute; reflexivity|]. split; [discriminate|].
    refine (proj1 (proj2 (OBIMM_respects_inventory_limit
                     first_volatility
                     (OrderBookImbalanceMarketMakerRespond.default_config 0)
                     (imbalance_tick_holding 5.0) 1 deep_book _
                     [(0%Z, [(1%Z, account 5.0 1000.0 [])])]
                     [(1%Z, account 5.0 1000.0 [])] (account 5.0 1000.0 [])
                     _ _ _ _ _ _ _)) _);
      try (vm_compute; reflexivity).
    vm_compute. discriminate.
  - destruct (OrderBookImbalanceMarketMakerRespond.book_body
                first_volatility
                (OrderBookImbalanceMarketMakerRespond.default_config 0)
                (imbalance_tick_holding 10.0) 1 deep_book) as [instrs|e] eqn:E;
      [|vm_compute in E; discriminate].
    f_equal.
    refine (proj1 (OBIMM_respects_inventory_limit
                     first_volatility
                     (OrderBookImbalanceMarketMakerRespond.default_config 0)
                     (imbalance_tick_holding 10.0) 1 deep_book instrs
                     [(0%Z, [(1%Z, account 10.0 1000.0 [])])]
                     [(1%Z, account 10.0 1000.0 [])] (account 10.0 1000.0 [])
                     _ _ _ _ _ _ E) _);
      try (vm_compute; reflexivity).
    vm_compute. discriminate.
Defined.

Lemma OBIMM_fifth_depth_silences_agent_witness :
  OrderBookImbalanceMarketMakerRespond.respond first_volatility five_depths
                                               imbalance_tick = [].
Proof.
  apply (OBIMM_fifth_depth_silences_agent first_volatility five_depths
                                          imbalance_tick).
  vm_compute. lia.
Defined.

(* ===================================================================== *)
(** * OrderBookMarketMaker: inventory, quotes, cancellations, accounts *)
(* ===================================================================== *)

Section MarketMaker.

Import OrderBookMarketMaker.

(** X21.  The inventory position of OrderBookMarketMaker lies in [-1, 1]
    whenever the holdings and the midquote are not negative. *)
Theorem OBMM_inventory_position_in_range account midquote :
  0 <= own_base account -> 0 <= own_quote account -> 0 <= midquote ->
  -1 <= calculate_inventory_position account midquote <= 1.
Proof.
  intros Hb Hq Hm. unfold calculate_inventory_position. cbv zeta.
  pose proof eps8_pos.
  assert (Hv : 0 <= own_base account * midquote) by nra.
  set (bv := own_base account * midquote) in *. clearbody bv.
  py_case; [lra|]. apply ratio_in_range; lra.
Qed.

Lemma OBMM_inventory_position_in_range_witness :
  -1 <= calculate_inventory_position (account 5.0 1000.0 []) 100.0 <= 1.
Proof.
  apply (OBMM_inventory_position_in_range (account 5.0 1000.0 []) 100.0);
    vm_compute; discriminate.
Defined.

Lemma clamp_upper (x u l : Q) : l <= u -> Qmax (Qmin x u) l <= u.
Proof. intros H. apply Q.max_lub; [apply Q.le_min_r | exact H]. Qed.

Lemma clamp_lower (x l u : Q) : l <= u -> l <= Qmin (Qmax x l) u.
Proof. intros H. apply Q.min_glb; [apply Q.le_max_r | exact H]. Qed.

(** X22.  On a two-sided book whose spread is at least one tick, the quotes
    of [calculate_optimal_quotes] never cross the market or each other: the
    bid is below the best ask, the ask above the best bid, and the bid is at
    most the ask, whatever the imbalance, the inventory position and the
    toxicity flag.  Both sizes are at most the rounded [max_order_size]. *)
Theorem OBMM_quotes_do_not_cross cfg book account book_imbalance
        inventory_position adverse_selection pd vd b bs a as_ :
  bids book = b :: bs -> asks book = a :: as_ ->
  Py.pow10 (- pd) <= lvl_price a - lvl_price b ->
  exists bid_price ask_price bid_size ask_size,
    calculate_optimal_quotes cfg book account book_imbalance inventory_position
                             adverse_selection pd vd
    = Returns (bid_price, ask_price, bid_size, ask_size)
    /\ bid_price < lvl_price a /\ lvl_price b < ask_price
    /\ bid_price <= ask_price
    /\ bid_size <= Py.round (max_order_size cfg) vd
    /\ ask_size <= Py.round (max_order_size cfg) vd.
Proof.
  intros Eb Ea Hs. unfold calculate_optimal_quotes. rewrite Eb, Ea. cbv zeta.
  match goal with
  | |- context [let '(_, _) := ?X in _] => destruct X as [bs0 as0]
  end.
  eexists _, _, _, _. split; [reflexivity|].
  pose proof (pow10_pos (- pd)) as Ht.
  set (tick := Py.pow10 (- pd)) in *.
  set (bb := lvl_price b) in *. set (ba := lvl_price a) in *.
  set (s := ba - bb) in *.
  match goal with
  | |- Py.round (Qmax (Qmin ?x ?u) ?l) pd < _ /\ _ =>
      set (bid_pre := Qmax (Qmin x u) l);
      assert (Hb1 : bid_pre <= bb + s * 0.4)
        by (apply clamp_upper; unfold s in *; lra)
  end.
  match goal with
  | |- _ /\ _ < Py.round (Qmin (Qmax ?y ?l) ?u) pd /\ _ =>
      set (ask_pre := Qmin (Qmax y l) u);
      assert (Ha1 : ba - s * 0.4 <= ask_pre)
        by (apply clamp_lower; unfold s in *; lra)
  end.
  pose proof (round_error bid_pre pd) as [_ E1].
  pose proof (round_error ask_pre pd) as [E2 _].
  fold tick in E1, E2.
  assert (Hmono : Py.round bid_pre pd <= Py.round ask_pre pd).
  { apply round_mono. unfold s in *. lra. }
  clearbody bid_pre ask_pre.
  repeat split.
  - unfold s in *. lra.
  - unfold s in *. lra.
  - exact Hmono.
  - apply round_mono, Q.le_min_r.
  - apply round_mono, Q.le_min_r.
Qed.

Lemma OBMM_quotes_do_not_cross_witness :
  exists bid_price ask_price bid_size ask_size,
    calculate_optimal_quotes default_config sample_book (account 1.0 1000.0 [])
                             0 0 false 2 2
    = Returns (bid_price, ask_price, bid_size, ask_size)
    /\ bid_price < 101.0.
Proof.
  destruct (OBMM_quotes_do_not_cross default_config sample_book
              (account 1.0 1000.0 []) 0 0 false 2 2
              (level 99.0 2.0) [] (level 101.0 2.0) []
              ltac:(reflexivity) ltac:(reflexivity)
              ltac:(vm_compute; discriminate))
    as (bp & ap & bsz & asz & H1 & H2 & _).
  exists bp, ap, bsz, asz. split; assumption.
Defined.




Variable book_imbalance_of : Book -> Q.

Lemma key_get_uid_keys {V} (accts : list (PyKey * V)) (s : string) :
  keyed_by_uid accts -> key_get accts (str_key s) = None.
Proof.
  induction accts as [|[k v] accts IH]; intros H; [reflexivity|].
  inversion H as [|? ? [uid Hk] Hrest]; subst. cbn [fst] in Hk. subst k.
  cbn [key_get PyKey_eqb]. apply IH, Hrest.
Qed.

(** X24.  OrderBookMarketMaker looks its account up under the validator's
    hotkey.  Whenever the accounts of the state update are absent or keyed
    by agent uid, no book finds an account: the response is empty and the
    histories are left as they were. *)
Theorem OBMM_finds_no_account_by_uid cfg self su :
  (forall accts, accounts su = Some accts -> keyed_by_uid accts) ->
  respond book_imbalance_of cfg self su = (self, []).
Proof.
  intros Hk. unfold respond.
  induction (books su) as [|[book_id book] bks IH]; [reflexivity|].
  cbn [fold_left].
  assert (E : book_body book_imbalance_of cfg su self book_id book
              = (self, [], None)
              \/ book_body book_imbalance_of cfg su self book_id book
                 = (self, [], Some (builtin TypeError))).
  { unfold book_body.
    destruct (bids book) as [|b bs]; [left; reflexivity|].
    destruct (asks book) as [|a as_]; [left; reflexivity|].
    destruct (accounts su) as [accts|] eqn:Ea; [|right; reflexivity].
    rewrite (key_get_uid_keys accts (validator su) (Hk accts eq_refl)).
    left. reflexivity. }
  destruct E as [E|E]; rewrite E; exact IH.
Qed.

End MarketMaker.

Lemma OBMM_finds_no_account_by_uid_witness :
  OrderBookMarketMaker.respond balanced OrderBookMarketMaker.default_config
                               OrderBookMarketMaker.initial market_maker_tick
  = (OrderBookMarketMaker.initial, []).
Proof.
  apply (OBMM_finds_no_account_by_uid balanced OrderBookMarketMaker.default_config
           OrderBookMarketMaker.initial market_maker_tick).
  intros accts H. inversion H; subst. repeat constructor. exists 0%Z. reflexivity.
Defined.

(* ===================================================================== *)
(** * EliteMarketMaker: when it buys and when it takes liquidity *)
(* ===================================================================== *)

Section EliteChecks.

Import EliteMarketMaker.

Variable np_std : list Q -> Q.





End EliteChecks.


(* ===================================================================== *)
(** * EliteImbalanceMarketMaker: maker-side quotes and the hard limit *)
(* ===================================================================== *)

Section EliteImbalanceQuotes.

Import EliteImbalanceMarketMaker.

Variable snapshot_imbalance : Book -> Z -> option Z -> Result Q.
Variable book_trades : Book -> list (OrderDirection * Q).

Lemma place_quotes_maker book_id account fees bid ask bq aq expiry bb ba :
  (0 < bid -> bid < ba) -> (0 < ask -> bb < ask) ->
  Forall (maker_side bb ba)
         (place_quotes book_id account fees bid ask bq aq expiry).
Proof.
  intros Hb Ha. unfold place_quotes. destruct fees; [constructor|].
  apply Forall_app. split.
  - match goal with
    | |- Forall _ (if ?c then _ else _) => destruct c eqn:E; [|constructor]
    end.
    apply andb_prop in E as [E _]. apply andb_prop in E as [E _]. py_hyps.
    constructor; [|constructor]. cbn [maker_side]. auto.
  - match goal with
    | |- Forall _ (if ?c then _ else _) => destruct c eqn:E; [|constructor]
    end.
    apply andb_prop in E as [E _]. apply andb_prop in E as [E _]. py_hyps.
    constructor; [|constructor]. cbn [maker_side]. auto.
Qed.

Lemma emergency_unwind_markets cfg book_id account inv_dev best_ask i :
  In i (emergency_unwind cfg book_id account inv_dev best_ask) ->
  exists q, i = market_order book_id (if Py.ltb 0 inv_dev then SELL else BUY)
                             q (Some CANCEL_BOTH).
Proof.
  unfold emergency_unwind. intros H.
  repeat match type of H with
  | In _ (if ?c then _ else _) => destruct c eqn:?
  | In _ (let _ := _ in _) => cbv zeta in H
  end; cbn in H; try contradiction.
  - apply andb_prop in Heqb1 as [E _]. rewrite E.
    destruct H as [<-|[]]. eexists. reflexivity.
  - destruct H as [<-|[]].
    destruct (Py.ltb 0 inv_dev) eqn:E; [|eexists; reflexivity].
    py_hyps. lra.
Qed.

Lemma sorted_set_In x ids : In x ids -> In x (sorted_set ids).
Proof.
  assert (Hins : forall y l, In x (insert_sorted y l) <-> x = y \/ In x l).
  { intros y l. induction l as [|z l IH]; cbn [insert_sorted].
    - cbn. intuition.
    - destruct (y <? z)%Z eqn:E1; [cbn; intuition|].
      destruct (y =? z)%Z eqn:E2.
      + apply Z.eqb_eq in E2. subst. cbn. intuition.
      + cbn [In]. rewrite IH. intuition. }
  induction ids as [|y ids IH]; intros H; [contradiction|].
  cbn [sorted_set fold_right]. apply Hins. destruct H as [->|H]; [left; reflexivity|].
  right. apply IH, H.
Qed.

Lemma round_below_touch (x ba tick_ : Q) d :
  tick_ = Py.pow10 (- d) -> x <= ba - tick_ -> Py.round x d < ba.
Proof.
  intros -> H. pose proof (round_error x d) as [_ E].
  pose proof (pow10_pos (- d)). lra.
Qed.

Lemma round_above_touch (x bb tick_ : Q) d :
  tick_ = Py.pow10 (- d) -> bb + tick_ <= x -> bb < Py.round x d.
Proof.
  intros -> H. pose proof (round_error x d) as [E _].
  pose proof (pow10_pos (- d)). lra.
Qed.

(** The instructions of a body that ran to its end, with what the clamps
    and the hard limit leave of the two prices and of the cancellations. *)
Lemma body_shape cfg self su book_id book account instrs mid b bs a as_ :
  bids book = b :: bs -> asks book = a :: as_ ->
  dict_get (accounts self) book_id = Some account ->
  book_body snapshot_imbalance book_trades cfg self su book_id book
  = Ok (instrs, Some mid) ->
  let inv_dev := _inventory_frac account mid - inv_target_frac cfg in
  exists cancel_ids fees bid ask bq aq expiry,
    instrs = match cancel_ids with
             | [] => []
             | _ => [cancel_orders book_id (sorted_set cancel_ids)]
             end
             ++ emergency_unwind cfg book_id account inv_dev (lvl_price a)
             ++ place_quotes book_id account fees bid ask bq aq expiry
    /\ mid = 0.5 * (lvl_price b + lvl_price a)
    /\ ((0 <= retreat_ticks cfg)%Z ->
        (0 < bid -> bid < lvl_price a) /\ (0 < ask -> lvl_price b < ask))
    /\ (inv_limit_frac cfg < Qabs inv_dev ->
        (fees = false -> if Py.ltb 0 inv_dev then bid = 0.0 else ask = 0.0)
        /\ (forall o, In o (orders account) ->
                      ord_side o = risk_increasing inv_dev ->
                      In (ord_id o) cancel_ids)).
Proof.
  intros Eb Ea Hacc H. unfold book_body in H. rewrite Eb, Ea, Hacc in H.
  unfold _compute_mid_spread in H. rewrite Eb, Ea in H. cbv zeta in H.
  destruct (Py.leb (0.5 * (lvl_price b + lvl_price a)) 0.0); [discriminate|].
  destruct (_l2_imbalance snapshot_imbalance cfg book (timestamp su)) as [imb|e];
    [|discriminate].
  cbn [bind] in H.
  destruct (_interval_flow_signal book_trades cfg self book _ (validator su) book_id)
    as [[flow_signal toxic]|e]; [|discriminate].
  cbn [bind] in H.
  set (m := 0.5 * (lvl_price b + lvl_price a)) in *.
  set (inv_dev0 := _inventory_frac account m - inv_target_frac cfg) in *.
  match type of H with
  | context [Qmin ?x (lvl_price a - _tick cfg)] =>
      match x with context [_clip] => set (rb := x) in H end
  end.
  match type of H with
  | context [Qmax ?x (lvl_price b + _tick cfg)] =>
      match x with context [_clip] => set (ra := x) in H end
  end.
  clearbody rb ra.
  match type of H with
  | match ?X with Some _ => _ | None => _ end = _ =>
      assert (Hq : forall db da, X = Some (db, da) ->
                   (0 <= retreat_ticks cfg)%Z ->
                   (0 < db -> db < lvl_price a) /\ (0 < da -> lvl_price b < da));
      [|destruct X as [[db da]|] eqn:E; [|discriminate]]
  end.
  { intros db da E Hr.
    assert (Hrt : 0 <= inject_Z (retreat_ticks cfg) * _tick cfg).
    { apply Qmult_le_0_compat; [|apply Qlt_le_weak, pow10_pos].
      change 0 with (inject_Z 0). rewrite <- Zle_Qle. exact Hr. }
    set (rt := inject_Z (retreat_ticks cfg) * _tick cfg) in *. clearbody rt.
    pose proof (pow10_pos (- priceDecimals cfg)) as Ht. fold (_tick cfg) in Ht.
    assert (Hbid : forall x, x <= lvl_price a - _tick cfg ->
                             _round_price cfg x < lvl_price a).
    { intros x Hx. eapply round_below_touch; [reflexivity|exact Hx]. }
    assert (Hask : forall x, lvl_price b + _tick cfg <= x ->
                             lvl_price b < _round_price cfg x).
    { intros x Hx. eapply round_above_touch; [reflexivity|exact Hx]. }
    assert (F1 : Qmin rb (lvl_price a - _tick cfg) <= lvl_price a - _tick cfg)
      by apply Q.le_min_r.
    assert (F2 : lvl_price b + _tick cfg <= Qmax ra (lvl_price b + _tick cfg))
      by apply Q.le_max_r.
    assert (F3 : Qmin (lvl_price b) (lvl_price a - _tick cfg) <= lvl_price a - _tick cfg)
      by apply Q.le_min_r.
    assert (F4 : lvl_price b + _tick cfg <= Qmax (lvl_price a) (lvl_price b + _tick cfg))
      by apply Q.le_max_r.
    repeat match type of E with
    | context [if ?c then _ else _] => destruct c
    end; try discriminate; injection E as <- <-;
      (split; intros H0; [try (apply Hbid; lra)|try (apply Hask; lra)]);
      exfalso; revert H0; clear; intros H0; vm_compute in H0; discriminate. }
  assert (Hinj : forall x y : Response * option Q, Ok x = Ok y -> x = y)
    by (intros; congruence).
  apply Hinj, pair_equal_spec in H as [H1 H2].
  assert (Hm : m = mid) by congruence.
  subst instrs mid. clear H2 Hinj. cbv zeta. fold inv_dev0.
  eexists _, _, _, _, _, _, _. split; [reflexivity|]. split; [reflexivity|].
  split.
  - intros Hr. destruct (Hq db da eq_refl Hr) as [Q1 Q2]. split.
    + match goal with |- 0 < (if ?c then _ else _) -> _ => destruct c end;
        [intros H0; vm_compute in H0; discriminate | exact Q1].
    + match goal with |- 0 < (if ?c then _ else _) -> _ => destruct c end;
        [intros H0; vm_compute in H0; discriminate | exact Q2].
  - intros Hover. apply ltb_true in Hover. rewrite Hover. split.
    + intros ->. cbn [negb andb]. destruct (Py.ltb 0 inv_dev0); reflexivity.
    + intros o Ho Hs. unfold risk_increasing in Hs.
      match goal with |- In _ (if ?c then _ else _) => destruct c end;
        [apply in_map, Ho|].
      apply in_or_app. right.
      destruct (Py.ltb 0 inv_dev0); apply in_map, filter_In;
        (split; [exact Ho|]); unfold has_side; rewrite Hs; reflexivity.
Qed.

(** A body that stores no mid appended nothing. *)
Lemma body_without_mid cfg self su book_id book instrs :
  book_body snapshot_imbalance book_trades cfg self su book_id book
  = Ok (instrs, None) ->
  instrs = [].
Proof.
  intros H. unfold book_body in H.
  destruct (bids book) as [|b bs]; [congruence|].
  destruct (asks book) as [|a as_]; [congruence|].
  destruct (dict_get (accounts self) book_id) as [account|]; [|discriminate].
  cbv zeta in H.
  destruct (_compute_mid_spread book) as [[[best_bid best_ask] mid] spread].
  destruct (Py.leb mid 0.0); [congruence|].
  destruct (_l2_imbalance snapshot_imbalance cfg book (timestamp su)) as [imb|e];
    [|discriminate].
  cbn [bind] in H.
  destruct (_interval_flow_signal book_trades cfg self book _ (validator su) book_id)
    as [[flow_signal toxic]|e]; [|discriminate].
  cbn [bind] in H.
  match type of H with
  | match ?X with Some _ => _ | None => _ end = _ =>
      destruct X as [[db da]|]; [discriminate|congruence]
  end.
Qed.

Lemma body_maker_side cfg self su book_id book instrs m b bs a as_ :
  (0 <= retreat_ticks cfg)%Z ->
  bids book = b :: bs -> asks book = a :: as_ ->
  book_body snapshot_imbalance book_trades cfg self su book_id book
  = Ok (instrs, m) ->
  Forall (maker_side (lvl_price b) (lvl_price a)) instrs
  /\ forall i, In i instrs ->
               match i with
               | limit_order k _ _ _ _ _ _ _ _ | market_order k _ _ _
               | cancel_orders k _ => k = book_id
               end.
Proof.
  intros Hr Eb Ea H.
  destruct m as [mid|];
    [|apply body_without_mid in H; subst; split; [constructor|intros i []]].
  destruct (dict_get (accounts self) book_id) as [account|] eqn:Hacc.
  2:{ unfold book_body in H. rewrite Eb, Ea, Hacc in H. discriminate. }
  destruct (body_shape cfg self su book_id book account instrs mid b bs a as_
              Eb Ea Hacc H)
    as (ids & fees & bid & ask & bq & aq & expiry & -> & _ & Hq & _).
  destruct (Hq Hr) as [Q1 Q2].
  split.
  - apply Forall_app. split.
    { destruct ids; repeat constructor. }
    apply Forall_app. split.
    + apply List.Forall_forall. intros i Hi.
      apply emergency_unwind_markets in Hi as [q ->]. exact I.
    + apply place_quotes_maker; assumption.
  - intros i Hi. apply in_app_or in Hi as [Hi|Hi].
    { destruct ids; [contradiction|]. destruct Hi as [<-|[]]. reflexivity. }
    apply in_app_or in Hi as [Hi|Hi].
    + apply emergency_unwind_markets in Hi as [q ->]. reflexivity.
    + unfold place_quotes in Hi. destruct fees; [contradiction|].
      apply in_app_or in Hi as [Hi|Hi];
        match type of Hi with
        | In _ (if ?c then _ else _) => destruct c
        end; try contradiction; destruct Hi as [<-|[]]; reflexivity.
Qed.

Lemma loop_maker_side cfg su bks acc :
  (0 <= retreat_ticks cfg)%Z ->
  (forall kb, In kb bks -> In kb (books su)) ->
  Forall (maker_side_of (books su)) (snd acc) ->
  Forall (maker_side_of (books su))
         (snd (fold_left (respond_step snapshot_imbalance book_trades cfg su)
                         bks acc)).
Proof.
  intros Hr. revert acc.
  induction bks as [|[book_id book] bks IH]; intros [self resp] Hin Hacc;
    cbn [fold_left]; [exact Hacc|].
  apply IH; [intros kb Hk; apply Hin; right; exact Hk|].
  unfold respond_step.
  destruct (book_body snapshot_imbalance book_trades cfg self su book_id book)
    as [[instrs m]|e] eqn:E; [|exact Hacc].
  assert (Hnew : Forall (maker_side_of (books su)) instrs).
  { destruct (bids book) as [|b bs] eqn:Eb.
    { unfold book_body in E. rewrite Eb in E.
      assert (instrs = []) by congruence. subst. constructor. }
    destruct (asks book) as [|a as_] eqn:Ea.
    { unfold book_body in E. rewrite Eb, Ea in E.
      assert (instrs = []) by congruence. subst. constructor. }
    destruct (body_maker_side cfg self su book_id book instrs m b bs a as_
                Hr Eb Ea E) as [F1 F2].
    apply List.Forall_forall. intros i Hi.
    pose proof (F2 i Hi) as Hk.
    rewrite List.Forall_forall in F1. pose proof (F1 i Hi) as Hm.
    destruct i as [k d q p c s po t ex| |]; cbn [maker_side_of]; try exact I.
    subst k. exists book, b, bs, a, as_.
    repeat split; try assumption. apply Hin. left. reflexivity. }
  cbn [snd] in Hacc. destruct m; cbn [snd]; apply Forall_app; split; assumption.
Qed.

(** X26.  With a non-negative [retreat_ticks], every limit order in a
    response of EliteImbalanceMarketMaker names a two-sided book of the tick
    and rests on the maker side of its touch: a buy is priced strictly below
    the best ask and a sell strictly above the best bid, also after the
    toxic retreat, the rounding and the one-sided fallback. *)
Theorem EliteImbalance_quotes_on_maker_side cfg self su :
  (0 <= retreat_ticks cfg)%Z ->
  Forall (maker_side_of (books su))
         (snd (respond snapshot_imbalance book_trades cfg self su)).
Proof.
  intros Hr. unfold respond.
  apply loop_maker_side; [exact Hr|auto|constructor].
Qed.

Lemma body_stops_risky_side cfg self su book_id book account instrs mid
      b bs a as_ :
  bids book = b :: bs -> asks book = a :: as_ ->
  dict_get (accounts self) book_id = Some account ->
  book_body snapshot_imbalance book_trades cfg self su book_id book
  = Ok (instrs, Some mid) ->
  let inv_dev := _inventory_frac account mid - inv_target_frac cfg in
  inv_limit_frac cfg < Qabs inv_dev ->
  mid = 0.5 * (lvl_price b + lvl_price a)
  /\ (forall i, In i instrs -> places (risk_increasing inv_dev) book_id i = false)
  /\ (forall o, In o (orders account) ->
                ord_side o = risk_increasing inv_dev ->
                cancels book_id (ord_id o) instrs).
Proof.
  intros Eb Ea Hacc H inv_dev Hover.
  destruct (body_shape cfg self su book_id book account instrs mid b bs a as_
              Eb Ea Hacc H)
    as (ids & fees & bid & ask & bq & aq & expiry & -> & Hm & _ & Hl).
  fold inv_dev in Hl. destruct (Hl Hover) as [Hz Hc]. clear Hl H.
  split; [exact Hm|].
  unfold inv_dev in *. clear inv_dev Hover.
  set (dv := _inventory_frac account mid - inv_target_frac cfg) in *.
  clearbody dv. split.
  - intros i Hi. apply in_app_or in Hi as [Hi|Hi].
    { destruct ids; [contradiction|]. destruct Hi as [<-|[]]. reflexivity. }
    apply in_app_or in Hi as [Hi|Hi].
    + apply emergency_unwind_markets in Hi as [q ->].
      unfold risk_increasing. cbn [places].
      destruct (Py.ltb 0 dv); cbn [direction_eqb]; apply andb_false_r.
    + unfold place_quotes in Hi. destruct fees; [contradiction|].
      specialize (Hz eq_refl). unfold risk_increasing.
      destruct (Py.ltb 0 dv); subst;
        apply in_app_or in Hi as [Hi|Hi];
        match type of Hi with
        | In _ (if ?c then _ else _) => destruct c eqn:Ec
        end; try contradiction; try (vm_compute in Ec; discriminate);
        destruct Hi as [<-|[]]; cbn [places direction_eqb]; apply andb_false_r.
  - intros o Ho Hs. specialize (Hc o Ho Hs).
    exists (sorted_set ids). split; [|apply sorted_set_In, Hc].
    apply in_or_app. left. destruct ids; [contradiction|]. left. reflexivity.
Qed.

(** X27.  Beyond the hard inventory limit EliteImbalanceMarketMaker stops
    quoting the side that adds to the position.  For a book whose account
    has an inventory deviation above [inv_limit_frac] in absolute value, the
    instructions of the book contain no limit and no market order on the
    risk-increasing side (buys when long, sells otherwise), and every open
    order of the account on that side is cancelled. *)
Theorem EliteImbalance_stops_risky_side cfg self su book_id book account
        instrs mid :
  dict_get (accounts self) book_id = Some account ->
  book_body snapshot_imbalance book_trades cfg self su book_id book
  = Ok (instrs, Some mid) ->
  let inv_dev := _inventory_frac account mid - inv_target_frac cfg in
  inv_limit_frac cfg < Qabs inv_dev ->
  (forall i, In i instrs -> places (risk_increasing inv_dev) book_id i = false)
  /\ (forall o, In o (orders account) ->
                ord_side o = risk_increasing inv_dev ->
                cancels book_id (ord_id o) instrs).
Proof.
  intros Hacc H inv_dev Hover.
  destruct (bids book) as [|b bs] eqn:Eb.
  { unfold book_body in H. rewrite Eb in H. discriminate. }
  destruct (asks book) as [|a as_] eqn:Ea.
  { unfold book_body in H. rewrite Eb, Ea in H. discriminate. }
  eapply body_stops_risky_side; eassumption.
Qed.

End EliteImbalanceQuotes.

Lemma EliteImbalance_quotes_on_maker_side_witness :
  Forall (maker_side_of (EliteImbalanceMarketMaker.books elite_imbalance_tick))
         (snd (EliteImbalanceMarketMaker.respond
                 imbalance_tenth no_trades
                 (EliteImbalanceMarketMaker.default_config 2 2)
                 elite_imbalance_long_agent elite_imbalance_tick)).
Proof.
  apply (EliteImbalance_quotes_on_maker_side imbalance_tenth no_trades
           (EliteImbalanceMarketMaker.default_config 2 2)
           elite_imbalance_long_agent elite_imbalance_tick).
  vm_compute. discriminate.
Defined.

Lemma EliteImbalance_stops_risky_side_witness :
  exists instrs,
    EliteImbalanceMarketMaker.book_body
      imbalance_tenth no_trades (EliteImbalanceMarketMaker.default_config 2 2)
      elite_imbalance_long_agent elite_imbalance_tick 1 sample_book
    = Ok (instrs, Some 100.000)
    /\ (forall i, In i instrs -> places BUY 1 i = false)
    /\ cancels 1 7 instrs.
Proof.
  eexists. split; [vm_compute; reflexivity|].
  destruct (EliteImbalance_stops_risky_side
              imbalance_tenth no_trades
              (EliteImbalanceMarketMaker.default_config 2 2)
              elite_imbalance_long_agent elite_imbalance_tick 1 sample_book
              (account 5.0 1000.0 [resting 7 BUY 99.0 0]) _ 100.000
              ltac:(reflexivity) ltac:(vm_compute; reflexivity)
              ltac:(vm_compute; reflexivity)) as [H1 H2].
  split.
  - exact H1.
  - apply (H2 (resting 7 BUY 99.0 0)); [left; reflexivity|reflexivity].
Defined.

(* ===================================================================== *)
(** * SmartOrderBookAgent: the inventory kept from the trade events *)
(* ===================================================================== *)

Section SmartInventory.

Import SmartOrderBookAgent.

Variable np_std : list Q -> Q.

Lemma events_fold cfg book_id evs (inv inv' : option (gmap Z Q)) k :
  for_each (fun inv ev =>
              let change := trade_change cfg ev in
              if Py.eqb change 0 then Ok inv
              else
                match inv with
                | None => Raise AttributeError
                | Some m =>
                    Ok (Some (<[book_id := default 0.0 (m !! book_id) + change]> m))
                end)
           evs inv = Ok inv' ->
  default 0.0 (default ∅ inv' !! k)
  == default 0.0 (default ∅ inv !! k)
     + (if Z.eqb book_id k
        then fold_right (fun ev acc' => trade_change cfg ev + acc') 0 evs
        else 0).
Proof.
  revert inv. induction evs as [|ev evs IH]; intros inv H;
    cbn [for_each fold_right] in *.
  - assert (E : inv' = inv) by congruence. rewrite E.
    destruct (Z.eqb book_id k); lra.
  - cbv zeta in H.
    destruct (Py.eqb (trade_change cfg ev) 0) eqn:E; py_hyps; cbn [bind] in H.
    + rewrite (IH _ H). destruct (Z.eqb book_id k); lra.
    + destruct inv as [m|]; [|discriminate]. cbn [bind] in H.
      rewrite (IH _ H). cbn [default from_option Datatypes.id].
      destruct (Z.eqb book_id k) eqn:Ek.
      * apply Z.eqb_eq in Ek. subst k. rewrite lookup_insert_eq.
        cbn [default from_option Datatypes.id]. lra.
      * apply Z.eqb_neq in Ek. rewrite lookup_insert_ne by exact Ek. lra.
Qed.

Lemma update_inventory_net cfg bks (inv inv' : option (gmap Z Q)) k :
  update_inventory cfg bks inv = Ok inv' ->
  default 0.0 (default ∅ inv' !! k)
  == default 0.0 (default ∅ inv !! k) + net_fills cfg bks k.
Proof.
  unfold update_inventory, net_fills. revert inv.
  induction bks as [|[book_id book] bks IH]; intros inv H;
    cbn [for_each fold_right] in *.
  - assert (E : inv' = inv) by congruence. rewrite E. lra.
  - match type of H with
    | bind ?X _ = _ => destruct X as [inv1|e] eqn:E1; [|discriminate]
    end.
    cbn [bind] in H. rewrite (IH _ H).
    rewrite (events_fold cfg book_id (events book) inv inv1 k E1). lra.
Qed.

(** The first loop creates the inventory where it is absent and never
    changes an entry of it. *)
Lemma first_loop_inventory cfg su bks st st' :
  for_each (book_body np_std cfg su) bks st = Ok st' ->
  default ∅ (inventory (fst st')) = default ∅ (inventory (fst st)).
Proof.
  revert st. induction bks as [|[book_id book] bks IH]; intros [self resp] H;
    cbn [for_each] in H.
  - congruence.
  - destruct (book_body np_std cfg su (self, resp) (book_id, book))
      as [st1|e] eqn:E; [|discriminate].
    cbn [bind] in H. rewrite (IH _ H). clear H IH.
    unfold book_body in E.
    destruct (bids book); [congruence|]. destruct (asks book); [congruence|].
    cbv zeta in E. destruct (accounts su); [|discriminate].
    cbn [bind] in E.
    assert (Es : inventory (fst st1) = Some (default ∅ (inventory self))).
    { destruct st1 as [s1 r1]. cbn [fst].
      assert (Hs : s1 = {| mid_price_history := mid_price_history s1;
                           volatility := volatility s1;
                           inventory := Some (default ∅ (inventory self)) |}).
      { injection E as E1 _. rewrite <- E1. reflexivity. }
      rewrite Hs. reflexivity. }
    rewrite Es. reflexivity.
Qed.

(** X28.  A tick of SmartOrderBookAgent changes the tracked inventory of a
    book by exactly the net quantity of the agent's own fills among the
    events of that book: a fill as maker counts against the side of the
    trade, a fill as taker with it, a trade in which the agent is both counts
    once as maker, and the trades of others and of other books count for
    nothing.  An inventory that does not exist yet reads as 0 for every
    book. *)
Theorem SmartOrderBook_inventory_follows_fills cfg self su self' resp k :
  respond np_std cfg self su = Ok (self', resp) ->
  default 0.0 (default ∅ (inventory self') !! k)
  == default 0.0 (default ∅ (inventory self) !! k) + net_fills cfg (books su) k.
Proof.
  unfold respond. intros H.
  destruct (for_each (book_body np_std cfg su) (books su) (self, []))
    as [[self1 response]|e] eqn:E; [|discriminate].
  cbn [bind] in H.
  destruct (update_inventory cfg (books su) (inventory self1))
    as [inv'|e] eqn:E2; [|discriminate].
  cbn [bind] in H.
  assert (Hs : inventory self' = inv').
  { assert (Hs : self' = {| mid_price_history := mid_price_history self1;
                            volatility := volatility self1;
                            inventory := inv' |}) by congruence.
    rewrite Hs. reflexivity. }
  rewrite Hs, (update_inventory_net _ _ _ _ k E2).
  apply first_loop_inventory in E. cbn [fst] in E. rewrite E. reflexivity.
Qed.

End SmartInventory.

Lemma SmartOrderBook_inventory_follows_fills_witness :
  exists self' resp,
    SmartOrderBookAgent.respond np_std_unreached
      (SmartOrderBookAgent.default_config 0) SmartOrderBookAgent.initial
      smart_fills_tick = Ok (self', resp)
    /\ default 0.0 (default ∅ (SmartOrderBookAgent.inventory self') !! 1%Z) == 1.5.
Proof.
  eexists _, _. split; [vm_compute; reflexivity|].
  rewrite (SmartOrderBook_inventory_follows_fills
             np_std_unreached (SmartOrderBookAgent.default_config 0)
             SmartOrderBookAgent.initial smart_fills_tick _ _ 1%Z
             ltac:(vm_compute; reflexivity)).
  vm_compute. reflexivity.
Defined.

(* ===================================================================== *)
(** * SmartMarketMaker: the ladder *)
(* ===================================================================== *)

Section SmartLadderShape.

Import SmartMarketMaker.

Lemma rung_half_mono cfg spread (i j : Z) :
  0 <= spread -> 0 <= level_spacing_bps cfg -> (i <= j)%Z ->
  spread * (1 + (inject_Z i * level_spacing_bps cfg / 10.0)) / 2.0
  <= spread * (1 + (inject_Z j * level_spacing_bps cfg / 10.0)) / 2.0.
Proof.
  intros Hs Hl Hij. rewrite Zle_Qle in Hij.
  set (s := level_spacing_bps cfg) in *. clearbody s.
  assert (H1 : inject_Z i * s <= inject_Z j * s)
    by (apply Qmult_le_compat_r; assumption).
  assert (H2 : spread * (inject_Z i * s) <= spread * (inject_Z j * s)).
  { rewrite !(Qmult_comm spread). apply Qmult_le_compat_r; assumption. }
  set (x := inject_Z i * s) in *. set (y := inject_Z j * s) in *.
  clearbody x y.
  assert (E : forall z, spread * (1 + z / 10.0) / 2.0
                        == spread / 2 + spread * z / 20) by (intros; field).
  rewrite !E. clear E.
  assert (H3 : spread * x / 20 <= spread * y / 20)
    by (apply Qmult_le_compat_r; [exact H2 | discriminate]).
  lra.
Qed.

(** X29.  With a non-negative spread and level spacing, a deeper rung of the
    SmartMarketMaker ladder never quotes inside a shallower one: its bid is
    at most and its ask at least those of the shallower rung.  A rung that
    is skipped means every shallower rung is skipped as well, so the rungs
    placed are the deepest ones. *)
Theorem SmartMM_deeper_rungs_are_wider cfg su book_id c spread q (i j : Z) :
  0 <= spread -> 0 <= level_spacing_bps cfg -> (i <= j)%Z ->
  let shallow := ladder_level cfg su book_id c spread q i in
  let deep := ladder_level cfg su book_id c spread q j in
  (forall x y p p', In x shallow -> In y deep ->
     (limit_price BUY x = Some p -> limit_price BUY y = Some p' -> p' <= p)
     /\ (limit_price SELL x = Some p -> limit_price SELL y = Some p' -> p <= p'))
  /\ (deep = [] -> shallow = []).
Proof.
  intros Hs Hl Hij. cbv zeta.
  pose proof (rung_half_mono cfg spread i j Hs Hl Hij) as Hh.
  unfold ladder_level. cbv zeta.
  set (hi := spread * (1 + (inject_Z i * level_spacing_bps cfg / 10.0)) / 2.0) in *.
  set (hj := spread * (1 + (inject_Z j * level_spacing_bps cfg / 10.0)) / 2.0) in *.
  clearbody hi hj.
  pose proof (round_mono (c - hj) (c - hi) (priceDecimals su) ltac:(lra)) as Hb.
  pose proof (round_mono (c + hi) (c + hj) (priceDecimals su) ltac:(lra)) as Ha.
  set (bi := Py.round (c - hi) (priceDecimals su)) in *.
  set (bj := Py.round (c - hj) (priceDecimals su)) in *.
  set (ai := Py.round (c + hi) (priceDecimals su)) in *.
  set (aj := Py.round (c + hj) (priceDecimals su)) in *.
  clearbody bi bj ai aj.
  destruct (Py.leb (Py.round q (volumeDecimals su)) 0) eqn:Eq.
  { split; [intros x y p p' []|reflexivity]. }
  destruct (Py.leb ai bi) eqn:Ei; destruct (Py.leb aj bj) eqn:Ej; py_hyps.
  - split; [intros x y p p' []|reflexivity].
  - split; [intros x y p p' []|reflexivity].
  - exfalso. lra.
  - split; [|discriminate].
    intros x y p p' Hx Hy.
    destruct Hx as [<-|[<-|[]]]; destruct Hy as [<-|[<-|[]]];
      cbn [limit_price direction_eqb]; split; intros E1 E2;
      try discriminate; injection E1 as <-; injection E2 as <-; assumption.
Qed.

Lemma SmartMM_deeper_rungs_are_wider_witness :
  In (limit_order 1 BUY 0.50 99.90 None None (Some true) (Some GTT)
                  (Some 10000000000%Z))
     (ladder_level (default_config 0) smart_long_state 1 100.0 0.2 0.5 0)
  /\ In (limit_order 1 BUY 0.50 99.75 None None (Some true) (Some GTT)
                     (Some 10000000000%Z))
        (ladder_level (default_config 0) smart_long_state 1 100.0 0.2 0.5 3)
  /\ 99.75 <= 99.90.
Proof.
  assert (Hx : In (limit_order 1 BUY 0.50 99.90 None None (Some true) (Some GTT)
                               (Some 10000000000%Z))
                  (ladder_level (default_config 0) smart_long_state 1 100.0
                                0.2 0.5 0))
    by (vm_compute; left; reflexivity).
  assert (Hy : In (limit_order 1 BUY 0.50 99.75 None None (Some true) (Some GTT)
                               (Some 10000000000%Z))
                  (ladder_level (default_config 0) smart_long_state 1 100.0
                                0.2 0.5 3))
    by (vm_compute; left; reflexivity).
  split; [exact Hx|]. split; [exact Hy|].
  destruct (SmartMM_deeper_rungs_are_wider
              (default_config 0) smart_long_state 1 100.0 0.2 0.5 0 3
              ltac:(vm_compute; discriminate) ltac:(vm_compute; discriminate)
              ltac:(lia)) as [H _].
  exact (proj1 (H _ _ 99.90 99.75 Hx Hy) eq_refl eq_refl).
Defined.

Variable np_std : list Q -> Q.

Lemma round_one_lot (d : Z) : Py.round (1.0 / Py.pow10 d) d == 1 / Py.pow10 d.
Proof.
  pose proof (pow10_pos d) as HP. unfold Py.round.
  assert (E : 1.0 / Py.pow10 d * Py.pow10 d == inject_Z 1).
  { change (inject_Z 1) with 1. field. lra. }
  rewrite E, round_half_even_Z. reflexivity.
Qed.

Lemma book_quotes_one_lot cfg su book_id book mid vol :
  Forall (quantity_at_least (1 / Py.pow10 (volumeDecimals su)))
         (fst (book_quotes cfg su book_id book mid vol)).
Proof.
  unfold book_quotes.
  destruct (accounts su) as [accts|]; [|constructor].
  destruct (dict_get accts (uid cfg)) as [by_book|]; [|constructor].
  destruct (dict_get by_book book_id) as [account|]; [|constructor].
  cbv zeta.
  assert (Hc : Forall (quantity_at_least (1 / Py.pow10 (volumeDecimals su)))
                      match orders account with
                      | [] => []
                      | os => [cancel_orders book_id (map ord_id os)]
                      end).
  { destruct (orders account); repeat constructor. }
  destruct (Py.eqb mid 0); cbn [fst]; [exact Hc|].
  apply Forall_app. split; [exact Hc|].
  apply List.Forall_forall. intros i Hi.
  apply in_flat_map in Hi as (k & _ & Hi).
  unfold ladder_level in Hi. cbv zeta in Hi.
  match type of Hi with
  | context [Py.round (Qmax ?x ?y) ?d] =>
      assert (Hq : 1 / Py.pow10 (volumeDecimals su) <= Py.round (Qmax x y) d)
  end.
  { rewrite <- round_one_lot. apply round_mono, Q.le_max_r. }
  destruct (Py.leb _ 0); [contradiction|].
  destruct (Py.leb _ _); [contradiction|].
  destruct Hi as [<-|[<-|[]]]; exact Hq.
Qed.

(** X30.  Every limit order in a response of SmartMarketMaker has a
    quantity of at least one lot, [1 / 10 ** volumeDecimals]: the floor on
    the rung size survives the rounding, so the check for a non-positive
    quantity never drops a rung. *)
Theorem SmartMM_orders_at_least_one_lot cfg history su :
  Forall (quantity_at_least (1 / Py.pow10 (volumeDecimals su)))
         (respond np_std cfg history su).
Proof.
  unfold respond. apply List.Forall_forall. intros i Hi.
  apply in_flat_map in Hi as ([book_id book] & _ & Hi).
  unfold book_body in Hi.
  destruct (bids book); [contradiction|]. destruct (asks book); [contradiction|].
  cbv zeta in Hi.
  eapply List.Forall_forall; [apply book_quotes_one_lot|exact Hi].
Qed.

End SmartLadderShape.
